(** * TrustNoCorpo: the encrypted build ledger and its build identifiers

    A shallow embedding of [tnc/logger.py] (class [BuildLogger]) and of the
    parts of [tnc/core.py] that produce build identifiers and the LaTeX
    style carrying the recipient token.

    Conventions of the embedding.
    - A Python [str] is a Rocq [string] holding the UTF-8 bytes of the text,
      so [s.encode()] is the identity on the representation, string equality
      and SQLite's BINARY collation are byte-wise, and slicing counts code
      points (bytes that are not UTF-8 continuation bytes).  A Python
      [bytes] value is a [string] too.
    - [hashlib.md5] and [hashlib.sha256] are written out (RFC 1321 and
      FIPS 180-4) over 32-bit words held in [Z].
    - [cryptography.fernet], [json] and [base64] are library interfaces
      (type classes below); their round-trip laws are stated separately.
    - The SQLite table [encrypted_builds] is a list of rows in rowid order
      together with the AUTOINCREMENT counter.
    - [try: ... except Exception:] blocks are modelled with [option]:
      [None] stands for the exception that the handler catches. *)

From Stdlib Require Import ZArith List String Ascii Bool Lia.
From Stdlib Require Import Sorting.Sorted Sorting.Permutation.
From Stdlib Require DecimalString DecimalZ.
Import ListNotations.

Local Open Scope string_scope.
Local Open Scope list_scope.
Local Open Scope Z_scope.

(** String concatenation, as in an f-string or [+] on [str]. *)
Local Infix "+++" := String.append (right associativity, at level 60).

(** ** Python strings *)

Module PyStr.

(** Bytes of a string, as numbers in [0, 256). *)
Fixpoint to_bytes (s : string) : list Z :=
  match s with
  | EmptyString => []
  | String c s' => Z.of_N (N_of_ascii c) :: to_bytes s'
  end.

(** A UTF-8 continuation byte, [10xxxxxx]. *)
Definition is_continuation (c : ascii) : bool :=
  let n := N_of_ascii c in (128 <=? n)%N && (n <? 192)%N.

(** The continuation bytes at the front of [s] are dropped from [s] and
    returned: the tail of the code point whose lead byte came before. *)
Fixpoint span_continuation (s : string) : string * string :=
  match s with
  | String c s' =>
      if is_continuation c
      then let (k, r) := span_continuation s' in (String c k, r)
      else (EmptyString, s)
  | EmptyString => (EmptyString, EmptyString)
  end.


(** [s[:n]]: the first [n] code points. *)
Fixpoint take (n : nat) (s : string) : string :=
  match n, s with
  | O, _ => EmptyString
  | _, EmptyString => EmptyString
  | S n', String c s' =>
      let (k, r) := span_continuation s' in String c (k +++ take n' r)
  end.

(** Truthiness of an [Optional[str]]: [None] and [""] are false. *)
Definition truthy (o : option string) : bool :=
  match o with
  | Some (String _ _) => true
  | _ => false
  end.


Fixpoint all_chars (p : ascii -> bool) (s : string) : bool :=
  match s with
  | EmptyString => true
  | String c s' => p c && all_chars p s'
  end.

(** Every byte starts a code point: the text has no multi-byte character. *)
Definition single_byte (s : string) : bool :=
  all_chars (fun c => negb (is_continuation c)) s.

(** [s.replace(old, new)], scanning left to right; [skip] counts the
    characters of a match that are still to be dropped. *)
Fixpoint replace_from (skip : nat) (old new s : string) : string :=
  match s with
  | EmptyString => EmptyString
  | String c s' =>
      match skip with
      | S k => replace_from k old new s'
      | O =>
          if prefix old s && negb (String.eqb old EmptyString)
          then new +++ replace_from (Nat.pred (String.length old)) old new s'
          else String c (replace_from O old new s')
      end
  end.

Definition replace (old new s : string) : string := replace_from O old new s.

(** The byte at index [i] is overwritten; an index past the end changes
    nothing. *)
Fixpoint set_byte (i : nat) (c : ascii) (s : string) : string :=
  match s, i with
  | EmptyString, _ => EmptyString
  | String _ s', O => String c s'
  | String x s', S j => String x (set_byte j c s')
  end.

(** [needle in s] for strings. *)
Fixpoint contains (needle s : string) : bool :=
  prefix needle s
  || match s with
     | EmptyString => false
     | String _ s' => contains needle s'
     end.

End PyStr.

(** ** Hexadecimal digests *)

Module Hex.

Definition digit (n : Z) : ascii :=
  ascii_of_N (Z.to_N (if n <? 10 then 48 + n else 87 + n)).

(** Two lowercase hexadecimal digits of one byte. *)
Definition of_byte (b : Z) : string :=
  String (digit (Z.land (Z.shiftr b 4) 15)) (String (digit (Z.land b 15)) EmptyString).

Fixpoint of_bytes (bs : list Z) : string :=
  match bs with
  | [] => EmptyString
  | b :: bs' => of_byte b +++ of_bytes bs'
  end.

End Hex.

(** ** 32-bit words *)

Module Word32.

Definition wrap (x : Z) : Z := Z.land x 4294967295.
Definition add (x y : Z) : Z := wrap (x + y).
Definition not (x : Z) : Z := Z.lxor x 4294967295.
Definition rotl (x n : Z) : Z :=
  wrap (Z.lor (Z.shiftl x n) (Z.shiftr x (32 - n))).
Definition rotr (x n : Z) : Z := rotl x (32 - n).

Definition of_le (b0 b1 b2 b3 : Z) : Z :=
  Z.lor b0 (Z.lor (Z.shiftl b1 8) (Z.lor (Z.shiftl b2 16) (Z.shiftl b3 24))).
Definition of_be (b0 b1 b2 b3 : Z) : Z := of_le b3 b2 b1 b0.

Definition to_le (w : Z) : list Z :=
  [Z.land w 255; Z.land (Z.shiftr w 8) 255;
   Z.land (Z.shiftr w 16) 255; Z.land (Z.shiftr w 24) 255].
Definition to_be (w : Z) : list Z := rev (to_le w).

(** Words of a block, four bytes at a time; a short tail is dropped
    (blocks are always whole). *)
Fixpoint words (mk : Z -> Z -> Z -> Z -> Z) (bs : list Z) : list Z :=
  match bs with
  | b0 :: b1 :: b2 :: b3 :: r => mk b0 b1 b2 b3 :: words mk r
  | _ => []
  end.

(** The 64-bit length field. *)
Definition len64_le (n : Z) : list Z := to_le (wrap n) ++ to_le (wrap (Z.shiftr n 32)).
Definition len64_be (n : Z) : list Z := rev (len64_le n).

(** Message padding shared by MD5 and SHA-256: a [0x80] byte, zeros up to
    56 modulo 64, then the bit length. *)
Definition pad (len64 : Z -> list Z) (msg : list Z) : list Z :=
  let n := Z.of_nat (List.length msg) in
  let zeros := Z.to_nat ((55 - n) mod 64) in
  msg ++ [128] ++ repeat 0 zeros ++ len64 (8 * n).

(** Cut a padded message into 64-byte blocks. *)
Fixpoint blocks (fuel : nat) (bs : list Z) : list (list Z) :=
  match fuel, bs with
  | O, _ => []
  | _, [] => []
  | S f, _ => firstn 64 bs :: blocks f (skipn 64 bs)
  end.

End Word32.

(** ** [hashlib.md5] (RFC 1321) *)

Module MD5.
Import Word32.

Definition K : list Z :=
  [0xd76aa478; 0xe8c7b756; 0x242070db; 0xc1bdceee;
   0xf57c0faf; 0x4787c62a; 0xa8304613; 0xfd469501;
   0x698098d8; 0x8b44f7af; 0xffff5bb1; 0x895cd7be;
   0x6b901122; 0xfd987193; 0xa679438e; 0x49b40821;
   0xf61e2562; 0xc040b340; 0x265e5a51; 0xe9b6c7aa;
   0xd62f105d; 0x02441453; 0xd8a1e681; 0xe7d3fbc8;
   0x21e1cde6; 0xc33707d6; 0xf4d50d87; 0x455a14ed;
   0xa9e3e905; 0xfcefa3f8; 0x676f02d9; 0x8d2a4c8a;
   0xfffa3942; 0x8771f681; 0x6d9d6122; 0xfde5380c;
   0xa4beea44; 0x4bdecfa9; 0xf6bb4b60; 0xbebfbc70;
   0x289b7ec6; 0xeaa127fa; 0xd4ef3085; 0x04881d05;
   0xd9d4d039; 0xe6db99e5; 0x1fa27cf8; 0xc4ac5665;
   0xf4292244; 0x432aff97; 0xab9423a7; 0xfc93a039;
   0x655b59c3; 0x8f0ccc92; 0xffeff47d; 0x85845dd1;
   0x6fa87e4f; 0xfe2ce6e0; 0xa3014314; 0x4e0811a1;
   0xf7537e82; 0xbd3af235; 0x2ad7d2bb; 0xeb86d391].

Definition S : list Z :=
  [7; 12; 17; 22; 7; 12; 17; 22; 7; 12; 17; 22; 7; 12; 17; 22;
   5; 9; 14; 20; 5; 9; 14; 20; 5; 9; 14; 20; 5; 9; 14; 20;
   4; 11; 16; 23; 4; 11; 16; 23; 4; 11; 16; 23; 4; 11; 16; 23;
   6; 10; 15; 21; 6; 10; 15; 21; 6; 10; 15; 21; 6; 10; 15; 21].

Record state := mk { A : Z; B : Z; C : Z; D : Z }.

Definition init : state :=
  mk 0x67452301 0xefcdab89 0x98badcfe 0x10325476.

Definition round (M : list Z) (st : state) (i : nat) : state :=
  let (a, b, c, d) := st in
  let iz := Z.of_nat i in
  let '(f, g) :=
    if iz <? 16 then (Z.lor (Z.land b c) (Z.land (not b) d), iz)
    else if iz <? 32 then (Z.lor (Z.land d b) (Z.land (not d) c), (5 * iz + 1) mod 16)
    else if iz <? 48 then (Z.lxor b (Z.lxor c d), (3 * iz + 5) mod 16)
    else (Z.lxor c (Z.lor b (not d)), (7 * iz) mod 16) in
  let f' := add (add (add f a) (nth i K 0)) (nth (Z.to_nat g) M 0) in
  mk d (add b (rotl f' (nth i S 0))) b c.

Definition compress (st : state) (block : list Z) : state :=
  let M := words of_le block in
  let st' := fold_left (round M) (seq 0 64) st in
  mk (add (A st) (A st')) (add (B st) (B st'))
     (add (C st) (C st')) (add (D st) (D st')).

Definition digest (msg : list Z) : list Z :=
  let p := pad len64_le msg in
  let st := fold_left compress (blocks (List.length p) p) init in
  to_le (A st) ++ to_le (B st) ++ to_le (C st) ++ to_le (D st).

(** [hashlib.md5(data).hexdigest()] *)
Definition hexdigest (data : string) : string :=
  Hex.of_bytes (digest (PyStr.to_bytes data)).

End MD5.

(** ** [hashlib.sha256] (FIPS 180-4) *)

Module SHA256.
Import Word32.

(** The round constants: the first 32 bits of the fractional parts of the
    cube roots of the first 64 primes. *)
Definition K : list Z :=
  [1116352408; 1899447441; 3049323471; 3921009573;
   961987163; 1508970993; 2453635748; 2870763221;
   3624381080; 310598401; 607225278; 1426881987;
   1925078388; 2162078206; 2614888103; 3248222580;
   3835390401; 4022224774; 264347078; 604807628;
   770255983; 1249150122; 1555081692; 1996064986;
   2554220882; 2821834349; 2952996808; 3210313671;
   3336571891; 3584528711; 113926993; 338241895;
   666307205; 773529912; 1294757372; 1396182291;
   1695183700; 1986661051; 2177026350; 2456956037;
   2730485921; 2820302411; 3259730800; 3345764771;
   3516065817; 3600352804; 4094571909; 275423344;
   430227734; 506948616; 659060556; 883997877;
   958139571; 1322822218; 1537002063; 1747873779;
   1955562222; 2024104815; 2227730452; 2361852424;
   2428436474; 2756734187; 3204031479; 3329325298].

(** The initial hash value: the first 32 bits of the fractional parts of
    the square roots of the first 8 primes. *)
Definition H0 : list Z :=
  [1779033703; 3144134277; 1013904242; 2773480762;
   1359893119; 2600822924; 528734635; 1541459225].

(** The first 64 primes, to check the two tables against. *)
Definition primes : list Z :=
  [2; 3; 5; 7; 11; 13; 17; 19; 23; 29; 31; 37; 41; 43; 47; 53; 59; 61; 67;
   71; 73; 79; 83; 89; 97; 101; 103; 107; 109; 113; 127; 131; 137; 139; 149;
   151; 157; 163; 167; 173; 179; 181; 191; 193; 197; 199; 211; 223; 227;
   229; 233; 239; 241; 251; 257; 263; 269; 271; 277; 281; 283; 293; 307;
   311].

(** [k] is the first 32 bits of the fractional part of the cube root of
    [p]: with [a] the integer part, [a * 2^32 + k] is the integer cube
    root of [p * 2^96]. *)
Definition is_cube_root_fraction (p k : Z) : bool :=
  existsb (fun a =>
             let r := a * 2 ^ 32 + k in
             (r * r * r <=? p * 2 ^ 96) && (p * 2 ^ 96 <? (r + 1) * (r + 1) * (r + 1)))
          [1; 2; 3; 4; 5; 6].

Definition is_square_root_fraction (p h : Z) : bool :=
  (0 <=? h) && (h <? 2 ^ 32) && (Z.sqrt (p * 2 ^ 64) mod 2 ^ 32 =? h).

Definition ssig0 (x : Z) := Z.lxor (rotr x 7) (Z.lxor (rotr x 18) (Z.shiftr x 3)).
Definition ssig1 (x : Z) := Z.lxor (rotr x 17) (Z.lxor (rotr x 19) (Z.shiftr x 10)).
Definition bsig0 (x : Z) := Z.lxor (rotr x 2) (Z.lxor (rotr x 13) (rotr x 22)).
Definition bsig1 (x : Z) := Z.lxor (rotr x 6) (Z.lxor (rotr x 11) (rotr x 25)).
Definition ch (x y z : Z) := Z.lxor (Z.land x y) (Z.land (not x) z).
Definition maj (x y z : Z) := Z.lxor (Z.land x y) (Z.lxor (Z.land x z) (Z.land y z)).

(** The message schedule, newest word first. *)
Definition extend (W : list Z) (_ : nat) : list Z :=
  add (add (ssig1 (nth 1 W 0)) (nth 6 W 0))
      (add (ssig0 (nth 14 W 0)) (nth 15 W 0)) :: W.

Definition schedule (block : list Z) : list Z :=
  rev (fold_left extend (seq 16 48) (rev (words of_be block))).

Definition round (W : list Z) (v : list Z) (i : nat) : list Z :=
  match v with
  | [a; b; c; d; e; f; g; h] =>
      let t1 := add (add (add h (bsig1 e)) (add (ch e f g) (nth i K 0))) (nth i W 0) in
      let t2 := add (bsig0 a) (maj a b c) in
      [add t1 t2; a; b; c; add d t1; e; f; g]
  | _ => v
  end.

Fixpoint add_words (x y : list Z) : list Z :=
  match x, y with
  | a :: x', b :: y' => add a b :: add_words x' y'
  | _, _ => []
  end.

Definition compress (h : list Z) (block : list Z) : list Z :=
  add_words h (fold_left (round (schedule block)) (seq 0 64) h).

Definition digest (msg : list Z) : list Z :=
  let p := pad len64_be msg in
  flat_map to_be (fold_left compress (blocks (List.length p) p) H0).

(** [hashlib.sha256(data).hexdigest()] *)
Definition hexdigest (data : string) : string :=
  Hex.of_bytes (digest (PyStr.to_bytes data)).

End SHA256.

(** ** JSON values, as [json.loads] returns them *)

Module Json.

#[local] Set Warnings "-register-all".

Inductive value :=
| Null
| Bool (b : bool)
| Int (z : Z)
| Float (literal : string)
| Str (s : string)
| List (items : list value)
| Dict (items : list (string * value)).

Fixpoint lookup (k : string) (items : list (string * value)) : option value :=
  match items with
  | [] => None
  | (k', v) :: rest => if String.eqb k k' then Some v else lookup k rest
  end.

(** [d.get(k, default)].  Only a [dict] has [.get]: on any other value
    Python raises [AttributeError], here [None]. *)
Definition get (d : value) (k : string) (default : value) : option value :=
  match d with
  | Dict items =>
      Some (match lookup k items with Some v => v | None => default end)
  | _ => None
  end.

(** [v == token] for a [str] token. *)
Definition eq_str (v : value) (token : string) : bool :=
  match v with
  | Str s => String.eqb s token
  | _ => false
  end.

(** [Optional[str]] as a JSON value: [None] is [null]. *)
Definition of_optional (o : option string) : value :=
  match o with
  | Some s => Str s
  | None => Null
  end.

Fixpoint keys (items : list (string * value)) : list string :=
  match items with
  | [] => []
  | (k, _) :: rest => k :: keys rest
  end.

(** What [json.dumps] is given by [log_build]: a dict with distinct keys
    whose values are [str], [int] or [None]. *)
Definition scalar (v : value) : bool :=
  match v with
  | Null | Int _ | Str _ => true
  | _ => false
  end.

Fixpoint distinct (ks : list string) : bool :=
  match ks with
  | [] => true
  | k :: rest => negb (existsb (String.eqb k) rest) && distinct rest
  end.

Definition flat_dict (v : value) : bool :=
  match v with
  | Dict items => distinct (keys items) && forallb (fun kv => scalar (snd kv)) items
  | _ => false
  end.

End Json.

(** ** Library interfaces *)

(** [cryptography.fernet.Fernet].  [fernet] is a constructed [Fernet]
    object; [entropy] is what the library draws from [os.urandom] and
    [time.time] in [generate_key] and [encrypt]. *)
Class FernetLib := {
  fernet : Type;
  entropy : Type;
  (** [Fernet.generate_key()] *)
  Fernet_generate_key : entropy -> string;
  (** [Fernet(key)]; [None] when the constructor raises [ValueError]. *)
  Fernet_new : string -> option fernet;
  (** [f.encrypt(data)] *)
  Fernet_encrypt : fernet -> entropy -> string -> string;
  (** [f.decrypt(token)]; [None] when it raises [InvalidToken]. *)
  Fernet_decrypt : fernet -> string -> option string
}.

(** [base64.b64encode(b).decode()] and [base64.b64decode(s)]; [None] when
    the decoder raises [binascii.Error]. *)
Class Base64Lib := {
  b64encode : string -> string;
  b64decode : string -> option string
}.

(** [json.dumps(v).encode()] and [json.loads(b.decode())]; [None] when
    decoding or parsing raises. *)
Class JsonLib := {
  json_dumps : Json.value -> string;
  json_loads : string -> option Json.value
}.

(** What the ledger relies on from the three libraries. *)
Class LibraryLaws `{FernetLib} `{Base64Lib} `{JsonLib} : Prop := {
  generated_key_valid :
    forall e, Fernet_new (Fernet_generate_key e) <> None;
  fernet_roundtrip :
    forall f e data, Fernet_decrypt f (Fernet_encrypt f e data) = Some data;
  b64_roundtrip :
    forall b, b64decode (b64encode b) = Some b;
  json_roundtrip :
    forall v, Json.flat_dict v = true -> json_loads (json_dumps v) = Some v
}.

(** ** The SQLite table [encrypted_builds] *)

Module Sqlite.

Record row := {
  id : Z;
  build_hash : string;
  encrypted_data : string;
  user_fingerprint : string;
  user_signature : string;
  timestamp_utc : string
}.

(** Rows in rowid order, and the largest rowid ever handed out
    ([sqlite_sequence], kept because of AUTOINCREMENT). *)
Record table := {
  rows : list row;
  sequence : Z
}.

(** [CREATE TABLE IF NOT EXISTS encrypted_builds (...)] on a new file. *)
Definition create : table := {| rows := []; sequence := 0 |}.

Definition max_id (rs : list row) : Z :=
  fold_right (fun r m => Z.max (id r) m) 0 rs.

(** [INSERT OR REPLACE INTO encrypted_builds (build_hash, ...) VALUES
    (...)]: the row that conflicts on the UNIQUE column [build_hash] is
    deleted, the new row gets a fresh rowid and goes last.  Returns the
    table and [cursor.lastrowid]. *)
Definition insert_or_replace (t : table)
    (h data fp sig ts : string) : table * Z :=
  let kept := filter (fun r => negb (String.eqb (build_hash r) h)) (rows t) in
  let new_id := Z.max (sequence t) (max_id (rows t)) + 1 in
  let r := {| id := new_id; build_hash := h; encrypted_data := data;
              user_fingerprint := fp; user_signature := sig;
              timestamp_utc := ts |} in
  ({| rows := kept ++ [r]; sequence := new_id |}, new_id).

(** [SELECT ... WHERE build_hash = ?] followed by [fetchone()]. *)
Definition select_by_hash (t : table) (h : string) : option row :=
  find (fun r => String.eqb (build_hash r) h) (rows t).

Fixpoint insert_desc (r : row) (sorted : list row) : list row :=
  match sorted with
  | [] => [r]
  | x :: rest =>
      if String.leb (timestamp_utc x) (timestamp_utc r)
      then r :: sorted
      else x :: insert_desc r rest
  end.

(** [ORDER BY timestamp_utc DESC]: TEXT compared byte-wise.  Rows with
    equal timestamps stay in rowid order; SQLite leaves their order
    open. *)
Definition order_by_timestamp_desc (rs : list row) : list row :=
  fold_right insert_desc [] rs.

(** Newest first: [a] is at least as recent as [b]. *)
Definition newer_or_equal (a b : row) : Prop :=
  String.leb (timestamp_utc b) (timestamp_utc a) = true.

(** A Python [int] is bound to a parameter as a signed 64-bit INTEGER. *)
Definition int64 (n : Z) : bool := (- 2 ^ 63 <=? n) && (n <? 2 ^ 63).

(** [LIMIT ?] with the Python [int] [n] bound to the parameter.  [None]:
    [n] does not fit a 64-bit INTEGER and [execute] raises
    [OverflowError] before anything is selected.  A negative limit means
    no limit. *)
Definition limit (n : Z) (rs : list row) : option (list row) :=
  if int64 n
  then Some (if n <? 0 then rs else firstn (Z.to_nat n) rs)
  else None.


(** [UPDATE encrypted_builds SET encrypted_data = ? WHERE build_hash = ?]:
    the stored ciphertext is changed directly in the backing store; the
    other columns stay. *)
Definition update_encrypted_data (t : table) (h data : string) : table :=
  {| rows :=
       map (fun r =>
              if String.eqb (build_hash r) h
              then {| id := id r; build_hash := build_hash r;
                      encrypted_data := data;
                      user_fingerprint := user_fingerprint r;
                      user_signature := user_signature r;
                      timestamp_utc := timestamp_utc r |}
              else r)
           (rows t);
     sequence := sequence t |}.

End Sqlite.

(** ** [tnc/logger.py]: [BuildLogger] *)

(** The ledger file pair: [<stem>.key] and the database file, in a
    directory that exists and can be written.  [database] is [None] while
    the table [encrypted_builds] does not exist. *)
Record world := {
  key_file : option string;
  database : option Sqlite.table
}.

(** What a call of [log_build] reads from outside its arguments. *)
Record environment `{FernetLib} := {
  (** [os.environ.get('USER')] *)
  env_user : option string;
  (** [datetime.now().isoformat()] *)
  now_iso : string;
  (** [datetime.utcnow().isoformat()] *)
  utcnow_iso : string;
  (** [os.path.getsize(p)] where [os.path.exists(p)], else [None] *)
  file_size : string -> option Z;
  (** [key_manager.get_user_fingerprint()]; [None] when there is none *)
  fingerprint : option string;
  (** randomness and clock used by [fernet.encrypt] *)
  encrypt_entropy : entropy
}.

(** The arguments of [log_build]. *)
Record build_args := {
  arg_build_hash : string;
  arg_generation_info : string;
  arg_generation_time : string;
  arg_classification : string;
  arg_main_file : string;
  arg_pdf_path : option string;
  arg_pdf_password : option string;
  arg_recipient_token : option string
}.

(** One entry of [list_builds]. *)
Record build_summary := {
  s_build_hash : string;
  s_classification : Json.value;
  s_main_file : Json.value;
  s_user_fingerprint : string;
  s_timestamp_iso : Json.value;
  s_pdf_size : Json.value
}.

(** The result of [find_by_recipient_token]. *)
Record token_match := {
  m_build_hash : string;
  m_classification : Json.value;
  m_timestamp_iso : Json.value;
  m_user_fingerprint : string;
  m_main_file : Json.value;
  m_pdf_path : Json.value
}.

Section BuildLogger.

Context `{FernetLib} `{Base64Lib} `{JsonLib}.

(** The attributes of a [BuildLogger]: [self.fernet], unset ([None])
    until [_init_encrypted_database] gets as far as [Fernet(db_key)]. *)
Record logger := {
  self_fernet : option fernet
}.

(** A logger before [__init__] has run [_init_encrypted_database]. *)
Definition new_logger : logger := {| self_fernet := None |}.

(** [_init_encrypted_database]: the key is generated and written when
    the key file is missing and read otherwise; then the schema is
    created if it is not there.  [Fernet(db_key)] raising leaves the
    schema and [self.fernet] as they were (the handler only prints). *)
Definition _init_encrypted_database (w : world) (self : logger) (e : entropy)
  : world * logger :=
  let db_key :=
    match key_file w with
    | None => Fernet_generate_key e
    | Some k => k
    end in
  let w1 := {| key_file := Some db_key; database := database w |} in
  match Fernet_new db_key with
  | None => (w1, self)
  | Some f =>
      ({| key_file := Some db_key;
          database := Some (match database w with
                            | Some t => t
                            | None => Sqlite.create
                            end) |},
       {| self_fernet := Some f |})
  end.

(** ['pdf_password_hint': pdf_password[:8] + "..." if pdf_password else None] *)
Definition pdf_password_hint (pdf_password : option string) : option string :=
  if PyStr.truthy pdf_password
  then match pdf_password with
       | Some p => Some (PyStr.take 8 p +++ "...")
       | None => None
       end
  else None.

(** ['pdf_size': os.path.getsize(pdf_path) if pdf_path and
    os.path.exists(pdf_path) else 0] *)
Definition pdf_size (env : environment) (pdf_path : option string) : Z :=
  if PyStr.truthy pdf_path
  then match pdf_path with
       | Some p => match file_size env p with Some n => n | None => 0 end
       | None => 0
       end
  else 0.

(** The [build_data] dict of [log_build]. *)
Definition build_data (env : environment) (a : build_args) : Json.value :=
  Json.Dict
    [("build_hash", Json.Str (arg_build_hash a));
     ("generation_info", Json.Str (arg_generation_info a));
     ("generation_time", Json.Str (arg_generation_time a));
     ("classification", Json.Str (arg_classification a));
     ("main_file", Json.Str (arg_main_file a));
     ("pdf_path", Json.of_optional (arg_pdf_path a));
     ("pdf_password_hint", Json.of_optional (pdf_password_hint (arg_pdf_password a)));
     ("user", Json.Str (match env_user env with Some u => u | None => "unknown" end));
     ("timestamp_iso", Json.Str (now_iso env));
     ("pdf_size", Json.Int (pdf_size env (arg_pdf_path a)));
     ("recipient_token", Json.of_optional (arg_recipient_token a))].

(** [hashlib.sha256(f"{build_hash}{encrypted_data}".encode()).hexdigest()],
    the two lines shared by [log_build] and [verify_build]. *)
Definition signature (build_hash encrypted_data : string) : string :=
  let signature_data := build_hash +++ encrypted_data in
  SHA256.hexdigest signature_data.

(** [log_build]: the new world and the returned build id; [None] is the
    [except Exception] path, which leaves the ledger as it was.  The
    world is the two files; a call is taken to find the database free.
    A connection that a call leaves open when its INSERT raises keeps
    the write lock until it is collected, and a call made meanwhile
    fails as well (also without writing): that state of the process is
    not part of the world. *)
Definition log_build (w : world) (self : logger) (env : environment)
    (a : build_args) : world * option Z :=
  match self_fernet self with
  | None => (w, None)
  | Some f =>
      let encrypted_token :=
        Fernet_encrypt f (encrypt_entropy env) (json_dumps (build_data env a)) in
      let encrypted_data_b64 := b64encode encrypted_token in
      match fingerprint env with
      | None => (w, None)
      | Some user_fingerprint =>
          let user_signature := signature (arg_build_hash a) encrypted_data_b64 in
          match database w with
          | None => (w, None)
          | Some t =>
              let (t', build_id) :=
                Sqlite.insert_or_replace t (arg_build_hash a) encrypted_data_b64
                  user_fingerprint user_signature (utcnow_iso env) in
              ({| key_file := key_file w; database := Some t' |}, Some build_id)
          end
      end
  end.

(** [json.loads(self.fernet.decrypt(base64.b64decode(encrypted_data)).decode())],
    the two lines every reader of the table runs inside its [try]. *)
Definition decrypt_row (self : logger) (encrypted_data : string)
  : option Json.value :=
  match self_fernet self with
  | None => None
  | Some f =>
      match b64decode encrypted_data with
      | None => None
      | Some token =>
          match Fernet_decrypt f token with
          | None => None
          | Some decrypted_data => json_loads decrypted_data
          end
      end
  end.

(** [verify_build] *)
Definition verify_build (w : world) (self : logger) (build_hash : string) : bool :=
  match database w with
  | None => false
  | Some t =>
      match Sqlite.select_by_hash t build_hash with
      | None => false
      | Some result =>
          let encrypted_data := Sqlite.encrypted_data result in
          let stored_signature := Sqlite.user_signature result in
          let expected_signature := signature build_hash encrypted_data in
          if negb (String.eqb expected_signature stored_signature)
          then false
          else
            match decrypt_row self encrypted_data with
            | None => false
            | Some build_data =>
                match Json.get build_data "classification" (Json.Str "unknown") with
                | None => false
                | Some _ => true
                end
            end
      end
  end.

(** The body of the [for] loop of [list_builds]: the entry appended for
    a row, [None] when the [try] block raises. *)
Definition list_entry (self : logger) (r : Sqlite.row) : option build_summary :=
  match decrypt_row self (Sqlite.encrypted_data r) with
  | None => None
  | Some build_data =>
      match Json.get build_data "classification" (Json.Str "unknown"),
            Json.get build_data "main_file" (Json.Str "unknown"),
            Json.get build_data "timestamp_iso" (Json.Str (Sqlite.timestamp_utc r)),
            Json.get build_data "pdf_size" (Json.Int 0) with
      | Some c, Some m, Some ts, Some sz =>
          Some {| s_build_hash := Sqlite.build_hash r;
                  s_classification := c;
                  s_main_file := m;
                  s_user_fingerprint := Sqlite.user_fingerprint r;
                  s_timestamp_iso := ts;
                  s_pdf_size := sz |}
      | _, _, _, _ => None
      end
  end.

(** Whether the body of the loop appends an entry for the row. *)
Definition listed (self : logger) (r : Sqlite.row) : bool :=
  match list_entry self r with
  | Some _ => true
  | None => false
  end.

(** [list_builds]: [builds] grows by [append]; a row whose [try] block
    raises is skipped by [continue].  When the query raises (no table, or
    a limit that cannot be bound) the outer handler returns [[]]. *)
Definition list_builds (w : world) (self : logger) (limit : Z) : list build_summary :=
  match database w with
  | None => []
  | Some t =>
      match Sqlite.limit limit (Sqlite.order_by_timestamp_desc (Sqlite.rows t)) with
      | None => []
      | Some results =>
          fold_left
            (fun builds r =>
               match list_entry self r with
               | Some entry => builds ++ [entry]
               | None => builds
               end)
            results []
      end
  end.

(** The body of the [for] loop of [find_by_recipient_token]: the dict it
    returns at this row, [None] when it goes on to the next row (the token
    differs, or the [try] block raises). *)
Definition token_entry (self : logger) (token : string) (r : Sqlite.row)
  : option token_match :=
  match decrypt_row self (Sqlite.encrypted_data r) with
  | None => None
  | Some build_data =>
      match Json.get build_data "recipient_token" Json.Null with
      | None => None
      | Some v =>
          if Json.eq_str v token
          then
            match Json.get build_data "classification" (Json.Str "unknown"),
                  Json.get build_data "timestamp_iso" (Json.Str (Sqlite.timestamp_utc r)),
                  Json.get build_data "main_file" Json.Null,
                  Json.get build_data "pdf_path" Json.Null with
            | Some c, Some ts, Some m, Some p =>
                Some {| m_build_hash := Sqlite.build_hash r;
                        m_classification := c;
                        m_timestamp_iso := ts;
                        m_user_fingerprint := Sqlite.user_fingerprint r;
                        m_main_file := m;
                        m_pdf_path := p |}
            | _, _, _, _ => None
            end
          else None
      end
  end.

(** The [for] loop of [find_by_recipient_token]: it returns at the first
    row, in the order given, whose body returns. *)
Fixpoint find_in_rows (self : logger) (token : string) (rows : list Sqlite.row)
  : option token_match :=
  match rows with
  | [] => None
  | r :: rest =>
      match token_entry self token r with
      | Some found => Some found
      | None => find_in_rows self token rest
      end
  end.

(** The decrypted metadata of the row is a dict whose [recipient_token]
    is the given string. *)
Definition carries_token (self : logger) (token : string) (r : Sqlite.row) : Prop :=
  exists items,
    decrypt_row self (Sqlite.encrypted_data r) = Some (Json.Dict items) /\
    Json.lookup "recipient_token" items = Some (Json.Str token).

(** [find_by_recipient_token] *)
Definition find_by_recipient_token (w : world) (self : logger) (token : string)
  : option token_match :=
  match database w with
  | None => None
  | Some t =>
      find_in_rows self token (Sqlite.order_by_timestamp_desc (Sqlite.rows t))
  end.

(** A run of [log_build] calls on one logger. *)
Fixpoint log_builds (w : world) (self : logger)
    (calls : list (environment * build_args)) : world :=
  match calls with
  | [] => w
  | (env, a) :: rest => log_builds (fst (log_build w self env a)) self rest
  end.

End BuildLogger.

(** ** Observing and altering the backing store *)

(** The rows of the table; none while the table does not exist. *)
Definition table_rows (w : world) : list Sqlite.row :=
  match database w with
  | Some t => Sqlite.rows t
  | None => []
  end.

(** The row stored under a build hash. *)
Definition stored_row (w : world) (h : string) : option Sqlite.row :=
  match database w with
  | Some t => Sqlite.select_by_hash t h
  | None => None
  end.


(** The stored ciphertext of one row is overwritten from outside. *)
Definition tamper (w : world) (h data : string) : world :=
  {| key_file := key_file w;
     database :=
       match database w with
       | Some t => Some (Sqlite.update_encrypted_data t h data)
       | None => None
       end |}.

(** The rows [list_builds] goes through: the newest [limit] rows, and
    none when the limit cannot be bound. *)
Definition window (w : world) (limit : Z) : list Sqlite.row :=
  match Sqlite.limit limit (Sqlite.order_by_timestamp_desc (table_rows w)) with
  | Some results => results
  | None => []
  end.

(** The UNIQUE constraint, for a world. *)
Definition world_unique (w : world) : Prop :=
  NoDup (map Sqlite.build_hash (table_rows w)).

(** ** [tnc/core.py]: build identifiers and the LaTeX style *)

(** [_generate_build_hash]; [now] is [datetime.now().isoformat()]. *)
Definition _generate_build_hash (tex_file classification now : string) : string :=
  let content := tex_file +++ classification +++ now in
  PyStr.take 16 (MD5.hexdigest content).

(** [style_content] of [_create_basic_style], the text written to
    [trustnocorpo-spacial.sty]. *)
Definition style_content : string := "
% trustnocorpo LaTeX Style (Embedded Version)
\NeedsTeXFormat{LaTeX2e}
\ProvidesPackage{trustnocorpo-spacial}[2025/08/17 trustnocorpo Cryptographic Style]

\RequirePackage{hyperref}
\RequirePackage{ifthen}
\RequirePackage{xcolor}
\RequirePackage{graphicx}
\RequirePackage{eso-pic}
\RequirePackage{fancyhdr}

% Cryptographic information embedding
\newcommand{\capyEmbedCryptoInfo}{%
    \ifdefined\capyBuildHash%
        \hypersetup{%
            pdfsubject={Build: \capyBuildHash},
            pdfkeywords={trustnocorpo, Crypto, \capyClassification\ifdefined\capyRecipientToken, tnc-token-\capyRecipientToken\fi}
        }%
    \fi%
}

% Optional watermark (uses \capyWatermarkText if defined)
\newcommand{\capyApplyWatermark}{%
    \ifdefined\capyWatermarkText%
        % Defaults
        \ifx\capyWmOpacity\undefined\def\capyWmOpacity{40}\fi
        \ifx\capyWmAngle\undefined\def\capyWmAngle{45}\fi
        % Single center watermark
        \AddToShipoutPictureBG*{%
            \AtPageLowerLeft{%
                \begin{minipage}[b][\paperheight]{\paperwidth}%
                    \centering
                    {\color{gray!\capyWmOpacity}\fontsize{6cm}{6cm}\selectfont\rotatebox{\capyWmAngle}{\capyWatermarkText}}%
                \end{minipage}%
            }%
        }%
        % Optional tiling (simple 3x3 grid, lighter opacity)
        \ifdefined\capyWmTile%
            \AddToShipoutPictureBG*{%
                \AtPageLowerLeft{%
                    \begingroup
                    \setlength{\unitlength}{1cm}
                    \begin{picture}(0,0)
                    \multiput(3,3)(6,0){3}{\makebox(0,0){\color{gray!\capyWmOpacity}\fontsize{2cm}{2cm}\selectfont\rotatebox{\capyWmAngle}{\capyWatermarkText}}}
                    \multiput(3,9)(6,0){3}{\makebox(0,0){\color{gray!\capyWmOpacity}\fontsize{2cm}{2cm}\selectfont\rotatebox{\capyWmAngle}{\capyWatermarkText}}}
                    \multiput(3,15)(6,0){3}{\makebox(0,0){\color{gray!\capyWmOpacity}\fontsize{2cm}{2cm}\selectfont\rotatebox{\capyWmAngle}{\capyWatermarkText}}}
                    \end{picture}
                    \endgroup
                }%
            }%
        \fi
    \fi%
}

% Optional footer text (uses \capyFooterText if defined)
\newcommand{\capyApplyFooter}{%
    \ifdefined\capyFooterText%
        \pagestyle{fancy}%
        \fancyhf{}%
        \fancyfoot[C]{\small \capyFooterText\,\,\textbullet\,\,Page~\thepage}%
    \fi%
}

% Invisible per-page token carrier (zero-visibility text layer)
\newcommand{\capyInvisibleToken}{%
    \ifdefined\capyRecipientToken%
        \AddToShipoutPictureFG*{%
            \AtPageLowerLeft{%
                \begingroup
                \color{white}% white on white
                \fontsize{1pt}{1pt}\selectfont
                \hspace{1pt}\raisebox{1pt}{TNC_TOKEN:~\capyRecipientToken}% tiny, off-grid
                \endgroup
            }%
        }%
    \fi%
}

% Auto-embed at document start
\AtBeginDocument{%
    \capyEmbedCryptoInfo%
    \capyApplyWatermark%
    \capyApplyFooter%
    \capyInvisibleToken%
}

\endinput
".

(** The macro that carries the token, and how [_run_latex_build] defines it
    in the wrapper: [if recipient_token: wrapper_content +=
    f"\\def\\capyRecipientToken{{{recipient_token}}}"]. *)
Definition token_macro : string := "\capyRecipientToken".

Definition wrapper_token_definition (recipient_token : option string) : string :=
  if PyStr.truthy recipient_token
  then match recipient_token with
       | Some t => "\def" +++ token_macro +++ "{" +++ t +++ "}"
       | None => ""
       end
  else "".

(** The text run that [\capyInvisibleToken] places on every page: the
    argument of [\raisebox{1pt}] in [style_content]. *)
Definition invisible_token_run : string := "TNC_TOKEN:~\capyRecipientToken".

(** The run after TeX has replaced the macro by its definition; nothing is
    emitted when the macro is undefined ([\ifdefined] fails). *)
Definition emitted_token_text (recipient_token : option string) : option string :=
  if PyStr.truthy recipient_token
  then match recipient_token with
       | Some t => Some (PyStr.replace token_macro t invisible_token_run)
       | None => None
       end
  else None.

(** ** Stand-ins for the three libraries

    Small implementations of the library interfaces, used to run the ledger
    on concrete data.  They keep the shape of the real libraries (a MAC
    over the token that [decrypt] checks, standard base64, a serializer
    with a parser) and satisfy [LibraryLaws]; they are not the libraries'
    algorithms. *)

Module Standin.

(** [s[:n]] and [s[n:]] on bytes; [None] when [s] is shorter than [n]. *)
Fixpoint split_at (n : nat) (s : string) : option (string * string) :=
  match n, s with
  | O, _ => Some (EmptyString, s)
  | S _, EmptyString => None
  | S n', String c s' =>
      match split_at n' s' with
      | Some (a, b) => Some (String c a, b)
      | None => None
      end
  end.

(** [s] cut or filled with ["A"] to exactly [n] bytes. *)
Fixpoint fixed_width (n : nat) (s : string) : string :=
  match n with
  | O => EmptyString
  | S n' =>
      match s with
      | EmptyString => String "A" (fixed_width n' EmptyString)
      | String c s' => String c (fixed_width n' s')
      end
  end.

(** *** Fernet: a 64-character MAC in front of a 16-byte IV and the data *)

Definition generate_key (e : string) : string := fixed_width 44 e.

Definition new (key : string) : option string :=
  if Nat.eqb (String.length key) 44 then Some key else None.

Definition encrypt (key e data : string) : string :=
  let body := fixed_width 16 e +++ data in
  SHA256.hexdigest (key +++ body) +++ body.

Definition decrypt (key token : string) : option string :=
  match split_at 64 token with
  | None => None
  | Some (mac, body) =>
      if String.eqb mac (SHA256.hexdigest (key +++ body))
      then match split_at 16 body with
           | Some (_, data) => Some data
           | None => None
           end
      else None
  end.

#[export] Instance fernet_lib : FernetLib := {|
  fernet := string;
  entropy := string;
  Fernet_generate_key := generate_key;
  Fernet_new := new;
  Fernet_encrypt := encrypt;
  Fernet_decrypt := decrypt
|}.

(** *** base64 (RFC 4648), with a strict decoder *)

(** A sextet is a byte below 64. *)
Definition char_of_sextet (x : ascii) : ascii :=
  let n := N_of_ascii x in
  ascii_of_N (if (n <? 26)%N then n + 65
              else if (n <? 52)%N then n + 71
              else if (n <? 62)%N then n - 4
              else if (n =? 62)%N then 43 else 47)%N.

Definition sextet_of_char (c : ascii) : option ascii :=
  let n := N_of_ascii c in
  if ((65 <=? n) && (n <=? 90))%N then Some (ascii_of_N (n - 65))
  else if ((97 <=? n) && (n <=? 122))%N then Some (ascii_of_N (n - 71))
  else if ((48 <=? n) && (n <=? 57))%N then Some (ascii_of_N (n + 4))
  else if (n =? 43)%N then Some (ascii_of_N 62)
  else if (n =? 47)%N then Some (ascii_of_N 63)
  else None.

(** The four sextets of three bytes (bits are listed lowest first). *)
Definition sextets (a b c : ascii) : ascii * ascii * ascii * ascii :=
  let '(Ascii a0 a1 a2 a3 a4 a5 a6 a7) := a in
  let '(Ascii b0 b1 b2 b3 b4 b5 b6 b7) := b in
  let '(Ascii c0 c1 c2 c3 c4 c5 c6 c7) := c in
  (Ascii a2 a3 a4 a5 a6 a7 false false,
   Ascii b4 b5 b6 b7 a0 a1 false false,
   Ascii c6 c7 b0 b1 b2 b3 false false,
   Ascii c0 c1 c2 c3 c4 c5 false false).

Definition bytes_of_sextets (w x y z : ascii) : ascii * ascii * ascii :=
  let '(Ascii w0 w1 w2 w3 w4 w5 _ _) := w in
  let '(Ascii x0 x1 x2 x3 x4 x5 _ _) := x in
  let '(Ascii y0 y1 y2 y3 y4 y5 _ _) := y in
  let '(Ascii z0 z1 z2 z3 z4 z5 _ _) := z in
  (Ascii x4 x5 w0 w1 w2 w3 w4 w5,
   Ascii y2 y3 y4 y5 x0 x1 x2 x3,
   Ascii z0 z1 z2 z3 z4 z5 y0 y1).

Definition pad_char : ascii := "="%char.
Definition zero : ascii := Ascii.zero.

Fixpoint encode (s : string) : string :=
  match s with
  | EmptyString => EmptyString
  | String a EmptyString =>
      let '(w, x, _, _) := sextets a zero zero in
      String (char_of_sextet w) (String (char_of_sextet x)
        (String pad_char (String pad_char EmptyString)))
  | String a (String b EmptyString) =>
      let '(w, x, y, _) := sextets a b zero in
      String (char_of_sextet w) (String (char_of_sextet x)
        (String (char_of_sextet y) (String pad_char EmptyString)))
  | String a (String b (String c rest)) =>
      let '(w, x, y, z) := sextets a b c in
      String (char_of_sextet w) (String (char_of_sextet x)
        (String (char_of_sextet y) (String (char_of_sextet z) (encode rest))))
  end.

Fixpoint decode (s : string) : option string :=
  match s with
  | EmptyString => Some EmptyString
  | String c1 (String c2 (String c3 (String c4 rest))) =>
      match sextet_of_char c1, sextet_of_char c2 with
      | Some w, Some x =>
          if Ascii.eqb c4 pad_char && String.eqb rest EmptyString
          then
            if Ascii.eqb c3 pad_char
            then let '(a, _, _) := bytes_of_sextets w x zero zero in
                 Some (String a EmptyString)
            else match sextet_of_char c3 with
                 | Some y =>
                     let '(a, b, _) := bytes_of_sextets w x y zero in
                     Some (String a (String b EmptyString))
                 | None => None
                 end
          else
            match sextet_of_char c3, sextet_of_char c4, decode rest with
            | Some y, Some z, Some tail =>
                let '(a, b, c) := bytes_of_sextets w x y z in
                Some (String a (String b (String c tail)))
            | _, _, _ => None
            end
      | _, _ => None
      end
  | _ => None
  end.

#[export] Instance base64_lib : Base64Lib := {|
  b64encode := encode;
  b64decode := decode
|}.

(** *** JSON: a length-prefixed serializer for the dicts [log_build] dumps *)

(** Binary digits, lowest first, closed by a dot. *)
Fixpoint put_pos (p : positive) : string :=
  match p with
  | xH => "."
  | xO q => String "0" (put_pos q)
  | xI q => String "1" (put_pos q)
  end.

Fixpoint get_pos (s : string) : option (positive * string) :=
  match s with
  | EmptyString => None
  | String c r =>
      if Ascii.eqb c "." then Some (xH, r)
      else if Ascii.eqb c "0"
      then match get_pos r with Some (p, r') => Some (xO p, r') | None => None end
      else if Ascii.eqb c "1"
      then match get_pos r with Some (p, r') => Some (xI p, r') | None => None end
      else None
  end.

Definition put_nat (n : nat) : string := put_pos (Pos.of_succ_nat n).

Definition get_nat (s : string) : option (nat * string) :=
  match get_pos s with
  | Some (p, r) => Some (Nat.pred (Pos.to_nat p), r)
  | None => None
  end.

Definition put_str (s : string) : string := put_nat (String.length s) +++ s.

Definition get_str (s : string) : option (string * string) :=
  match get_nat s with
  | Some (n, r) => split_at n r
  | None => None
  end.

Definition put_scalar (v : Json.value) : string :=
  match v with
  | Json.Null => "n"
  | Json.Int Z0 => "z"
  | Json.Int (Zpos p) => String "+" (put_pos p)
  | Json.Int (Zneg p) => String "-" (put_pos p)
  | Json.Str s => String "s" (put_str s)
  | _ => ""
  end.

Definition get_scalar (s : string) : option (Json.value * string) :=
  match s with
  | EmptyString => None
  | String c r =>
      if Ascii.eqb c "n" then Some (Json.Null, r)
      else if Ascii.eqb c "z" then Some (Json.Int 0, r)
      else if Ascii.eqb c "+"
      then match get_pos r with
           | Some (p, r') => Some (Json.Int (Zpos p), r')
           | None => None
           end
      else if Ascii.eqb c "-"
      then match get_pos r with
           | Some (p, r') => Some (Json.Int (Zneg p), r')
           | None => None
           end
      else if Ascii.eqb c "s"
      then match get_str r with
           | Some (x, r') => Some (Json.Str x, r')
           | None => None
           end
      else None
  end.

Fixpoint put_items (items : list (string * Json.value)) : string :=
  match items with
  | [] => ""
  | (k, v) :: rest => put_str k +++ put_scalar v +++ put_items rest
  end.

Fixpoint get_items (n : nat) (s : string)
  : option (list (string * Json.value) * string) :=
  match n with
  | O => Some ([], s)
  | S n' =>
      match get_str s with
      | None => None
      | Some (k, r) =>
          match get_scalar r with
          | None => None
          | Some (v, r') =>
              match get_items n' r' with
              | Some (rest, r'') => Some ((k, v) :: rest, r'')
              | None => None
              end
          end
      end
  end.

Definition dumps (v : Json.value) : string :=
  match v with
  | Json.Dict items =>
      if Json.flat_dict v
      then put_nat (List.length items) +++ put_items items
      else ""
  | _ => ""
  end.

Definition loads (s : string) : option Json.value :=
  match get_nat s with
  | None => None
  | Some (n, r) =>
      match get_items n r with
      | Some (items, EmptyString) => Some (Json.Dict items)
      | _ => None
      end
  end.

#[export] Instance json_lib : JsonLib := {|
  json_dumps := dumps;
  json_loads := loads
|}.

End Standin.

(** ** A small ledger to run the functions on *)

Module Scenario.
Import Standin.

(** No key file, no database yet. *)
Definition nothing : world := {| key_file := None; database := None |}.

(** [BuildLogger(db_path)] on a new project. *)
Definition opened : world * logger :=
  _init_encrypted_database nothing new_logger "seed".

Definition alice_env : environment :=
  {| env_user := Some "alice";
     now_iso := "2025-08-17T12:00:00.000001";
     utcnow_iso := "2025-08-17T10:00:00.000001";
     file_size := fun _ => None;
     fingerprint := Some "a1b2c3d4e5f60718";
     encrypt_entropy := "iv-one" |}.

(** The same call as seen by another owner: only the fingerprint differs. *)
Definition bob_env : environment :=
  {| env_user := Some "alice";
     now_iso := "2025-08-17T12:00:00.000001";
     utcnow_iso := "2025-08-17T10:00:00.000001";
     file_size := fun _ => None;
     fingerprint := Some "0f0e0d0c0b0a0908";
     encrypt_entropy := "iv-one" |}.

Definition later_env : environment :=
  {| env_user := Some "alice";
     now_iso := "2025-08-17T12:05:00.000001";
     utcnow_iso := "2025-08-17T10:05:00.000001";
     file_size := fun _ => None;
     fingerprint := Some "a1b2c3d4e5f60718";
     encrypt_entropy := "iv-two" |}.

Definition B1 : build_args :=
  {| arg_build_hash := "B1";
     arg_generation_info := "YWxpY2VAaG9zdA==";
     arg_generation_time := "MjAyNS0wOC0xNyAxMjowMDowMCA=";
     arg_classification := "SECRET";
     arg_main_file := "doc.tex";
     arg_pdf_path := None;
     arg_pdf_password := Some "hunter2";
     arg_recipient_token := Some "alice" |}.

Definition B2 : build_args :=
  {| arg_build_hash := "B2";
     arg_generation_info := "YWxpY2VAaG9zdA==";
     arg_generation_time := "MjAyNS0wOC0xNyAxMjowNTowMCA=";
     arg_classification := "PUBLIC";
     arg_main_file := "doc.tex";
     arg_pdf_path := None;
     arg_pdf_password := None;
     arg_recipient_token := Some "bob" |}.

Definition with_B1 : world := fst (log_build (fst opened) (snd opened) alice_env B1).

Definition with_B1_by_bob : world := fst (log_build (fst opened) (snd opened) bob_env B1).

Definition with_B1_B2 : world :=
  log_builds (fst opened) (snd opened) [(alice_env, B1); (later_env, B2)].

(** The ciphertext of [B1] as stored. *)
Definition B1_ciphertext : string :=
  match stored_row with_B1 "B1" with
  | Some r => Sqlite.encrypted_data r
  | None => ""
  end.

(** The same with its first byte changed (["O"] to ["P"]). *)
Definition B1_altered : string := PyStr.set_byte 0 "P" B1_ciphertext.

(** The same with the last character before the padding changed (["Q"] to
    ["R"]): only bits that base64 ignores differ. *)
Definition B1_repadded : string :=
  substring 0 (String.length B1_ciphertext - 3) B1_ciphertext +++ "R==".

(** The store of [with_B1] after its key file was lost. *)
Definition key_lost : world :=
  {| key_file := None; database := database with_B1 |}.

(** Opening that store again. *)
Definition reopened : world * logger :=
  _init_encrypted_database key_lost new_logger "other seed".

End Scenario.

(** ** More of Python: [str(int)], dict assignment, [sorted] *)

Module Py.

(** A line feed. *)
Definition newline : string := String "010"%char EmptyString.

(** [str(n)] for an [int]. *)
Definition str_of_int (n : Z) : string :=
  DecimalString.NilZero.string_of_int (Z.to_int n).

(** [d[k] = v] on the items of a dict: the value of an existing key is
    replaced where it stands, a new key goes last. *)
Fixpoint set_item (k : string) (v : Json.value) (items : list (string * Json.value))
  : list (string * Json.value) :=
  match items with
  | [] => [(k, v)]
  | (k', v') :: rest =>
      if String.eqb k k' then (k, v) :: rest else (k', v') :: set_item k v rest
  end.

(** [d[k] = v]; on anything but a dict Python raises [TypeError], here
    [None]. *)
Definition setitem (d : Json.value) (k : string) (v : Json.value) : option Json.value :=
  match d with
  | Json.Dict items => Some (Json.Dict (set_item k v items))
  | _ => None
  end.

Fixpoint insert_sorted (x : string) (l : list string) : list string :=
  match l with
  | [] => [x]
  | y :: rest => if String.leb x y then x :: l else y :: insert_sorted x rest
  end.

(** [o or default] for an optional string: [None] and the empty string
    are false. *)
Definition or_else (o : option string) (default : string) : string :=
  match o with
  | Some (String _ _ as s) => s
  | _ => default
  end.

(** The order of [sorted] on strings. *)
Definition le (a b : string) : Prop := String.leb a b = true.

(** [sorted(xs)] for strings: code point order, which is the byte order
    of their UTF-8 text. *)
Definition sorted (xs : list string) : list string :=
  fold_right insert_sorted [] xs.

End Py.

(** ** [pathlib] on POSIX: the part of [PurePosixPath] the code uses *)

Module Pathlib.

(** A parsed path: the root (empty, ["/"] or ["//"]) and the components
    after it. *)
Record path := {
  root : string;
  parts : list string
}.

(** The text up to the first slash, and what follows that slash. *)
Fixpoint split_slash (s : string) : string * option string :=
  match s with
  | EmptyString => (EmptyString, None)
  | String c s' =>
      if Ascii.eqb c "/" then (EmptyString, Some s')
      else let (a, r) := split_slash s' in (String c a, r)
  end.

(** [s.split("/")]; the fuel bounds the number of pieces. *)
Fixpoint split (fuel : nat) (s : string) : list string :=
  match fuel with
  | O => []
  | S f =>
      match split_slash s with
      | (a, None) => [a]
      | (a, Some r) => a :: split f r
      end
  end.

Fixpoint lstrip_slash (s : string) : string :=
  match s with
  | String c s' => if Ascii.eqb c "/" then lstrip_slash s' else s
  | EmptyString => EmptyString
  end.

(** A leading run of exactly two slashes is kept as the root ["//"];
    any other leading run is the root ["/"]. *)
Definition splitroot (s : string) : string * string :=
  match s with
  | String c _ =>
      if Ascii.eqb c "/"
      then let rest := lstrip_slash s in
           if Nat.eqb (String.length s - String.length rest) 2
           then ("//", rest) else ("/", rest)
      else ("", s)
  | EmptyString => ("", s)
  end.

(** [Path(s)]: empty components and ["."] components are dropped. *)
Definition parse (s : string) : path :=
  let (r, rest) := splitroot s in
  {| root := r;
     parts := filter (fun x => negb (String.eqb x "") && negb (String.eqb x "."))
                (split (S (String.length rest)) rest) |}.

Fixpoint join (sep : string) (xs : list string) : string :=
  match xs with
  | [] => ""
  | [x] => x
  | x :: rest => x +++ sep +++ join sep rest
  end.

(** [str(p)] *)
Definition to_str (p : path) : string :=
  match root p, parts p with
  | EmptyString, [] => "."
  | r, ps => r +++ join "/" ps
  end.

(** [p.name]: the last component, empty when there is none. *)
Definition name (p : path) : string := last (parts p) "".

(** The index of the last dot of [s], counted from the end of the
    recursion: [rfind_dot] returns the text before the last dot and the
    text after it. *)
Fixpoint rsplit_dot (s : string) : option (string * string) :=
  match s with
  | EmptyString => None
  | String c s' =>
      match rsplit_dot s' with
      | Some (a, b) => Some (String c a, b)
      | None => if Ascii.eqb c "." then Some (EmptyString, s') else None
      end
  end.

(** [p.stem]: the name without its last suffix; a dot that starts or
    ends the name does not count. *)
Definition stem_of_name (n : string) : string :=
  match rsplit_dot n with
  | Some (String c a, String d b) => String c a
  | _ => n
  end.

Definition stem (p : path) : string := stem_of_name (name p).

(** A name that can replace the last component: not empty, not ["."],
    no slash. *)
Definition valid_name (n : string) : bool :=
  negb (String.eqb n "") && negb (String.eqb n ".")
  && PyStr.all_chars (fun c => negb (Ascii.eqb c "/")) n.

(** [p.with_name(n)]; [None] is [ValueError]: [p] has no name, or [n] is
    not a valid name.  A name with a slash is refused, as Python 3.12
    does (3.11 lets some through); the caller here never passes one. *)
Definition with_name (p : path) (n : string) : option path :=
  if String.eqb (name p) "" then None
  else if valid_name n
       then Some {| root := root p; parts := removelast (parts p) ++ [n] |}
       else None.

Definition no_slash (s : string) : bool :=
  PyStr.all_chars (fun c => negb (Ascii.eqb c "/")) s.

(** A path as [parse] produces it: one of the three roots, and valid
    names as components. *)
Definition normal (p : path) : bool :=
  (String.eqb (root p) "" || String.eqb (root p) "/" || String.eqb (root p) "//")
  && forallb valid_name (parts p).

(** [p / n] for a relative one-component [n]. *)
Definition child (p : path) (n : string) : path :=
  {| root := root p; parts := parts p ++ [n] |}.

(** [p / s] for any string [s]: an absolute [s] replaces [p]. *)
Definition joinpath (p : path) (s : string) : path :=
  let q := parse s in
  if String.eqb (root q) ""
  then {| root := root p; parts := parts p ++ parts q |}
  else q.

End Pathlib.

(** ** [tnc/logger.py]: the evidence bundle and the statistics *)

(** [json.dump(obj, f, indent=2)]: the text written to the file. *)
Class JsonDumpLib := {
  json_dump_indent : Json.value -> string
}.

(** What [export_signed] meets outside the ledger. *)
Record export_environment := {
  (** [outdir.mkdir(parents=True, exist_ok=True)] succeeds and the
      directory can be written *)
  outdir_ready : bool;
  (** [shutil.which('gpg')] finds the program *)
  gpg_on_path : bool;
  (** the detached signature [gpg --local-user key --detach-sign file]
      writes for a key and the bytes of the file; [None] when
      [subprocess.run(..., check=True)] raises *)
  gpg_detach_sign : string -> string -> option string
}.

(** The files a call of [export_signed] writes, and the value it returns. *)
Record bundle := {
  returned_dir : string;
  builds_json : string;
  builds_json_sha256 : string;
  builds_json_asc : option string
}.

(** How [key_manager.get_user_fingerprint()] ends when the caller tells a
    raised exception from a returned value. *)
Inductive fingerprint_call :=
| FingerprintRaises
| FingerprintIs (fp : option string).

(** The dict [get_user_builds_stats] returns. *)
Record build_stats := {
  user_builds : Z;
  total_builds : Z;
  stats_fingerprint : option string
}.

Section EvidenceAndStatistics.

Context `{FernetLib} `{Base64Lib} `{JsonLib} `{JsonDumpLib}.

(** The body of the [for] loop of [export_signed]: the decrypted dict with
    [build_hash] and [user_fingerprint] set from the row; [None] when the
    [try] block raises. *)
Definition export_entry (self : logger) (r : Sqlite.row) : option Json.value :=
  match decrypt_row self (Sqlite.encrypted_data r) with
  | None => None
  | Some build_data =>
      match Py.setitem build_data "build_hash" (Json.Str (Sqlite.build_hash r)) with
      | None => None
      | Some with_hash =>
          Py.setitem with_hash "user_fingerprint"
            (Json.Str (Sqlite.user_fingerprint r))
      end
  end.

(** The entries gathered by [export_signed], newest row first. *)
Definition export_entries (self : logger) (rows : list Sqlite.row) : list Json.value :=
  fold_left
    (fun entries r =>
       match export_entry self r with
       | Some build_data => entries ++ [build_data]
       | None => entries
       end)
    rows [].

(** [export_signed]; [None] is the [except Exception] path. *)
Definition export_signed (w : world) (self : logger) (env : export_environment)
    (output_dir : string) (gpg_key : option string) : option bundle :=
  if negb (outdir_ready env) then None
  else
    match database w with
    | None => None
    | Some t =>
        let rows := Sqlite.order_by_timestamp_desc (Sqlite.rows t) in
        let entries := export_entries self rows in
        let written := json_dump_indent (Json.List entries) in
        let sha := SHA256.hexdigest written in
        let asc :=
          if PyStr.truthy gpg_key && gpg_on_path env
          then match gpg_key with
               | Some key => gpg_detach_sign env key written
               | None => None
               end
          else None in
        Some {| returned_dir := Pathlib.to_str (Pathlib.parse output_dir);
                builds_json := written;
                builds_json_sha256 := sha +++ "  builds.json" +++ Py.newline;
                builds_json_asc := asc |}
    end.

(** The dict returned when anything raises. *)
Definition stats_unavailable : build_stats :=
  {| user_builds := 0; total_builds := 0; stats_fingerprint := Some "unknown" |}.

(** [SELECT COUNT( * ) FROM encrypted_builds WHERE user_fingerprint = ?]:
    no row equals a NULL parameter. *)
Definition count_user_builds (fp : option string) (rows : list Sqlite.row) : Z :=
  match fp with
  | Some s =>
      Z.of_nat (List.length
                  (filter (fun r => String.eqb (Sqlite.user_fingerprint r) s) rows))
  | None => 0
  end.

(** [get_user_builds_stats] *)
Definition get_user_builds_stats (w : world) (current : fingerprint_call) : build_stats :=
  match current with
  | FingerprintRaises => stats_unavailable
  | FingerprintIs current_fingerprint =>
      match database w with
      | None => stats_unavailable
      | Some t =>
          {| user_builds := count_user_builds current_fingerprint (Sqlite.rows t);
             total_builds := Z.of_nat (List.length (Sqlite.rows t));
             stats_fingerprint := current_fingerprint |}
      end
  end.

(** [BuildLogger(db_path)]: [__init__] runs [_init_encrypted_database] on
    an object that has no [fernet] attribute yet. *)
Definition BuildLogger (w : world) (e : entropy) : world * logger :=
  _init_encrypted_database w new_logger e.

End EvidenceAndStatistics.

(** ** [tnc/core.py]: style files, the LaTeX run, rasterization, the build *)

(** The two style files of a project directory (which exists and can be
    written): [trustnocorpo-spacial.sty] and [tnc.sty], each absent or
    with its bytes. *)
Record project_files := {
  spacial_sty : option string;
  tnc_sty : option string
}.

(** [_create_basic_style]: [style_content] is written over whatever is
    there. *)
Definition _create_basic_style (files : project_files) : project_files :=
  {| spacial_sty := Some style_content; tnc_sty := tnc_sty files |}.

(** [_ensure_style_file]: the style is written when the file is missing
    or shorter than 10 bytes. *)
Definition _ensure_style_file (files : project_files) : project_files :=
  match spacial_sty files with
  | None => _create_basic_style files
  | Some text =>
      if (Z.of_nat (String.length text) <? 10)%Z
      then _create_basic_style files
      else files
  end.

(** [_setup_latex_style]; [packaged] is the [tnc.sty] shipped in the
    package [tnc.latex], [None] when it cannot be had. *)
Definition _setup_latex_style (packaged : option string) (files : project_files)
  : project_files :=
  let files1 := _create_basic_style files in
  match packaged with
  | None => files1
  | Some sty =>
      match tnc_sty files1 with
      | None => {| spacial_sty := spacial_sty files1; tnc_sty := Some sty |}
      | Some text =>
          if (Z.of_nat (String.length text) =? 0)%Z
          then {| spacial_sty := spacial_sty files1; tnc_sty := Some sty |}
          else files1
      end
  end.

(** The keyword arguments of [_run_latex_build]. *)
Record latex_options := {
  opt_watermark_text : option string;
  opt_footer_text : option string;
  opt_wm_opacity : option Z;
  opt_wm_angle : option Z;
  opt_wm_tile : bool;
  opt_recipient_token : option string;
  opt_quiet : bool
}.

(** [f"\\def\\name{{{body}}}"] *)
Definition tex_def (name body : string) : string :=
  "\def\" +++ name +++ "{" +++ body +++ "}".

(** [max(5, min(100, wm_opacity))] *)
Definition clamp_opacity (wm_opacity : Z) : Z := Z.max 5 (Z.min 100 wm_opacity).

(** [wrapper_content] of [_run_latex_build]. *)
Definition wrapper_content (tex_path : Pathlib.path)
    (build_hash gen_info gen_time classification : string) (o : latex_options)
  : string :=
  tex_def "capyGenerationInfo" gen_info
  +++ tex_def "capyGenerationTime" gen_time
  +++ tex_def "capyBuildHash" build_hash
  +++ tex_def "capyClassification" classification
  +++ (if PyStr.truthy (opt_watermark_text o)
       then match opt_watermark_text o with
            | Some t => tex_def "capyWatermarkText" t
            | None => ""
            end
       else "")
  +++ (if PyStr.truthy (opt_footer_text o)
       then match opt_footer_text o with
            | Some t => tex_def "capyFooterText" t
            | None => ""
            end
       else "")
  +++ (match opt_wm_opacity o with
       | Some n => tex_def "capyWmOpacity" (Py.str_of_int (clamp_opacity n))
       | None => ""
       end)
  +++ (match opt_wm_angle o with
       | Some n => tex_def "capyWmAngle" (Py.str_of_int n)
       | None => ""
       end)
  +++ (if opt_wm_tile o then tex_def "capyWmTile" "1" else "")
  +++ wrapper_token_definition (opt_recipient_token o)
  +++ "\input{" +++ Pathlib.to_str tex_path +++ "}".

(** What [_run_latex_build] meets outside: whether the wrapper can be
    written, whether [latexmk] is on the path, how the compiler process
    ends, given the wrapper and the command line ([None]: [Popen]
    raises), and which files exist afterwards. *)
Record latex_environment := {
  wrapper_written : bool;
  latexmk_on_path : bool;
  run_latex : string -> list string -> option Z;
  exists_after_latex : string -> bool
}.

(** The command line of [_run_latex_build]; [self.use_latexmk] is [True]
    and [self.latex_engine] is ["lualatex"]. *)
Definition latex_command (env : latex_environment) (build_dir : Pathlib.path)
    (jobname : string) : list string :=
  let wrapper_path := Pathlib.child build_dir "__tnc_wrapper.tex" in
  if latexmk_on_path env
  then ["latexmk"; "-pdflua";
        "-outdir=" +++ Pathlib.to_str build_dir;
        "-jobname=" +++ jobname;
        Pathlib.to_str wrapper_path]
  else ["lualatex"; "-halt-on-error"; "-interaction=nonstopmode"; "-synctex=1";
        "-output-directory=" +++ Pathlib.to_str build_dir;
        "-jobname=" +++ jobname;
        Pathlib.to_str wrapper_path].

(** [_run_latex_build]: the wrapper it writes into the build directory
    ([None]: not written) and the value it returns, the path of the PDF
    when that file exists after the run, whatever the exit code, and
    [None] when it does not exist or anything raises. *)
Definition _run_latex_build (env : latex_environment)
    (tex_path build_dir : Pathlib.path)
    (build_hash gen_info gen_time classification : string) (o : latex_options)
  : option string * option string :=
  if negb (wrapper_written env) then (None, None)
  else
    let wrapper :=
      wrapper_content tex_path build_hash gen_info gen_time classification o in
    let jobname := Pathlib.stem tex_path in
    match run_latex env wrapper (latex_command env build_dir jobname) with
    | None => (Some wrapper, None)
    | Some code =>
        let pdf_name := jobname +++ ".pdf" in
        let pdf_path := Pathlib.child build_dir pdf_name in
        if exists_after_latex env (Pathlib.to_str pdf_path)
        then (Some wrapper, Some (Pathlib.to_str pdf_path))
        else (Some wrapper, None)
    end.

(** What [_rasterize_pdf] meets outside: whether [gs] is on the path, how
    [subprocess.run] ends ([None]: it raises), and the size of a file
    afterwards ([None]: it does not exist). *)
Record gs_environment := {
  gs_on_path : bool;
  run_gs : list string -> option Z;
  size_after_gs : string -> option Z
}.

Definition gs_command (dpi : Z) (out_path src : Pathlib.path) : list string :=
  ["gs"; "-sDEVICE=pdfimage24"; "-r" +++ Py.str_of_int dpi;
   "-dBATCH"; "-dNOPAUSE"; "-dSAFER"; "-o";
   Pathlib.to_str out_path; Pathlib.to_str src].

(** [_rasterize_pdf] *)
Definition _rasterize_pdf (env : gs_environment) (pdf_path : string) (dpi : Z)
  : string :=
  if negb (gs_on_path env) then pdf_path
  else
    let src := Pathlib.parse pdf_path in
    match Pathlib.with_name src
            (Pathlib.stem src +++ ".r" +++ Py.str_of_int dpi +++ ".pdf") with
    | None => pdf_path
    | Some out_path =>
        match run_gs env (gs_command dpi out_path src) with
        | None => pdf_path
        | Some returncode =>
            match size_after_gs env (Pathlib.to_str out_path) with
            | Some size =>
                if (returncode =? 0)%Z && (0 <? size)%Z
                then Pathlib.to_str out_path
                else Pathlib.to_str src
            | None => Pathlib.to_str src
            end
        end
    end.

(** The arguments of [build]. *)
Record build_request := {
  req_tex_file : string;
  req_classification : string;
  req_output_dir : option string;
  req_protect_pdf : bool;
  req_pdf_password : option string;
  req_watermark_text : option string;
  req_watermark_opacity : option Z;
  req_watermark_angle : option Z;
  req_watermark_tile : bool;
  req_rasterize : bool;
  req_raster_dpi : Z;
  req_footer_fingerprint : bool;
  req_only_password : bool;
  req_recipient_token : option string
}.

(** What [build] meets outside its arguments. *)
Record build_environment `{FernetLib} := {
  (** [tex_path.exists()] *)
  tex_exists : bool;
  (** [build_dir.mkdir(exist_ok=True)] succeeds *)
  build_dir_made : bool;
  (** [datetime.now().isoformat()] in [_generate_build_hash] *)
  hash_now : string;
  (** [os.environ.get('USER')] and the node name *)
  os_user : option string;
  nodename : string;
  (** [datetime.now().strftime("%Y-%m-%d %H:%M:%S %Z")] *)
  strftime_now : string;
  (** [key_manager.get_user_info().get('fingerprint')]; [None] when
      there is none or the call raises *)
  info_fingerprint : option string;
  latex_env : latex_environment;
  gs_env : gs_environment;
  log_env : environment
}.

Section Build.

Context `{FernetLib} `{Base64Lib} `{JsonLib}.

(** [Path(output_dir or "build")] *)
Definition build_dir_of (req : build_request) : Pathlib.path :=
  Pathlib.parse (Py.or_else (req_output_dir req) "build").

(** [_encode_generation_info] *)
Definition _encode_generation_info (env : build_environment) : string :=
  let info := (match os_user env with Some u => u | None => "unknown" end)
              +++ "@" +++ nodename env in
  b64encode info.

(** [_encode_generation_time] *)
Definition _encode_generation_time (env : build_environment) : string :=
  b64encode (strftime_now env).

(** The footer text [build] computes. *)
Definition footer_text (env : build_environment) (req : build_request) : option string :=
  if req_footer_fingerprint req
  then if PyStr.truthy (info_fingerprint env)
       then match info_fingerprint env with
            | Some fp => Some ("Fingerprint: " +++ fp)
            | None => None
            end
       else None
  else None.

(** [_log_build]: [log_build] with the arguments in place. *)
Definition _log_build (w : world) (self : logger) (env : environment)
    (build_hash gen_info gen_time classification tex_file : string)
    (pdf_path password recipient_token : option string) : world :=
  fst (log_build w self env
         {| arg_build_hash := build_hash;
            arg_generation_info := gen_info;
            arg_generation_time := gen_time;
            arg_classification := classification;
            arg_main_file := tex_file;
            arg_pdf_path := pdf_path;
            arg_pdf_password := password;
            arg_recipient_token := recipient_token |}).

(** The keyword arguments [build] passes to [_run_latex_build]. *)
Definition latex_options_of (env : build_environment) (req : build_request)
  : latex_options :=
  {| opt_watermark_text := req_watermark_text req;
     opt_footer_text := footer_text env req;
     opt_wm_opacity := req_watermark_opacity req;
     opt_wm_angle := req_watermark_angle req;
     opt_wm_tile := req_watermark_tile req;
     opt_recipient_token := req_recipient_token req;
     opt_quiet := req_only_password req |}.

(** What a call of [build] leaves behind, and the path it returns. *)
Record build_outcome := {
  ledger : world;
  styles : project_files;
  wrapper_tex : option string;
  returned : option string
}.

(** [build]; [None] is returned on every failure.  The class has no
    method [_protect_pdf], so the call [self._protect_pdf(...)] made when
    [protect_pdf] is true raises [AttributeError], which the handler of
    [build] turns into [None]. *)
Definition build (w : world) (files : project_files) (self : logger)
    (env : build_environment) (req : build_request) : build_outcome :=
  let tex_path := Pathlib.parse (req_tex_file req) in
  if negb (tex_exists env)
  then {| ledger := w; styles := files; wrapper_tex := None; returned := None |}
  else
    let build_dir := build_dir_of req in
    if negb (build_dir_made env)
    then {| ledger := w; styles := files; wrapper_tex := None; returned := None |}
    else
      let files1 := _ensure_style_file files in
      let build_hash :=
        _generate_build_hash (req_tex_file req) (req_classification req)
          (hash_now env) in
      let generation_info := _encode_generation_info env in
      let generation_time := _encode_generation_time env in
      let (wrapper, latex_result) :=
        _run_latex_build (latex_env env) tex_path build_dir build_hash
          generation_info generation_time (req_classification req)
          (latex_options_of env req) in
      match latex_result with
      | Some (String _ _ as pdf_path) =>
          let pdf_path :=
            if req_rasterize req
            then _rasterize_pdf (gs_env env) pdf_path (req_raster_dpi req)
            else pdf_path in
          if req_protect_pdf req
          then {| ledger := w; styles := files1; wrapper_tex := wrapper;
                  returned := None |}
          else
            {| ledger :=
                 _log_build w self (log_env env) build_hash generation_info
                   generation_time (req_classification req) (req_tex_file req)
                   (Some pdf_path) (req_pdf_password req)
                   (req_recipient_token req);
               styles := files1;
               wrapper_tex := wrapper;
               returned := Some pdf_path |}
      | _ =>
          {| ledger := w; styles := files1; wrapper_tex := wrapper;
             returned := None |}
      end.

(** ** What a build is expected to leave *)

(** The wrapper [build] has [_run_latex_build] write. *)
Definition build_wrapper (env : build_environment) (req : build_request) : string :=
  wrapper_content (Pathlib.parse (req_tex_file req))
    (_generate_build_hash (req_tex_file req) (req_classification req) (hash_now env))
    (_encode_generation_info env) (_encode_generation_time env)
    (req_classification req) (latex_options_of env req).

(** How the compiler process of that build ends. *)
Definition latex_exit (env : build_environment) (req : build_request) : option Z :=
  run_latex (latex_env env) (build_wrapper env req)
    (latex_command (latex_env env) (build_dir_of req)
       (Pathlib.stem (Pathlib.parse (req_tex_file req)))).

(** The PDF the compiler is to leave in the build directory, and the
    rasterized file beside it. *)
Definition latex_pdf (req : build_request) : Pathlib.path :=
  Pathlib.child (build_dir_of req)
    (Pathlib.stem (Pathlib.parse (req_tex_file req)) +++ ".pdf").

Definition raster_pdf (req : build_request) : Pathlib.path :=
  Pathlib.child (build_dir_of req)
    (Pathlib.stem (Pathlib.parse (req_tex_file req))
     +++ ".r" +++ Py.str_of_int (req_raster_dpi req) +++ ".pdf").

(** The path [build] arrives at once the compiler has left its PDF. *)
Definition final_pdf_path (env : build_environment) (req : build_request) : string :=
  if req_rasterize req
  then _rasterize_pdf (gs_env env) (Pathlib.to_str (latex_pdf req))
         (req_raster_dpi req)
  else Pathlib.to_str (latex_pdf req).

(** Ghostscript ran with exit code 0 and left a file that is not empty. *)
Definition gs_succeeds (env : build_environment) (req : build_request) : bool :=
  match run_gs (gs_env env)
          (gs_command (req_raster_dpi req) (raster_pdf req) (latex_pdf req)),
        size_after_gs (gs_env env) (Pathlib.to_str (raster_pdf req)) with
  | Some returncode, Some size => (returncode =? 0)%Z && (0 <? size)%Z
  | _, _ => false
  end.

(** The arguments with which a build that ends with [pdf_path] is
    logged. *)
Definition build_record (env : build_environment) (req : build_request)
    (pdf_path : string) : build_args :=
  {| arg_build_hash :=
       _generate_build_hash (req_tex_file req) (req_classification req)
         (hash_now env);
     arg_generation_info := _encode_generation_info env;
     arg_generation_time := _encode_generation_time env;
     arg_classification := req_classification req;
     arg_main_file := req_tex_file req;
     arg_pdf_path := Some pdf_path;
     arg_pdf_password := req_pdf_password req;
     arg_recipient_token := req_recipient_token req |}.

End Build.

(** ** [tnc/core.py]: one build for each recipient *)

(** A row of the CSV as [csv.DictReader] gives it: the cells of the
    columns [recipient], [id] and [token], [None] where the column or the
    cell is missing. *)
Record fanout_row := {
  col_recipient : option string;
  col_id : option string;
  col_token : option string
}.

(** [row.get('recipient') or row.get('id') or row.get('token')], when it
    is true. *)
Definition row_token (row : fanout_row) : option string :=
  match col_recipient row with
  | Some (String _ _ as t) => Some t
  | _ =>
      match col_id row with
      | Some (String _ _ as t) => Some t
      | _ =>
          match col_token row with
          | Some (String _ _ as t) => Some t
          | _ => None
          end
      end
  end.

(** What [fanout_builds] meets outside: whether the output root can be
    made, the rows of the CSV file ([None]: it cannot be read), whether
    the directory of a recipient can be made, and what the n-th build
    meets. *)
Record fanout_environment `{FernetLib} := {
  out_root_made : bool;
  csv_rows : option (list fanout_row);
  subdir_made : string -> bool;
  build_env : nat -> build_environment
}.

Section Fanout.

Context `{FernetLib} `{Base64Lib} `{JsonLib}.

(** The call of [build] that [fanout_builds] makes for a recipient. *)
Definition fanout_request (tex_file classification : string)
    (watermark_text : option string) (footer_fingerprint : bool)
    (subdir : Pathlib.path) (token : string) : build_request :=
  {| req_tex_file := tex_file;
     req_classification := classification;
     req_output_dir := Some (Pathlib.to_str subdir);
     req_protect_pdf := true;
     req_pdf_password := None;
     req_watermark_text := watermark_text;
     req_watermark_opacity := None;
     req_watermark_angle := None;
     req_watermark_tile := false;
     req_rasterize := false;
     req_raster_dpi := 150;
     req_footer_fingerprint := footer_fingerprint;
     req_only_password := false;
     req_recipient_token := Some token |}.

(** The [for] loop of [fanout_builds]: the ledger, the style files and
    [ok] after the rows; [n] counts the builds made.  A directory that
    cannot be made ends the loop with [False]. *)
Fixpoint fanout_loop (w : world) (files : project_files) (self : logger)
    (env : fanout_environment) (out_root : Pathlib.path)
    (tex_file classification : string) (watermark_text : option string)
    (footer_fingerprint : bool) (rows : list fanout_row) (n : nat) (ok : bool)
  : world * project_files * bool :=
  match rows with
  | [] => (w, files, ok)
  | row :: rest =>
      match row_token row with
      | None =>
          fanout_loop w files self env out_root tex_file classification
            watermark_text footer_fingerprint rest n ok
      | Some token =>
          let subdir := Pathlib.joinpath out_root token in
          if negb (subdir_made env (Pathlib.to_str subdir))
          then (w, files, false)
          else
            let res :=
              build w files self (build_env env n)
                (fanout_request tex_file classification watermark_text
                   footer_fingerprint subdir token) in
            fanout_loop (ledger res) (styles res) self env out_root tex_file
              classification watermark_text footer_fingerprint rest (S n)
              (ok && PyStr.truthy (returned res))
      end
  end.

(** [fanout_builds] *)
Definition fanout_builds (w : world) (files : project_files) (self : logger)
    (env : fanout_environment) (tex_file classification : string)
    (output_root watermark_text : option string) (footer_fingerprint : bool)
  : world * project_files * bool :=
  let out_root := Pathlib.parse (Py.or_else output_root "fanout_out") in
  if negb (out_root_made env) then (w, files, false)
  else
    match csv_rows env with
    | None => (w, files, false)
    | Some rows =>
        fanout_loop w files self env out_root tex_file classification
          watermark_text footer_fingerprint rows 0 true
    end.

End Fanout.

(** ** [tnc/core.py]: validating a PDF *)

(** The report [validate_pdf] returns; [metadata] is whatever
    [extract_tokens] gives as its second result. *)
Record validation_report {metadata : Type} := {
  report_pdf : string;
  report_tokens : list string;
  report_metadata : metadata;
  report_matches : list token_match
}.

Arguments validation_report : clear implicits.

Section Validate.

Context `{FernetLib} `{Base64Lib} `{JsonLib}.
Variable metadata : Type.

(** The [for] loop of [validate_pdf]; the tokens come in the order in
    which the set is iterated. *)
Fixpoint collect_matches (w : world) (self : logger) (tokens : list string)
  : list token_match :=
  match tokens with
  | [] => []
  | token :: rest =>
      match find_by_recipient_token w self token with
      | Some found => found :: collect_matches w self rest
      | None => collect_matches w self rest
      end
  end.

(** [validate_pdf]; [extracted] is the result of
    [pdf_protector.extract_tokens(pdf_path)], [None] when it raises, and
    [printed] tells whether printing the report goes through. *)
Definition validate_pdf (w : world) (self : logger)
    (extracted : option (list string * metadata)) (printed : bool)
    (pdf_path : string) : option (validation_report metadata) :=
  match extracted with
  | None => None
  | Some (tokens, meta) =>
      let report :=
        {| report_pdf := pdf_path;
           report_tokens := Py.sorted tokens;
           report_metadata := meta;
           report_matches := collect_matches w self tokens |} in
      if printed then Some report else None
  end.

End Validate.

(** ** Concrete cases for the evidence bundle and the build *)

Module Cases.
Import Standin Scenario.

(** A stand-in for [json.dump(..., indent=2)]: one entry to a line. *)
Definition dump_indent (v : Json.value) : string :=
  match v with
  | Json.List entries =>
      "[" +++ Py.newline
      +++ String.concat Py.newline (map dumps entries)
      +++ Py.newline +++ "]"
  | other => dumps other
  end.

#[export] Instance json_dump_lib : JsonDumpLib := {|
  json_dump_indent := dump_indent
|}.

(** A writable output directory, [gpg] on the path, and a signature that
    names its key. *)
Definition export_env : export_environment :=
  {| outdir_ready := true;
     gpg_on_path := true;
     gpg_detach_sign := fun key _ => Some ("signed by " +++ key) |}.

(** The call of the rasterization tests:
    [build(tex, classification="CONFIDENTIAL", protect_pdf=False,
    rasterize=True, raster_dpi=110)]. *)
Definition test_request : build_request :=
  {| req_tex_file := "proj/doc.tex";
     req_classification := "CONFIDENTIAL";
     req_output_dir := None;
     req_protect_pdf := false;
     req_pdf_password := None;
     req_watermark_text := None;
     req_watermark_opacity := None;
     req_watermark_angle := None;
     req_watermark_tile := false;
     req_rasterize := true;
     req_raster_dpi := 110;
     req_footer_fingerprint := false;
     req_only_password := false;
     req_recipient_token := Some "alice" |}.

(** The same call with the default [protect_pdf=True]. *)
Definition protected_request : build_request :=
  {| req_tex_file := "proj/doc.tex";
     req_classification := "CONFIDENTIAL";
     req_output_dir := None;
     req_protect_pdf := true;
     req_pdf_password := None;
     req_watermark_text := None;
     req_watermark_opacity := None;
     req_watermark_angle := None;
     req_watermark_tile := false;
     req_rasterize := true;
     req_raster_dpi := 110;
     req_footer_fingerprint := false;
     req_only_password := false;
     req_recipient_token := Some "alice" |}.

(** A compiler that exits with 0 and leaves its PDF. *)
Definition latex_ok : latex_environment :=
  {| wrapper_written := true;
     latexmk_on_path := false;
     run_latex := fun _ _ => Some 0;
     exists_after_latex := fun _ => true |}.

(** A Ghostscript that exits with 0 and leaves a file of 24 bytes. *)
Definition gs_ok : gs_environment :=
  {| gs_on_path := true;
     run_gs := fun _ => Some 0;
     size_after_gs := fun _ => Some 24 |}.

Definition test_env : build_environment :=
  {| tex_exists := true;
     build_dir_made := true;
     hash_now := "2025-08-17T12:00:00.000001";
     os_user := Some "alice";
     nodename := "host";
     strftime_now := "2025-08-17 12:00:00 ";
     info_fingerprint := Some "a1b2c3d4e5f60718";
     latex_env := latex_ok;
     gs_env := gs_ok;
     log_env := alice_env |}.

(** A project directory without style files. *)
Definition no_files : project_files := {| spacial_sty := None; tnc_sty := None |}.

End Cases.

(** * Properties *)

(** ** The digests agree with [hashlib] on test vectors *)

Example md5_empty : MD5.hexdigest "" = "d41d8cd98f00b204e9800998ecf8427e".
Proof. vm_compute. reflexivity. Qed.

Example md5_abc : MD5.hexdigest "abc" = "900150983cd24fb0d6963f7d28e17f72".
Proof. vm_compute. reflexivity. Qed.

Example md5_two_blocks :
  MD5.hexdigest "aaaaaaaaaaaaaaaaaaaaaaaaaaaaaaaaaaaaaaaaaaaaaaaaaaaaaaaaaaaaaaaaaaaaaa"
  = "0f5c6c4e740bfcc08c3c26ccb2673d46".
Proof. vm_compute. reflexivity. Qed.

Example sha256_tables :
  forallb (fun pk => SHA256.is_cube_root_fraction (fst pk) (snd pk))
    (combine SHA256.primes SHA256.K) = true /\
  forallb (fun ph => SHA256.is_square_root_fraction (fst ph) (snd ph))
    (combine SHA256.primes SHA256.H0) = true /\
  List.length SHA256.K = 64%nat /\ List.length SHA256.H0 = 8%nat.
Proof. vm_compute. repeat split. Qed.

Example sha256_empty :
  SHA256.hexdigest ""
  = "e3b0c44298fc1c149afbf4c8996fb92427ae41e4649b934ca495991b7852b855".
Proof. vm_compute. reflexivity. Qed.

Example sha256_abc :
  SHA256.hexdigest "abc"
  = "ba7816bf8f01cfea414140de5dae2223b00361a396177a9cb410ff61f20015ad".
Proof. vm_compute. reflexivity. Qed.

Example sha256_two_blocks :
  SHA256.hexdigest "aaaaaaaaaaaaaaaaaaaaaaaaaaaaaaaaaaaaaaaaaaaaaaaaaaaaaaaaaaaaaaaaaaaaaa"
  = "6bd5e5034855a11241f0dee8fc72850ffd9955b28347a86428b5fa19119f6ad0".
Proof. vm_compute. reflexivity. Qed.

(** ** Byte-wise order on strings *)

Module StrOrder.

Lemma ascii_compare_refl c : Ascii.compare c c = Eq.
Proof. unfold Ascii.compare. apply N.compare_refl. Qed.

Lemma compare_refl s : String.compare s s = Eq.
Proof.
  induction s as [|c s IH]; simpl; [reflexivity|].
  now rewrite ascii_compare_refl.
Qed.

Lemma leb_refl s : String.leb s s = true.
Proof. unfold String.leb. now rewrite compare_refl. Qed.

Lemma ascii_compare_trans c1 c2 c3 o :
  Ascii.compare c1 c2 = o -> Ascii.compare c2 c3 = o -> Ascii.compare c1 c3 = o.
Proof.
  unfold Ascii.compare. intros H12 H23. destruct o.
  - apply N.compare_eq_iff in H12, H23. apply N.compare_eq_iff. congruence.
  - rewrite N.compare_lt_iff in *. eapply N.lt_trans; eassumption.
  - rewrite N.compare_gt_iff in *. eapply N.lt_trans; eassumption.
Qed.

Lemma leb_trans s1 s2 s3 :
  String.leb s1 s2 = true -> String.leb s2 s3 = true -> String.leb s1 s3 = true.
Proof.
  unfold String.leb. revert s2 s3.
  induction s1 as [|c1 s1 IH]; intros [|c2 s2] [|c3 s3]; simpl;
    try reflexivity; try discriminate.
  destruct (Ascii.compare c1 c2) eqn:H12; try discriminate.
  - apply Ascii.compare_eq_iff in H12. subst c2.
    destruct (Ascii.compare c1 c3); try discriminate; auto.
    apply IH.
  - destruct (Ascii.compare c2 c3) eqn:H23; try discriminate.
    + apply Ascii.compare_eq_iff in H23. subst c3. now rewrite H12.
    + now rewrite (ascii_compare_trans _ _ _ _ H12 H23).
Qed.

Lemma leb_false_flip s1 s2 : String.leb s1 s2 = false -> String.leb s2 s1 = true.
Proof.
  intros Hf. destruct (String.leb_total s1 s2) as [Ht|Ht]; congruence.
Qed.

End StrOrder.

(** ** The table: upsert, lookup, ordering *)

Module SqliteFacts.
Import Sqlite.

Lemma insert_desc_perm r l : Permutation (r :: l) (insert_desc r l).
Proof.
  induction l as [|x l IH]; simpl; [apply Permutation_refl|].
  destruct (String.leb (timestamp_utc x) (timestamp_utc r)).
  - apply Permutation_refl.
  - eapply perm_trans; [apply perm_swap|]. now apply perm_skip.
Qed.

Lemma order_by_perm rs : Permutation rs (order_by_timestamp_desc rs).
Proof.
  induction rs as [|r rs IH]; simpl; [constructor|].
  eapply perm_trans; [apply perm_skip, IH|]. apply insert_desc_perm.
Qed.

Lemma order_by_In rs r : In r (order_by_timestamp_desc rs) <-> In r rs.
Proof.
  split; intros Hin.
  - eapply Permutation_in; [apply Permutation_sym, order_by_perm|exact Hin].
  - eapply Permutation_in; [apply order_by_perm|exact Hin].
Qed.

Lemma insert_desc_sorted r l :
  StronglySorted newer_or_equal l -> StronglySorted newer_or_equal (insert_desc r l).
Proof.
  induction 1 as [|x l Hl IH Hx]; simpl.
  - constructor; constructor.
  - destruct (String.leb (timestamp_utc x) (timestamp_utc r)) eqn:Hle.
    + constructor; [now constructor|].
      constructor; [exact Hle|].
      rewrite Forall_forall in *. intros y Hy. unfold newer_or_equal in *.
      eapply StrOrder.leb_trans; [apply Hx, Hy|exact Hle].
    + constructor; [exact IH|].
      rewrite Forall_forall in *. intros y Hy.
      apply (Permutation_in _ (Permutation_sym (insert_desc_perm r l))) in Hy.
      destruct Hy as [<-|Hy]; [|now apply Hx].
      now apply StrOrder.leb_false_flip.
Qed.

Lemma order_by_sorted rs :
  StronglySorted newer_or_equal (order_by_timestamp_desc rs).
Proof.
  induction rs as [|r rs IH]; simpl; [constructor|].
  now apply insert_desc_sorted.
Qed.



Lemma int64_bounds n : int64 n = true <-> - 2 ^ 63 <= n < 2 ^ 63.
Proof.
  unfold int64. rewrite andb_true_iff, Z.leb_le, Z.ltb_lt. reflexivity.
Qed.






(** After the upsert the only row for [h] is the new one. *)
Lemma select_insert_or_replace t h data fp sig ts :
  select_by_hash (fst (insert_or_replace t h data fp sig ts)) h
  = Some {| id := snd (insert_or_replace t h data fp sig ts);
            build_hash := h; encrypted_data := data; user_fingerprint := fp;
            user_signature := sig; timestamp_utc := ts |}.
Proof.
  unfold select_by_hash, insert_or_replace. simpl.
  generalize (Z.max (sequence t) (max_id (rows t)) + 1). intros new_id.
  induction (rows t) as [|r rs IH]; simpl.
  - now rewrite String.eqb_refl.
  - destruct (String.eqb (build_hash r) h) eqn:E; simpl; [exact IH|].
    now rewrite E.
Qed.

Lemma select_by_hash_Some t h r :
  select_by_hash t h = Some r -> In r (rows t) /\ build_hash r = h.
Proof.
  unfold select_by_hash. intros Hf. apply find_some in Hf.
  destruct Hf as [Hin Heq]. apply String.eqb_eq in Heq. auto.
Qed.







End SqliteFacts.

(** ** The ledger *)

Section Ledger.

Context `{FernetLib} `{Base64Lib} `{JsonLib}.

Lemma build_data_flat env a : Json.flat_dict (build_data env a) = true.
Proof.
  unfold build_data, Json.flat_dict.
  destruct (arg_pdf_path a), (pdf_password_hint (arg_pdf_password a)),
    (arg_recipient_token a); reflexivity.
Qed.

(** What a successful [log_build] leaves in the world. *)
Lemma log_build_success w self env a w' build_id :
  log_build w self env a = (w', Some build_id) ->
  exists f fp t,
    self_fernet self = Some f /\ fingerprint env = Some fp /\
    database w = Some t /\
    let data := b64encode (Fernet_encrypt f (encrypt_entropy env)
                             (json_dumps (build_data env a))) in
    w' = {| key_file := key_file w;
            database := Some (fst (Sqlite.insert_or_replace t (arg_build_hash a)
                                     data fp (signature (arg_build_hash a) data)
                                     (utcnow_iso env))) |}.
Proof.
  unfold log_build. intros Hlog.
  destruct (self_fernet self) as [f|]; [|discriminate].
  destruct (fingerprint env) as [fp|]; [|discriminate].
  destruct (database w) as [t|]; [|discriminate].
  exists f, fp, t. repeat split; try reflexivity.
  cbv zeta. unfold Sqlite.insert_or_replace in *. simpl in *. congruence.
Qed.

Lemma log_build_failure w self env a w' :
  log_build w self env a = (w', None) -> w' = w.
Proof.
  unfold log_build.
  destruct (self_fernet self); [|congruence].
  destruct (fingerprint env); [|congruence].
  destruct (database w); [|congruence].
  unfold Sqlite.insert_or_replace. discriminate.
Qed.

(** The row found for a hash right after it was logged. *)
Lemma stored_row_after_log_build w self env a w' build_id :
  log_build w self env a = (w', Some build_id) ->
  exists f fp r,
    self_fernet self = Some f /\ fingerprint env = Some fp /\
    stored_row w' (arg_build_hash a) = Some r /\
    Sqlite.build_hash r = arg_build_hash a /\
    Sqlite.encrypted_data r
    = b64encode (Fernet_encrypt f (encrypt_entropy env)
                   (json_dumps (build_data env a))) /\
    Sqlite.user_fingerprint r = fp /\
    Sqlite.user_signature r
    = signature (arg_build_hash a) (Sqlite.encrypted_data r) /\
    Sqlite.timestamp_utc r = utcnow_iso env.
Proof.
  intros Hlog. apply log_build_success in Hlog.
  destruct Hlog as (f & fp & t & Hf & Hfp & Ht & Hw'). cbv zeta in Hw'.
  exists f, fp. eexists. split; [exact Hf|]. split; [exact Hfp|].
  subst w'. unfold stored_row. cbn [database].
  split; [apply SqliteFacts.select_insert_or_replace|].
  repeat split; reflexivity.
Qed.

Lemma stored_row_tamper w h data :
  stored_row (tamper w h data) h
  = match stored_row w h with
    | Some r =>
        Some {| Sqlite.id := Sqlite.id r;
                Sqlite.build_hash := Sqlite.build_hash r;
                Sqlite.encrypted_data := data;
                Sqlite.user_fingerprint := Sqlite.user_fingerprint r;
                Sqlite.user_signature := Sqlite.user_signature r;
                Sqlite.timestamp_utc := Sqlite.timestamp_utc r |}
    | None => None
    end.
Proof.
  unfold stored_row, tamper. simpl. destruct (database w) as [t|]; [|reflexivity].
  unfold Sqlite.select_by_hash, Sqlite.update_encrypted_data. simpl.
  induction (Sqlite.rows t) as [|r rs IH]; simpl; [reflexivity|].
  destruct (String.eqb (Sqlite.build_hash r) h) eqn:E; simpl; rewrite E; auto.
Qed.

(** [verify_build] in terms of the row it selects. *)
Lemma verify_build_stored_row w self h :
  verify_build w self h
  = match stored_row w h with
    | None => false
    | Some r =>
        String.eqb (signature h (Sqlite.encrypted_data r)) (Sqlite.user_signature r)
        && match decrypt_row self (Sqlite.encrypted_data r) with
           | Some (Json.Dict _) => true
           | _ => false
           end
    end.
Proof.
  unfold verify_build, stored_row.
  destruct (database w) as [t|]; [|reflexivity].
  destruct (Sqlite.select_by_hash t h) as [r|]; [|reflexivity].
  destruct (String.eqb _ _); simpl; [|reflexivity].
  destruct (decrypt_row self _) as [[]|]; reflexivity.
Qed.


(** The verdict on a row whose ciphertext was overwritten: the signature
    of the new text against the stored signature, then decryption. *)
Lemma verify_build_tampered w self h r data' :
  stored_row w h = Some r ->
  verify_build (tamper w h data') self h
  = String.eqb (signature h data') (Sqlite.user_signature r)
    && match decrypt_row self data' with
       | Some (Json.Dict _) => true
       | _ => false
       end.
Proof.
  intros Hrow. now rewrite verify_build_stored_row, stored_row_tamper, Hrow.
Qed.

Lemma append_inv_head (a b c : string) : a +++ b = a +++ c -> b = c.
Proof. induction a as [|x a IH]; simpl; [auto|]. intros [= Heq]. auto. Qed.

(** An altered ciphertext that [verify_build] still accepts exhibits a
    SHA-256 collision: two different texts with the same digest. *)
Lemma accepted_alteration_is_collision w self env a w' build_id r data' :
  log_build w self env a = (w', Some build_id) ->
  stored_row w' (arg_build_hash a) = Some r ->
  data' <> Sqlite.encrypted_data r ->
  verify_build (tamper w' (arg_build_hash a) data') self (arg_build_hash a) = true ->
  arg_build_hash a +++ data' <> arg_build_hash a +++ Sqlite.encrypted_data r /\
  SHA256.hexdigest (arg_build_hash a +++ data')
  = SHA256.hexdigest (arg_build_hash a +++ Sqlite.encrypted_data r).
Proof.
  intros Hlog Hrow Hne Hok.
  destruct (stored_row_after_log_build _ _ _ _ _ _ Hlog)
    as (f & fp & r' & _ & _ & Hrow' & _ & _ & _ & Hsig & _).
  rewrite Hrow in Hrow'. injection Hrow' as <-.
  rewrite (verify_build_tampered _ _ _ _ _ Hrow) in Hok.
  apply andb_true_iff in Hok. destruct Hok as [Hok _].
  apply String.eqb_eq in Hok. rewrite Hsig in Hok.
  split; [|exact Hok]. intros Heq. now apply append_inv_head in Heq.
Qed.


Section WithLaws.

Context `{!LibraryLaws}.

Lemma decrypt_row_of_log_build self f env a :
  self_fernet self = Some f ->
  decrypt_row self
    (b64encode (Fernet_encrypt f (encrypt_entropy env)
                  (json_dumps (build_data env a))))
  = Some (build_data env a).
Proof.
  intros Hf. unfold decrypt_row. rewrite Hf, b64_roundtrip, fernet_roundtrip.
  apply json_roundtrip, build_data_flat.
Qed.


End WithLaws.


(** C3, as the code has it.  The signature does not take the owner
    fingerprint in: two rows written by [log_build] under the same build
    hash with the same ciphertext carry the same signature, whatever the
    two fingerprints are. *)
Theorem signature_ignores_fingerprint :
  forall w1 self1 env1 a1 w1' id1 r1 w2 self2 env2 a2 w2' id2 r2,
    log_build w1 self1 env1 a1 = (w1', Some id1) ->
    log_build w2 self2 env2 a2 = (w2', Some id2) ->
    stored_row w1' (arg_build_hash a1) = Some r1 ->
    stored_row w2' (arg_build_hash a2) = Some r2 ->
    Sqlite.build_hash r1 = Sqlite.build_hash r2 ->
    Sqlite.encrypted_data r1 = Sqlite.encrypted_data r2 ->
    Sqlite.user_signature r1 = Sqlite.user_signature r2.
Proof.
  intros w1 self1 env1 a1 w1' id1 r1 w2 self2 env2 a2 w2' id2 r2
    Hlog1 Hlog2 Hrow1 Hrow2 Hh Hdata.
  destruct (stored_row_after_log_build _ _ _ _ _ _ Hlog1)
    as (? & ? & r1' & _ & _ & Hrow1' & Hh1 & _ & _ & Hsig1 & _).
  destruct (stored_row_after_log_build _ _ _ _ _ _ Hlog2)
    as (? & ? & r2' & _ & _ & Hrow2' & Hh2 & _ & _ & Hsig2 & _).
  rewrite Hrow1 in Hrow1'. injection Hrow1' as <-.
  rewrite Hrow2 in Hrow2'. injection Hrow2' as <-.
  rewrite Hsig1, Hsig2, <- Hh1, <- Hh2, Hh, Hdata. reflexivity.
Qed.

(** *** One row per build hash *)




(** The loop of [list_builds] keeps the entries of the rows whose body
    does not raise, in the order of the rows. *)
Lemma list_builds_loop self (results : list Sqlite.row) (builds : list build_summary) :
  fold_left
    (fun builds r =>
       match list_entry self r with
       | Some entry => builds ++ [entry]
       | None => builds
       end)
    results builds
  = builds ++ flat_map (fun r => match list_entry self r with
                                 | Some entry => [entry]
                                 | None => []
                                 end) results.
Proof.
  revert builds. induction results as [|r rs IH]; intros builds; simpl.
  - now rewrite app_nil_r.
  - rewrite IH. destruct (list_entry self r); [|reflexivity].
    now rewrite <- app_assoc.
Qed.

Lemma list_builds_window w self limit :
  map Some (list_builds w self limit)
  = map (list_entry self) (filter (listed self) (window w limit)).
Proof.
  unfold list_builds, window, table_rows.
  destruct (database w) as [t|].
  2:{ unfold Sqlite.limit. destruct (Sqlite.int64 limit); [|reflexivity].
      destruct (limit <? 0); [reflexivity|]. now rewrite firstn_nil. }
  destruct (Sqlite.limit limit _) as [results|]; [|reflexivity].
  rewrite list_builds_loop. simpl.
  induction results as [|r rs IH]; simpl; [reflexivity|].
  unfold listed at 1. destruct (list_entry self r) eqn:E; simpl; [|exact IH].
  now rewrite E, IH.
Qed.




Lemma window_unbound w limit : Sqlite.int64 limit = false -> window w limit = [].
Proof. intros Hint. unfold window, Sqlite.limit. now rewrite Hint. Qed.




(** *** Listing *)




Lemma window_length w limit :
  Sqlite.int64 limit = true -> 0 <= limit ->
  Z.of_nat (List.length (window w limit))
  = Z.min limit (Z.of_nat (List.length (table_rows w))).
Proof.
  intros Hint Hpos. unfold window, Sqlite.limit. rewrite Hint.
  destruct (Z.ltb_spec limit 0); [lia|].
  rewrite length_firstn,
    (Permutation_length (SqliteFacts.order_by_perm (table_rows w))).
  lia.
Qed.


(** *** Lookup by recipient token *)

Lemma token_entry_Some self token r found :
  token_entry self token r = Some found ->
  carries_token self token r /\
  m_build_hash found = Sqlite.build_hash r /\
  m_user_fingerprint found = Sqlite.user_fingerprint r.
Proof.
  unfold token_entry, carries_token.
  destruct (decrypt_row self _) as [bd|]; [|discriminate].
  destruct bd as [| | | | |?|items]; simpl; try discriminate.
  destruct (Json.lookup "recipient_token" items) as [v|] eqn:Hv; simpl;
    [|discriminate].
  destruct v; simpl; try discriminate.
  destruct (String.eqb s token) eqn:E; [|discriminate].
  apply String.eqb_eq in E. subst s. intros [= <-]. simpl. eauto.
Qed.


Lemma find_in_rows_first self token (rows : list Sqlite.row) :
  StronglySorted Sqlite.newer_or_equal rows ->
  match find_in_rows self token rows with
  | Some found =>
      exists r,
        In r rows /\ token_entry self token r = Some found /\
        forall r', In r' rows -> token_entry self token r' <> None ->
                   Sqlite.newer_or_equal r r'
  | None => forall r, In r rows -> token_entry self token r = None
  end.
Proof.
  induction 1 as [|x rows Hs IH Hx]; simpl; [tauto|].
  destruct (token_entry self token x) as [found|] eqn:E.
  - exists x. split; [now left|]. split; [exact E|].
    intros r' [<-|Hin] _.
    + apply StrOrder.leb_refl.
    + rewrite Forall_forall in Hx. now apply Hx.
  - destruct (find_in_rows self token rows) as [found|].
    + destruct IH as [r [Hin [Hr Hnew]]]. exists r.
      split; [now right|]. split; [exact Hr|].
      intros r' [<-|Hin'] Hne; [congruence|now apply Hnew].
    + intros r [<-|Hin]; [exact E|now apply IH].
Qed.


End Ledger.

(** ** Shapes of the digests *)

Module DigestFacts.

Lemma append_assoc (a b c : string) : (a +++ b) +++ c = a +++ (b +++ c).
Proof. induction a as [|x a IH]; simpl; [reflexivity|now rewrite IH]. Qed.

Lemma append_nil_r (a : string) : a +++ "" = a.
Proof. induction a as [|x a IH]; simpl; [reflexivity|now rewrite IH]. Qed.

Lemma length_append (a b : string) :
  String.length (a +++ b) = (String.length a + String.length b)%nat.
Proof. induction a as [|x a IH]; simpl; [reflexivity|now rewrite IH]. Qed.

Lemma all_chars_append p (a b : string) :
  PyStr.all_chars p (a +++ b) = PyStr.all_chars p a && PyStr.all_chars p b.
Proof.
  induction a as [|x a IH]; simpl; [reflexivity|].
  now rewrite IH, andb_assoc.
Qed.

Lemma hex_length bs : String.length (Hex.of_bytes bs) = (2 * List.length bs)%nat.
Proof.
  induction bs as [|b bs IH]; simpl; [reflexivity|]. rewrite IH. lia.
Qed.





Lemma sha256_round_length W v i :
  List.length v = 8%nat -> List.length (SHA256.round W v i) = 8%nat.
Proof.
  intros Hv.
  do 8 (destruct v as [|? v]; [discriminate|]).
  destruct v; [reflexivity|discriminate].
Qed.

Lemma sha256_rounds_length W idx v :
  List.length v = 8%nat -> List.length (fold_left (SHA256.round W) idx v) = 8%nat.
Proof.
  revert v. induction idx as [|i idx IH]; intros v Hv; simpl; [exact Hv|].
  apply IH, sha256_round_length, Hv.
Qed.

Lemma sha256_add_words_length x y :
  List.length x = 8%nat -> List.length y = 8%nat ->
  List.length (SHA256.add_words x y) = 8%nat.
Proof.
  intros Hx Hy.
  do 8 (destruct x as [|? x]; [discriminate|]).
  do 8 (destruct y as [|? y]; [discriminate|]).
  destruct x, y; try discriminate. reflexivity.
Qed.

Lemma sha256_compress_length h block :
  List.length h = 8%nat -> List.length (SHA256.compress h block) = 8%nat.
Proof.
  intros Hh. unfold SHA256.compress.
  apply sha256_add_words_length; [exact Hh|now apply sha256_rounds_length].
Qed.

Lemma sha256_state_length blocks h :
  List.length h = 8%nat ->
  List.length (fold_left SHA256.compress blocks h) = 8%nat.
Proof.
  revert h. induction blocks as [|b bs IH]; intros h Hh; simpl; [exact Hh|].
  apply IH, sha256_compress_length, Hh.
Qed.

Lemma sha256_digest_length msg : List.length (SHA256.digest msg) = 32%nat.
Proof.
  unfold SHA256.digest.
  pose proof (sha256_state_length
    (Word32.blocks (List.length (Word32.pad Word32.len64_be msg))
       (Word32.pad Word32.len64_be msg)) SHA256.H0 eq_refl) as Hs.
  destruct (fold_left SHA256.compress _ SHA256.H0) as [|? v]; [discriminate|].
  do 7 (destruct v as [|? v]; [discriminate|]).
  destruct v; [reflexivity|discriminate].
Qed.

Lemma sha256_hexdigest_length data : String.length (SHA256.hexdigest data) = 64%nat.
Proof. unfold SHA256.hexdigest. now rewrite hex_length, sha256_digest_length. Qed.

End DigestFacts.

(** ** Slicing strings that have no multi-byte code points *)

Module SliceFacts.

Lemma span_single_byte s :
  PyStr.single_byte s = true -> PyStr.span_continuation s = ("", s).
Proof.
  destruct s as [|c s]; simpl; [reflexivity|].
  unfold PyStr.single_byte. simpl. intros Hs. apply andb_true_iff in Hs.
  destruct Hs as [Hc _]. apply negb_true_iff in Hc. now rewrite Hc.
Qed.

Lemma take_single_byte n s :
  PyStr.single_byte s = true -> PyStr.take n s = substring 0 n s.
Proof.
  revert s. induction n as [|n IH]; intros [|c s] Hs; try reflexivity.
  assert (Hs' : PyStr.single_byte s = true).
  { unfold PyStr.single_byte in *. simpl in Hs. now apply andb_true_iff in Hs. }
  simpl. rewrite (span_single_byte _ Hs'). simpl. now rewrite IH.
Qed.



Lemma substring_all n s : (String.length s <= n)%nat -> substring 0 n s = s.
Proof.
  revert s. induction n as [|n IH]; intros [|c s] Hn; simpl in *;
    try reflexivity; try lia.
  rewrite IH; [reflexivity|lia].
Qed.




End SliceFacts.

(** ** Build identifiers *)


Example build_hash_example :
  _generate_build_hash "doc.tex" "SECRET" "2025-08-17T10:00:00.123456"
  = "bca70c8a805440bc".
Proof. vm_compute. reflexivity. Qed.

(** ** The invisible token run of the LaTeX style *)

Lemma style_has_token_run :
  PyStr.contains ("\raisebox{1pt}{" +++ invisible_token_run +++ "}") style_content
  = true.
Proof. vm_compute. reflexivity. Qed.

Lemma style_has_no_run_without_tie :
  PyStr.contains ("TNC_TOKEN:" +++ token_macro) style_content = false.
Proof. vm_compute. reflexivity. Qed.

(** C9, as the code has it.  The text run that the style places on each
    page is [TNC_TOKEN:~\capyRecipientToken]; with a recipient token set
    it is the literal prefix [TNC_TOKEN:], then a TeX tie ([~], an
    unbreakable space), then the token: the prefix is there, and the
    token does not follow the colon at once. *)
Theorem token_run_prefix_tie_token :
  PyStr.contains ("\raisebox{1pt}{" +++ invisible_token_run +++ "}") style_content
  = true /\
  forall recipient_token,
    emitted_token_text recipient_token
    = if PyStr.truthy recipient_token
      then match recipient_token with
           | Some t => Some ("TNC_TOKEN:" +++ "~" +++ t)
           | None => None
           end
      else None.
Proof.
  split; [exact style_has_token_run|].
  intros [[|c t]|]; try reflexivity.
  unfold emitted_token_text, PyStr.replace. cbn.
  now rewrite DigestFacts.append_nil_r.
Qed.

(** C9 as stated fails: for the token [alice] the run is not
    [TNC_TOKEN:alice]. *)
Lemma token_run_not_adjacent :
  emitted_token_text (Some "alice") = Some "TNC_TOKEN:~alice" /\
  emitted_token_text (Some "alice") <> Some ("TNC_TOKEN:" +++ "alice").
Proof. split; [reflexivity|discriminate]. Qed.

(** ** The stand-ins satisfy the library laws *)

Module StandinFacts.
Import Standin.

Lemma split_at_app a b : split_at (String.length a) (a +++ b) = Some (a, b).
Proof. induction a as [|c a IH]; simpl; [reflexivity|now rewrite IH]. Qed.

Lemma fixed_width_length n s : String.length (fixed_width n s) = n.
Proof.
  revert s. induction n as [|n IH]; intros s; simpl; [reflexivity|].
  destruct s; simpl; now rewrite IH.
Qed.

Lemma new_generate_key e : new (generate_key e) = Some (generate_key e).
Proof. unfold new, generate_key. now rewrite fixed_width_length. Qed.

Lemma decrypt_encrypt key e data : decrypt key (encrypt key e data) = Some data.
Proof.
  unfold decrypt, encrypt.
  rewrite <- (DigestFacts.sha256_hexdigest_length (key +++ fixed_width 16 e +++ data)) at 1.
  rewrite split_at_app, String.eqb_refl.
  rewrite <- (fixed_width_length 16 e) at 1. now rewrite split_at_app.
Qed.

Lemma sextet_of_char_of_sextet x0 x1 x2 x3 x4 x5 :
  sextet_of_char (char_of_sextet (Ascii x0 x1 x2 x3 x4 x5 false false))
  = Some (Ascii x0 x1 x2 x3 x4 x5 false false).
Proof. destruct x0, x1, x2, x3, x4, x5; reflexivity. Qed.

Lemma char_of_sextet_not_pad x0 x1 x2 x3 x4 x5 :
  Ascii.eqb (char_of_sextet (Ascii x0 x1 x2 x3 x4 x5 false false)) pad_char = false.
Proof. destruct x0, x1, x2, x3, x4, x5; reflexivity. Qed.

Lemma decode_encode_steps s :
  decode (encode s) = Some s /\
  (forall a, decode (encode (String a s)) = Some (String a s)) /\
  (forall a b, decode (encode (String a (String b s))) = Some (String a (String b s))).
Proof.
  induction s as [|c s [IH0 [IH1 IH2]]].
  - split; [reflexivity|]. split.
    + intros [a0 a1 a2 a3 a4 a5 a6 a7]. cbn [encode sextets zero Ascii.zero decode].
      rewrite !sextet_of_char_of_sextet. reflexivity.
    + intros [a0 a1 a2 a3 a4 a5 a6 a7] [b0 b1 b2 b3 b4 b5 b6 b7].
      cbn [encode sextets zero Ascii.zero decode].
      rewrite !sextet_of_char_of_sextet, char_of_sextet_not_pad. reflexivity.
  - split; [exact (IH1 c)|]. split; [exact (fun a => IH2 a c)|].
    intros [a0 a1 a2 a3 a4 a5 a6 a7] [b0 b1 b2 b3 b4 b5 b6 b7].
    destruct c as [c0 c1 c2 c3 c4 c5 c6 c7].
    cbn [encode sextets decode].
    rewrite !sextet_of_char_of_sextet, char_of_sextet_not_pad.
    cbn [andb]. rewrite IH0. reflexivity.
Qed.

Lemma decode_encode s : decode (encode s) = Some s.
Proof. apply decode_encode_steps. Qed.

Lemma get_pos_put_pos p r : get_pos (put_pos p +++ r) = Some (p, r).
Proof. induction p as [p IH|p IH|]; simpl; [now rewrite IH..|reflexivity]. Qed.

Lemma get_nat_put_nat n r : get_nat (put_nat n +++ r) = Some (n, r).
Proof.
  unfold get_nat, put_nat. rewrite get_pos_put_pos.
  now rewrite SuccNat2Pos.id_succ.
Qed.

Lemma get_str_put_str x r : get_str (put_str x +++ r) = Some (x, r).
Proof.
  unfold get_str, put_str.
  now rewrite DigestFacts.append_assoc, get_nat_put_nat, split_at_app.
Qed.

Lemma get_scalar_put_scalar v r :
  Json.scalar v = true -> get_scalar (put_scalar v +++ r) = Some (v, r).
Proof.
  destruct v as [| |z| |x| |]; try discriminate; intros _; simpl.
  - reflexivity.
  - destruct z; simpl; [reflexivity|now rewrite get_pos_put_pos..].
  - change (put_nat (String.length x) +++ x) with (put_str x).
    now rewrite get_str_put_str.
Qed.

Lemma get_items_put_items items r :
  forallb (fun kv => Json.scalar (snd kv)) items = true ->
  get_items (List.length items) (put_items items +++ r) = Some (items, r).
Proof.
  induction items as [|[k v] items IH]; simpl; [reflexivity|].
  intros Hs. apply andb_true_iff in Hs. destruct Hs as [Hv Hs].
  rewrite !DigestFacts.append_assoc, get_str_put_str, (get_scalar_put_scalar _ _ Hv).
  now rewrite (IH Hs).
Qed.

Lemma loads_dumps v : Json.flat_dict v = true -> loads (dumps v) = Some v.
Proof.
  intros Hflat. unfold loads, dumps.
  destruct v as [| | | | | |items]; try discriminate.
  rewrite Hflat. cbn [Json.flat_dict] in Hflat.
  apply andb_true_iff in Hflat. destruct Hflat as [_ Hs].
  rewrite get_nat_put_nat.
  rewrite <- (DigestFacts.append_nil_r (put_items items)).
  now rewrite (get_items_put_items _ _ Hs).
Qed.

#[export] Instance laws : LibraryLaws.
Proof.
  split.
  - intros e. change (new (generate_key e) <> None).
    rewrite new_generate_key. discriminate.
  - intros f e data. apply decrypt_encrypt.
  - intros b. apply decode_encode.
  - intros v. apply loads_dumps.
Qed.

End StandinFacts.

(** ** Runs on the small ledger *)

Section Runs.
Import Standin Scenario.

Example log_B1 :
  log_build (fst opened) (snd opened) alice_env B1 = (with_B1, Some 1).
Proof. vm_compute. reflexivity. Qed.

Example altered_one_byte :
  String.get 0 B1_ciphertext = Some "O"%char /\
  String.get 0 B1_altered = Some "P"%char /\
  substring 1 547 B1_altered = substring 1 547 B1_ciphertext /\
  String.length B1_altered = String.length B1_ciphertext.
Proof. vm_compute. repeat split. Qed.

(** Changing bits that base64 ignores leaves the token decryptable; it is
    the signature over the stored text that rejects the row. *)
Example repadded_still_decrypts :
  B1_repadded <> B1_ciphertext /\
  decrypt_row (snd opened) B1_repadded = decrypt_row (snd opened) B1_ciphertext /\
  decrypt_row (snd opened) B1_repadded <> None /\
  verify_build (tamper with_B1 "B1" B1_repadded) (snd opened) "B1" = false.
Proof.
  split; [vm_compute; discriminate|].
  split; [vm_compute; reflexivity|].
  split; [vm_compute; discriminate|vm_compute; reflexivity].
Qed.

(** The scenario of the two builds: [alice] finds [B1], [carol] nothing. *)
Example find_alice_and_carol :
  option_map m_build_hash (find_by_recipient_token with_B1_B2 (snd opened) "alice")
  = Some "B1" /\
  option_map m_classification (find_by_recipient_token with_B1_B2 (snd opened) "alice")
  = Some (Json.Str "SECRET") /\
  find_by_recipient_token with_B1_B2 (snd opened) "carol" = None.
Proof. vm_compute. repeat split. Qed.

(** The scenario of the corrupted row: the other row is still listed. *)
Example list_with_corrupted_row :
  map s_build_hash (list_builds with_B1_B2 (snd opened) 10) = ["B2"; "B1"] /\
  map s_build_hash (list_builds (tamper with_B1_B2 "B2" B1_altered) (snd opened) 10)
  = ["B1"].
Proof. vm_compute. split; reflexivity. Qed.

(** The limit is applied before rows are skipped. *)
Example limit_counts_corrupted_rows :
  list_builds (tamper with_B1_B2 "B2" B1_altered) (snd opened) 1 = [].
Proof. vm_compute. reflexivity. Qed.

End Runs.

(** ** The password hint *)

Lemma pdf_password_hint_value c p :
  pdf_password_hint (Some (String c p)) = Some (PyStr.take 8 (String c p) +++ "...").
Proof. reflexivity. Qed.

(** A password of at most eight characters goes into the hint whole. *)
Lemma pdf_password_hint_short p :
  PyStr.single_byte p = true ->
  (0 < String.length p <= 8)%nat ->
  pdf_password_hint (Some p) = Some (p +++ "...").
Proof.
  intros Hp Hlen. destruct p as [|c p]; [simpl in Hlen; lia|].
  rewrite pdf_password_hint_value, (SliceFacts.take_single_byte _ _ Hp).
  now rewrite SliceFacts.substring_all by lia.
Qed.

Lemma substring_app_l n (a b : string) :
  (n <= String.length a)%nat -> substring 0 n (a +++ b) = substring 0 n a.
Proof.
  revert a. induction n as [|n IH]; intros [|c a] Hn; simpl in *;
    try reflexivity; try lia.
  - now destruct b.
  - rewrite IH; [reflexivity|lia].
Qed.

(** A longer password is cut: the hint keeps its first eight characters,
    and passwords that agree on them have the same hint. *)
Lemma pdf_password_hint_long p extra :
  PyStr.single_byte p = true -> PyStr.single_byte extra = true ->
  (8 <= String.length p)%nat ->
  pdf_password_hint (Some (p +++ extra)) = Some (substring 0 8 p +++ "...").
Proof.
  intros Hp He Hlen.
  assert (Hpe : PyStr.single_byte (p +++ extra) = true).
  { unfold PyStr.single_byte in *. now rewrite DigestFacts.all_chars_append, Hp, He. }
  destruct p as [|c p]; [simpl in Hlen; lia|].
  change (String c p +++ extra) with (String c (p +++ extra)) in *.
  rewrite pdf_password_hint_value, (SliceFacts.take_single_byte _ _ Hpe).
  change (String c (p +++ extra)) with (String c p +++ extra).
  now rewrite substring_app_l.
Qed.

Section HintRun.
Import Standin Scenario.

(** C7 fails on the code: [log_build] called with the seven-character
    password [hunter2] stores, inside the encrypted metadata, the hint
    [hunter2...], which holds the whole password. *)
Theorem short_password_stored_whole :
  arg_pdf_password B1 = Some "hunter2" /\
  exists items,
    decrypt_row (snd opened) B1_ciphertext = Some (Json.Dict items) /\
    Json.lookup "pdf_password_hint" items = Some (Json.Str ("hunter2" +++ "...")).
Proof.
  split; [reflexivity|]. eexists. split; vm_compute; reflexivity.
Qed.

End HintRun.

(** ** Opening a ledger *)

Section Opening.

Context `{FernetLib} `{Base64Lib} `{JsonLib} `{!LibraryLaws}.

(** C8, as the code has it.  [_init_encrypted_database] has no failing
    path and keeps the rows that are there.  With the key file missing it
    generates a key, writes it and goes on with it, creating the table if
    there is none; a key file holding any key that [Fernet] accepts is
    taken as it is; a key file that [Fernet] rejects leaves the files and
    the logger as they were. *)
Theorem init_proceeds_without_key_check :
  forall w self e,
    let opened := _init_encrypted_database w self e in
    table_rows (fst opened) = table_rows w /\
    (key_file w = None ->
     key_file (fst opened) = Some (Fernet_generate_key e) /\
     self_fernet (snd opened) = Fernet_new (Fernet_generate_key e) /\
     self_fernet (snd opened) <> None /\
     database (fst opened) <> None) /\
    (forall k f,
        key_file w = Some k -> Fernet_new k = Some f ->
        key_file (fst opened) = Some k /\
        self_fernet (snd opened) = Some f /\
        database (fst opened) <> None) /\
    (forall k,
        key_file w = Some k -> Fernet_new k = None ->
        opened = (w, self)).
Proof.
  intros w self e opened. subst opened. unfold _init_encrypted_database, table_rows.
  destruct w as [[k|] db]; cbn [key_file database].
  - destruct (Fernet_new k) as [f|] eqn:Hk; cbn [fst snd key_file database self_fernet].
    + split; [now destruct db|]. split; [discriminate|]. split.
      * intros k' f' [= <-] Hk'. rewrite Hk in Hk'. injection Hk' as <-.
        repeat split; discriminate.
      * intros k' [= <-] Hk'. congruence.
    + split; [reflexivity|]. split; [discriminate|]. split.
      * intros k' f' [= <-] Hk'. congruence.
      * intros k' [= <-] _. reflexivity.
  - pose proof (generated_key_valid e) as Hvalid.
    destruct (Fernet_new (Fernet_generate_key e)) as [f|] eqn:Hk; [|congruence].
    cbn [fst snd key_file database self_fernet].
    split; [now destruct db|]. split.
    + intros _. repeat split; discriminate.
    + split; intros; discriminate.
Qed.

End Opening.

Section Counterexamples.
Import Standin Scenario.

(** C8 as stated fails: a store that holds a row and has lost its key
    file is opened without any error; a new key is written, the row stays,
    and it can no longer be read. *)
Lemma reopen_creates_fresh_key :
  key_file key_lost = None /\
  List.length (table_rows key_lost) = 1%nat /\
  key_file (fst reopened) = Some (generate_key "other seed") /\
  self_fernet (snd reopened) = Some (generate_key "other seed") /\
  table_rows (fst reopened) = table_rows key_lost /\
  list_builds (fst reopened) (snd reopened) 10 = [] /\
  verify_build (fst reopened) (snd reopened) "B1" = false.
Proof. vm_compute. repeat split. Qed.

(** C3 as stated fails: the same build logged by two owners, with the
    same ciphertext, gets the same signature under both fingerprints. *)
Lemma same_signature_two_fingerprints :
  exists r1 r2,
    stored_row with_B1 "B1" = Some r1 /\
    stored_row with_B1_by_bob "B1" = Some r2 /\
    Sqlite.build_hash r1 = Sqlite.build_hash r2 /\
    Sqlite.encrypted_data r1 = Sqlite.encrypted_data r2 /\
    Sqlite.user_fingerprint r1 <> Sqlite.user_fingerprint r2 /\
    ~ Sqlite.user_signature r1 <> Sqlite.user_signature r2.
Proof.
  do 2 eexists. split; [vm_compute; reflexivity|].
  split; [vm_compute; reflexivity|].
  split; [reflexivity|]. split; [reflexivity|].
  split; [discriminate|]. intros Hne. now apply Hne.
Qed.



End Counterexamples.

(** ** The theorems at work on the small ledger *)

Section Witnesses.
Import Standin Scenario.



Lemma signature_ignores_fingerprint_witness :
  exists r1 r2,
    stored_row with_B1 "B1" = Some r1 /\
    stored_row with_B1_by_bob "B1" = Some r2 /\
    Sqlite.user_fingerprint r1 <> Sqlite.user_fingerprint r2 /\
    Sqlite.user_signature r1 = Sqlite.user_signature r2.
Proof.
  assert (Hlog1 : log_build (fst opened) (snd opened) alice_env B1 = (with_B1, Some 1))
    by (vm_compute; reflexivity).
  assert (Hlog2 : log_build (fst opened) (snd opened) bob_env B1
                  = (with_B1_by_bob, Some 1))
    by (vm_compute; reflexivity).
  do 2 eexists.
  split; [vm_compute; reflexivity|]. split; [vm_compute; reflexivity|].
  split; [discriminate|].
  eapply (signature_ignores_fingerprint _ _ _ _ _ _ _ _ _ _ _ _ _ _ Hlog1 Hlog2);
    vm_compute; reflexivity.
Defined.

Lemma init_proceeds_without_key_check_witness :
  key_file key_lost = None /\
  table_rows (fst reopened) = table_rows key_lost /\
  key_file (fst reopened) = Some (Fernet_generate_key "other seed") /\
  self_fernet (snd reopened) <> None.
Proof.
  destruct (@init_proceeds_without_key_check _ _ _ StandinFacts.laws
              key_lost new_logger "other seed") as [Hrows [Hnew _]].
  destruct (Hnew eq_refl) as [Hkey [_ [Hfernet _]]].
  split; [reflexivity|]. split; [exact Hrows|]. split; [exact Hkey|exact Hfernet].
Defined.

End Witnesses.

(** * More of the ledger *)

Section MoreLedger.

Context `{FernetLib} `{Base64Lib} `{JsonLib}.

(** ** Failure of [log_build] *)

Lemma log_build_key_file w self env a :
  key_file (fst (log_build w self env a)) = key_file w.
Proof.
  unfold log_build.
  destruct (self_fernet self); [|reflexivity].
  destruct (fingerprint env); [|reflexivity].
  destruct (database w); reflexivity.
Qed.

Lemma log_build_None_iff w self env a :
  snd (log_build w self env a) = None
  <-> self_fernet self = None \/ fingerprint env = None \/ database w = None.
Proof.
  unfold log_build.
  destruct (self_fernet self); [|simpl; tauto].
  destruct (fingerprint env); [|simpl; tauto].
  destruct (database w); [|simpl; tauto].
  simpl. split; [discriminate|]. intros [|[|]]; discriminate.
Qed.

(** X1.  [log_build] returns [None] whenever the logger has no [fernet]
    (initialisation failed), no fingerprint is to be had, or the table is
    missing; and whenever it returns [None], the key file and the table
    are left exactly as they were.  A call never touches the key
    file. *)
Theorem log_build_fails_without_change :
  forall w self env a,
    key_file (fst (log_build w self env a)) = key_file w /\
    (self_fernet self = None \/ fingerprint env = None \/ database w = None ->
     snd (log_build w self env a) = None) /\
    (snd (log_build w self env a) = None -> fst (log_build w self env a) = w).
Proof.
  intros w self env a. split; [apply log_build_key_file|].
  split; [apply (proj2 (log_build_None_iff w self env a))|].
  destruct (log_build w self env a) as [w' r] eqn:Hlog. simpl. intros ->.
  now apply log_build_failure in Hlog.
Qed.

(** ** Build ids *)

(** No row id exceeds [max_id]. *)
Lemma max_id_bound (rs : list Sqlite.row) r :
  In r rs -> Sqlite.id r <= Sqlite.max_id rs.
Proof.
  induction rs as [|x rs IH]; simpl; [tauto|].
  intros [->|Hin]; [lia|]. specialize (IH Hin). lia.
Qed.

Lemma max_id_nonneg (rs : list Sqlite.row) : 0 <= Sqlite.max_id rs.
Proof. induction rs as [|x rs IH]; simpl; lia. Qed.

(** What a successful call stores, row id included. *)
Lemma log_build_inv w self env a w' build_id :
  log_build w self env a = (w', Some build_id) ->
  exists f fp t,
    self_fernet self = Some f /\ fingerprint env = Some fp /\
    database w = Some t /\
    build_id = Z.max (Sqlite.sequence t) (Sqlite.max_id (Sqlite.rows t)) + 1 /\
    let data := b64encode (Fernet_encrypt f (encrypt_entropy env)
                             (json_dumps (build_data env a))) in
    w' = {| key_file := key_file w;
            database :=
              Some {| Sqlite.rows :=
                        filter (fun r => negb (String.eqb (Sqlite.build_hash r)
                                                 (arg_build_hash a)))
                          (Sqlite.rows t)
                        ++ [{| Sqlite.id := build_id;
                               Sqlite.build_hash := arg_build_hash a;
                               Sqlite.encrypted_data := data;
                               Sqlite.user_fingerprint := fp;
                               Sqlite.user_signature := signature (arg_build_hash a) data;
                               Sqlite.timestamp_utc := utcnow_iso env |}];
                      Sqlite.sequence := build_id |} |}.
Proof.
  unfold log_build. intros Hlog.
  destruct (self_fernet self) as [f|]; [|discriminate].
  destruct (fingerprint env) as [fp|]; [|discriminate].
  destruct (database w) as [t|]; [|discriminate].
  unfold Sqlite.insert_or_replace in Hlog. injection Hlog as <- <-.
  exists f, fp, t. repeat split.
Qed.

(** The AUTOINCREMENT counter never goes down. *)
Lemma log_build_sequence_grows w self env a t t' :
  database w = Some t ->
  database (fst (log_build w self env a)) = Some t' ->
  Sqlite.sequence t <= Sqlite.sequence t'.
Proof.
  intros Ht Ht'. destruct (log_build w self env a) as [w' [build_id|]] eqn:Hlog.
  - destruct (log_build_inv _ _ _ _ _ _ Hlog) as (f & fp & t0 & _ & _ & Ht0 & Hid & Hw').
    cbv zeta in Hw'. rewrite Ht in Ht0. injection Ht0 as <-.
    simpl in Ht'. subst w'. simpl in Ht'. injection Ht' as <-. simpl. lia.
  - apply log_build_failure in Hlog. simpl in Ht'. subst w'.
    rewrite Ht in Ht'. injection Ht' as <-. lia.
Qed.

Lemma log_build_keeps_table w self env a t :
  database w = Some t ->
  exists t', database (fst (log_build w self env a)) = Some t'.
Proof.
  intros Ht. unfold log_build.
  destruct (self_fernet self); [|eauto].
  destruct (fingerprint env); [|eauto].
  rewrite Ht. simpl. eauto.
Qed.

Lemma log_builds_sequence_grows w self calls t :
  database w = Some t ->
  exists t', database (log_builds w self calls) = Some t'
             /\ Sqlite.sequence t <= Sqlite.sequence t'.
Proof.
  revert w t. induction calls as [|[env a] calls IH]; intros w t Ht; simpl.
  - exists t. split; [exact Ht|lia].
  - destruct (log_build_keeps_table w self env a t Ht) as [t1 Ht1].
    pose proof (log_build_sequence_grows _ _ _ _ _ _ Ht Ht1) as Hle.
    destruct (IH _ _ Ht1) as [t' [Ht' Hle']]. exists t'. split; [exact Ht'|lia].
Qed.

(** X2.  The id returned by [log_build] is positive and larger than every row
    id in the table before the call; and any later successful call on the
    same ledger, whatever was logged in between and whether or not it
    replaces a row, returns a larger id: ids are never handed out twice. *)
Theorem build_ids_increase :
  forall w self env1 a1 w1 id1 calls env2 a2 w2 id2,
    log_build w self env1 a1 = (w1, Some id1) ->
    log_build (log_builds w1 self calls) self env2 a2 = (w2, Some id2) ->
    0 < id1 /\
    (forall r, In r (table_rows w) -> Sqlite.id r < id1) /\
    id1 < id2.
Proof.
  intros w self env1 a1 w1 id1 calls env2 a2 w2 id2 Hlog1 Hlog2.
  destruct (log_build_inv _ _ _ _ _ _ Hlog1) as (f & fp & t & _ & _ & Ht & Hid1 & Hw1).
  cbv zeta in Hw1.
  split; [pose proof (max_id_nonneg (Sqlite.rows t)); lia|]. split.
  - unfold table_rows. rewrite Ht. intros r Hin.
    apply max_id_bound in Hin. lia.
  - assert (Ht1 : database w1 = Some {| Sqlite.rows := Sqlite.rows
        (match database w1 with Some x => x | None => t end);
        Sqlite.sequence := id1 |}) by (subst w1; reflexivity).
    destruct (log_builds_sequence_grows _ self calls _ Ht1) as [t' [Ht' Hle]].
    destruct (log_build_inv _ _ _ _ _ _ Hlog2) as (? & ? & t2 & _ & _ & Ht2 & Hid2 & _).
    rewrite Ht' in Ht2. injection Ht2 as <-. simpl in Hle. lia.
Qed.

(** ** Other hashes are left alone *)

Lemma stored_row_log_build_other w self env a h :
  h <> arg_build_hash a ->
  stored_row (fst (log_build w self env a)) h = stored_row w h.
Proof.
  intros Hne. destruct (log_build w self env a) as [w' [build_id|]] eqn:Hlog.
  - destruct (log_build_inv _ _ _ _ _ _ Hlog) as (f & fp & t & _ & _ & Ht & _ & Hw').
    cbv zeta in Hw'. simpl. subst w'. clear Hlog.
    unfold stored_row. rewrite Ht. cbn [database].
    unfold Sqlite.select_by_hash. cbn [Sqlite.rows].
    induction (Sqlite.rows t) as [|r rs IH]; simpl.
    + destruct (String.eqb_spec (arg_build_hash a) h); [congruence|reflexivity].
    + destruct (String.eqb_spec (Sqlite.build_hash r) (arg_build_hash a)) as [Heq|Hneq];
        simpl.
      * rewrite IH. destruct (String.eqb_spec (Sqlite.build_hash r) h); [congruence|].
        reflexivity.
      * destruct (String.eqb (Sqlite.build_hash r) h); [reflexivity|exact IH].
  - apply log_build_failure in Hlog. now subst.
Qed.

Lemma stored_row_log_builds_other w self calls h :
  Forall (fun call => h <> arg_build_hash (snd call)) calls ->
  stored_row (log_builds w self calls) h = stored_row w h.
Proof.
  revert w. induction calls as [|[env a] calls IH]; intros w Hall; simpl;
    [reflexivity|].
  inversion Hall as [|? ? Hne Hall']; subst. simpl in Hne.
  now rewrite (IH _ Hall'), stored_row_log_build_other.
Qed.

(** X3.  Calls of [log_build] for other hashes change neither the row stored
    under a hash nor what [verify_build] answers for it; in particular a
    hash that was never logged is not verified. *)
Theorem log_build_leaves_other_hashes :
  forall w self calls h,
    Forall (fun call => h <> arg_build_hash (snd call)) calls ->
    stored_row (log_builds w self calls) h = stored_row w h /\
    verify_build (log_builds w self calls) self h = verify_build w self h /\
    (stored_row w h = None -> verify_build (log_builds w self calls) self h = false).
Proof.
  intros w self calls h Hall.
  pose proof (stored_row_log_builds_other w self calls h Hall) as Hrow.
  split; [exact Hrow|]. rewrite !verify_build_stored_row, Hrow.
  split; [reflexivity|]. now intros ->.
Qed.

End MoreLedger.

Section MoreLedgerReads.

Context `{FernetLib} `{Base64Lib} `{JsonLib}.

(** ** Bounds of the listing *)

Lemma filter_length_bound {A} (p : A -> bool) (l : list A) :
  (List.length (filter p l) <= List.length l)%nat.
Proof. induction l as [|x l IH]; simpl; [lia|]. destruct (p x); simpl; lia. Qed.

Lemma list_builds_length w self limit :
  List.length (list_builds w self limit)
  = List.length (filter (listed self) (window w limit)).
Proof.
  pose proof (f_equal (@List.length _) (list_builds_window w self limit)) as Hlen.
  now rewrite !length_map in Hlen.
Qed.

(** X4.  [list_builds] with a limit that is not negative returns at most
    [limit] entries, and never more than there are rows: with limit 0 it
    returns nothing. *)
Theorem list_builds_bounded :
  forall w self limit,
    0 <= limit ->
    Z.of_nat (List.length (list_builds w self limit))
    <= Z.min limit (Z.of_nat (List.length (table_rows w))).
Proof.
  intros w self limit Hlimit. rewrite list_builds_length.
  pose proof (filter_length_bound (listed self) (window w limit)) as Hf.
  destruct (Sqlite.int64 limit) eqn:Hint.
  - pose proof (window_length w limit Hint Hlimit) as Hw. lia.
  - rewrite (window_unbound _ _ Hint) in *. simpl in *. lia.
Qed.

(** ** What was logged is read back *)

Section WithLaws.

Context `{!LibraryLaws}.

Lemma logged_row_decrypts w self env a w' build_id :
  log_build w self env a = (w', Some build_id) ->
  exists fp r,
    fingerprint env = Some fp /\
    stored_row w' (arg_build_hash a) = Some r /\
    In r (table_rows w') /\
    Sqlite.build_hash r = arg_build_hash a /\
    Sqlite.user_fingerprint r = fp /\
    Sqlite.timestamp_utc r = utcnow_iso env /\
    decrypt_row self (Sqlite.encrypted_data r) = Some (build_data env a).
Proof.
  intros Hlog.
  destruct (stored_row_after_log_build _ _ _ _ _ _ Hlog)
    as (f & fp & r & Hf & Hfp & Hrow & Hh & Hdata & Hrfp & _ & Hts).
  exists fp, r. repeat split; try assumption.
  - unfold stored_row, table_rows in *. destruct (database w'); [|discriminate].
    now apply SqliteFacts.select_by_hash_Some in Hrow.
  - rewrite Hdata. now apply decrypt_row_of_log_build.
Qed.


Lemma logged_row_token_entry self env a r t :
  decrypt_row self (Sqlite.encrypted_data r) = Some (build_data env a) ->
  (token_entry self t r <> None <-> arg_recipient_token a = Some t).
Proof.
  intros Hdec. unfold token_entry. rewrite Hdec. cbn.
  destruct (arg_recipient_token a) as [s|]; cbn.
  - destruct (String.eqb_spec s t) as [->|Hne].
    + split; [reflexivity|discriminate].
    + split; [congruence|]. intros [= Heq]. congruence.
  - split; [congruence|discriminate].
Qed.

(** X6.  The row of a logged build answers to its own recipient token and to
    no other: a build logged without a token is found under no token. *)
Theorem logged_row_answers_to_its_token :
  forall w self env a w' build_id r t,
    log_build w self env a = (w', Some build_id) ->
    stored_row w' (arg_build_hash a) = Some r ->
    (token_entry self t r <> None <-> arg_recipient_token a = Some t).
Proof.
  intros w self env a w' build_id r t Hlog Hrow.
  destruct (logged_row_decrypts _ _ _ _ _ _ Hlog)
    as (fp & r' & _ & Hrow' & _ & _ & _ & _ & Hdec).
  rewrite Hrow in Hrow'. injection Hrow' as <-.
  exact (logged_row_token_entry self env a r t Hdec).
Qed.



End WithLaws.

End MoreLedgerReads.

(** * Statistics, the evidence bundle, reopening *)

Section Statistics.

Context `{FernetLib} `{Base64Lib} `{JsonLib}.

(** X8.  [get_user_builds_stats] never reports more builds for the user than
    there are rows; with a table and a fingerprint at hand the total is
    the number of rows, and [None] as fingerprint counts no row; when the
    fingerprint call raises or the table is missing the answer is the
    fixed dict of zeros with the fingerprint ['unknown']. *)
Theorem stats_within_total :
  forall w current,
    0 <= user_builds (get_user_builds_stats w current)
      <= total_builds (get_user_builds_stats w current) /\
    (current = FingerprintRaises \/ database w = None ->
     get_user_builds_stats w current = stats_unavailable) /\
    (forall fp,
        current = FingerprintIs fp -> database w <> None ->
        total_builds (get_user_builds_stats w current)
        = Z.of_nat (List.length (table_rows w)) /\
        stats_fingerprint (get_user_builds_stats w current) = fp /\
        (fp = None -> user_builds (get_user_builds_stats w current) = 0)).
Proof.
  intros w current. unfold get_user_builds_stats, table_rows.
  destruct current as [|fp].
  - simpl. split; [lia|]. split; [reflexivity|]. intros ? [=].
  - destruct (database w) as [t|].
    + cbn [user_builds total_builds stats_fingerprint]. split.
      * unfold count_user_builds. destruct fp as [s|]; [|lia].
        pose proof (filter_length_bound
          (fun r => String.eqb (Sqlite.user_fingerprint r) s) (Sqlite.rows t)). lia.
      * split; [intros [?|?]; discriminate|].
        intros fp' [= <-] _. split; [reflexivity|]. split; [reflexivity|].
        now intros ->.
    + simpl. split; [lia|]. split; [reflexivity|]. intros fp' _ Hdb. now contradiction Hdb.
Qed.

Lemma filter_absent_hash h (rs : list Sqlite.row) :
  ~ In h (map Sqlite.build_hash rs) ->
  filter (fun r => negb (String.eqb (Sqlite.build_hash r) h)) rs = rs.
Proof.
  induction rs as [|x rs IH]; simpl; [reflexivity|]. intros Hnot.
  destruct (String.eqb_spec (Sqlite.build_hash x) h) as [Heq|Hne]; simpl.
  - exfalso. apply Hnot. now left.
  - rewrite IH; [reflexivity|]. intros Hin. apply Hnot. now right.
Qed.

(** Counting with a predicate before and after the row of a hash is taken
    out of a table that meets the UNIQUE constraint. *)
Lemma count_without_hash (p : Sqlite.row -> bool) h (rs : list Sqlite.row) :
  NoDup (map Sqlite.build_hash rs) ->
  List.length (filter p rs)
  = (List.length
       (filter p (filter (fun r => negb (String.eqb (Sqlite.build_hash r) h)) rs))
     + match find (fun r => String.eqb (Sqlite.build_hash r) h) rs with
       | Some old => if p old then 1 else 0
       | None => 0
       end)%nat.
Proof.
  induction rs as [|x rs IH]; simpl; [reflexivity|]. intros Hnd.
  inversion Hnd as [|? ? Hnot Hnd']; subst.
  destruct (String.eqb_spec (Sqlite.build_hash x) h) as [Heq|Hne]; simpl.
  - subst h. rewrite (filter_absent_hash _ _ Hnot).
    destruct (p x); simpl; lia.
  - specialize (IH Hnd'). destruct (p x); simpl; lia.
Qed.

(** X9.  A successful [log_build] adds one to [total_builds] when the hash was
    not stored and leaves it as it was when the hash was stored; the
    count of a fingerprint gains the new row if the logging user has that
    fingerprint and loses the replaced row if that row had it, so a build
    logged again by another user moves from one user's count to the
    other's. *)
Theorem stats_after_log_build :
  forall w self env a w' build_id fp q,
    world_unique w ->
    log_build w self env a = (w', Some build_id) ->
    fingerprint env = Some fp ->
    let before := get_user_builds_stats w (FingerprintIs (Some q)) in
    let after := get_user_builds_stats w' (FingerprintIs (Some q)) in
    total_builds after
    = total_builds before
      + (match stored_row w (arg_build_hash a) with Some _ => 0 | None => 1 end) /\
    user_builds after
    = user_builds before
      - (match stored_row w (arg_build_hash a) with
         | Some old => if String.eqb (Sqlite.user_fingerprint old) q then 1 else 0
         | None => 0
         end)
      + (if String.eqb fp q then 1 else 0).
Proof.
  intros w self env a w' build_id fp q Hu Hlog Hfp.
  destruct (log_build_inv _ _ _ _ _ _ Hlog) as (f & fp' & t & _ & Hfp' & Ht & _ & Hw').
  cbv zeta in Hw'. rewrite Hfp in Hfp'. injection Hfp' as <-.
  unfold world_unique, table_rows in Hu. rewrite Ht in Hu.
  unfold get_user_builds_stats, stored_row. rewrite Ht. subst w'.
  cbn [database user_builds total_builds Sqlite.rows count_user_builds].
  unfold Sqlite.select_by_hash.
  rewrite !filter_app, !length_app. cbn [filter List.length Sqlite.user_fingerprint].
  pose proof (count_without_hash (fun _ => true) (arg_build_hash a) _ Hu) as Htot.
  pose proof (count_without_hash
                (fun r => String.eqb (Sqlite.user_fingerprint r) q)
                (arg_build_hash a) _ Hu) as Hq.
  assert (Htrue : forall l : list Sqlite.row, filter (fun _ => true) l = l).
  { induction l as [|x l IH]; simpl; [reflexivity|now rewrite IH]. }
  rewrite !Htrue in Htot.
  destruct (find _ (Sqlite.rows t)) as [old|].
  - split; [cbn [List.length]; lia|].
    destruct (String.eqb fp q), (String.eqb (Sqlite.user_fingerprint old) q);
      cbn [List.length]; lia.
  - split; [cbn [List.length]; lia|].
    destruct (String.eqb fp q); cbn [List.length]; lia.
Qed.

(** ** Reopening *)

Lemma log_build_without_fernet w self env a :
  self_fernet self = None -> log_build w self env a = (w, None).
Proof. unfold log_build. now intros ->. Qed.

Lemma log_builds_without_fernet w self calls :
  self_fernet self = None -> log_builds w self calls = w.
Proof.
  intros Hnone. revert w. induction calls as [|[env a] calls IH]; intros w; simpl;
    [reflexivity|].
  now rewrite (log_build_without_fernet _ _ _ _ Hnone), IH.
Qed.

Lemma log_builds_key_file w self calls :
  key_file (log_builds w self calls) = key_file w.
Proof.
  revert w. induction calls as [|[env a] calls IH]; intros w; simpl; [reflexivity|].
  now rewrite IH, log_build_key_file.
Qed.

(** X10.  Constructing a [BuildLogger] again on the files left by an earlier
    one, after any number of [log_build] calls, changes neither file and
    gives a logger with the same [Fernet]: the key is read back, never
    generated again, so every row logged before still decrypts. *)
Theorem reopening_changes_nothing :
  forall w0 e1 calls e2,
    let first := BuildLogger w0 e1 in
    let w2 := log_builds (fst first) (snd first) calls in
    BuildLogger w2 e2 = (w2, snd first).
Proof.
  intros w0 e1 calls e2. cbv zeta. unfold BuildLogger, _init_encrypted_database.
  set (k := match key_file w0 with None => Fernet_generate_key e1 | Some k => k end).
  destruct (Fernet_new k) as [f|] eqn:Hk; cbn [fst snd].
  - set (w1 := {| key_file := Some k; database := _ |}).
    set (self := {| self_fernet := Some f |}).
    pose proof (log_builds_key_file w1 self calls) as Hkey.
    destruct (log_builds_sequence_grows w1 self calls _ eq_refl) as [t2 [Ht2 _]].
    destruct (log_builds w1 self calls) as [key2 db2]. simpl in Hkey, Ht2.
    subst key2 db2. cbn [key_file database]. now rewrite Hk.
  - rewrite log_builds_without_fernet by reflexivity.
    cbn [key_file database]. now rewrite Hk.
Qed.

End Statistics.

(** * One row for each build hash *)

Section Replacement.

Context `{FernetLib} `{Base64Lib} `{JsonLib}.



End Replacement.

Section Evidence.

Context `{FernetLib} `{Base64Lib} `{JsonLib} `{JsonDumpLib}.

Lemma export_entries_loop self (rows : list Sqlite.row) (entries : list Json.value) :
  fold_left
    (fun entries r =>
       match export_entry self r with
       | Some build_data => entries ++ [build_data]
       | None => entries
       end)
    rows entries
  = entries ++ flat_map (fun r => match export_entry self r with
                                  | Some build_data => [build_data]
                                  | None => []
                                  end) rows.
Proof.
  revert entries. induction rows as [|r rs IH]; intros entries; simpl.
  - now rewrite app_nil_r.
  - rewrite IH. destruct (export_entry self r); [|reflexivity].
    now rewrite <- app_assoc.
Qed.

Lemma export_entries_rows self (rows : list Sqlite.row) :
  StronglySorted Sqlite.newer_or_equal rows ->
  exists kept,
    map Some (export_entries self rows) = map (export_entry self) kept /\
    StronglySorted Sqlite.newer_or_equal kept /\
    (forall r, In r kept <-> In r rows /\ export_entry self r <> None).
Proof.
  unfold export_entries. rewrite export_entries_loop. simpl.
  induction 1 as [|x rows Hs IH Hx]; simpl.
  - exists []. split; [reflexivity|]. split; [constructor|]. simpl. tauto.
  - destruct IH as (kept & Hmap & Hsorted & Hin).
    destruct (export_entry self x) as [e|] eqn:E; simpl.
    + exists (x :: kept). simpl. rewrite E, Hmap. split; [reflexivity|]. split.
      * constructor; [exact Hsorted|]. rewrite Forall_forall in *.
        intros y Hy. apply Hx. now apply Hin.
      * intros r. rewrite Hin. split.
        -- intros [<-|[? ?]]; [split; [now left|congruence]|tauto].
        -- intros [[<-|?] ?]; tauto.
    + exists kept. split; [exact Hmap|]. split; [exact Hsorted|].
      intros r. rewrite Hin. split; [tauto|].
      intros [[<-|?] ?]; [congruence|tauto].
Qed.

Lemma lookup_set_item_eq k v items :
  Json.lookup k (Py.set_item k v items) = Some v.
Proof.
  induction items as [|[k' v'] items IH]; simpl.
  - now rewrite String.eqb_refl.
  - destruct (String.eqb k k') eqn:E; simpl; [now rewrite String.eqb_refl|].
    now rewrite E.
Qed.

Lemma lookup_set_item_ne k k' v items :
  k' <> k -> Json.lookup k' (Py.set_item k v items) = Json.lookup k' items.
Proof.
  intros Hne. induction items as [|[k0 v0] items IH]; simpl.
  - destruct (String.eqb_spec k' k); [congruence|reflexivity].
  - destruct (String.eqb_spec k k0) as [->|Hk]; simpl.
    + destruct (String.eqb_spec k' k0); [congruence|reflexivity].
    + now rewrite IH.
Qed.

(** An exported entry is the decrypted dict of its row with [build_hash]
    and [user_fingerprint] taken from the row's columns, whatever the
    dict said; every other key is as decrypted. *)
Lemma export_entry_Some self r e :
  export_entry self r = Some e ->
  exists decrypted items,
    decrypt_row self (Sqlite.encrypted_data r) = Some (Json.Dict decrypted) /\
    e = Json.Dict items /\
    Json.lookup "build_hash" items = Some (Json.Str (Sqlite.build_hash r)) /\
    Json.lookup "user_fingerprint" items = Some (Json.Str (Sqlite.user_fingerprint r)) /\
    forall k, k <> "build_hash" -> k <> "user_fingerprint" ->
              Json.lookup k items = Json.lookup k decrypted.
Proof.
  unfold export_entry. destruct (decrypt_row self _) as [bd|]; [|discriminate].
  destruct bd as [| | | | | |decrypted]; try discriminate. cbn [Py.setitem].
  intros [= <-]. exists decrypted. eexists. split; [reflexivity|].
  split; [reflexivity|]. split; [|split].
  - rewrite lookup_set_item_ne by discriminate. apply lookup_set_item_eq.
  - apply lookup_set_item_eq.
  - intros k Hk1 Hk2. now rewrite !lookup_set_item_ne.
Qed.

Lemma export_entry_None_iff self r :
  export_entry self r = None
  <-> forall items, decrypt_row self (Sqlite.encrypted_data r) <> Some (Json.Dict items).
Proof.
  unfold export_entry. destruct (decrypt_row self _) as [bd|].
  - destruct bd; cbn [Py.setitem]; split; try discriminate; congruence.
  - split; [discriminate|reflexivity].
Qed.

(** X11.  The collection [export_signed] writes holds one entry for every row
    of the table, without any limit, whose ciphertext decrypts to a dict,
    newest first; rows that do not decrypt are left out.  Each entry is
    the decrypted metadata with [build_hash] and [user_fingerprint] set
    from the columns of its row. *)
Theorem export_covers_readable_rows :
  forall w self env output_dir gpg_key b,
    export_signed w self env output_dir gpg_key = Some b ->
    exists entries kept,
      builds_json b = json_dump_indent (Json.List entries) /\
      map Some entries = map (export_entry self) kept /\
      StronglySorted Sqlite.newer_or_equal kept /\
      (forall r, In r kept
                 <-> In r (table_rows w)
                     /\ exists items, decrypt_row self (Sqlite.encrypted_data r)
                                      = Some (Json.Dict items)) /\
      (forall r e,
          In r kept -> export_entry self r = Some e ->
          exists decrypted items,
            decrypt_row self (Sqlite.encrypted_data r) = Some (Json.Dict decrypted) /\
            e = Json.Dict items /\
            Json.lookup "build_hash" items = Some (Json.Str (Sqlite.build_hash r)) /\
            Json.lookup "user_fingerprint" items
            = Some (Json.Str (Sqlite.user_fingerprint r)) /\
            forall k, k <> "build_hash" -> k <> "user_fingerprint" ->
                      Json.lookup k items = Json.lookup k decrypted).
Proof.
  intros w self env output_dir gpg_key b. unfold export_signed, table_rows.
  destruct (outdir_ready env); [|discriminate]. cbn [negb].
  destruct (database w) as [t|]; [|discriminate]. intros [= <-]. cbn [builds_json].
  destruct (export_entries_rows self _ (SqliteFacts.order_by_sorted (Sqlite.rows t)))
    as (kept & Hmap & Hsorted & Hin).
  exists (export_entries self (Sqlite.order_by_timestamp_desc (Sqlite.rows t))), kept.
  split; [reflexivity|]. split; [exact Hmap|]. split; [exact Hsorted|]. split.
  - intros r. rewrite Hin, SqliteFacts.order_by_In. split.
    + intros [Hr Hsome]. split; [exact Hr|].
      destruct (export_entry self r) as [e|] eqn:E; [|congruence].
      destruct (export_entry_Some _ _ _ E) as (decrypted & _ & Hdec & _). eauto.
    + intros [Hr [items Hdec]]. split; [exact Hr|].
      intros Hnone. exact (proj1 (export_entry_None_iff self r) Hnone items Hdec).
  - intros r e _ He. now apply export_entry_Some.
Qed.


End Evidence.

(** * Paths *)

Module PathlibFacts.
Import Pathlib.

Lemma split_slash_no_slash s :
  no_slash s = true -> split_slash s = (s, None).
Proof.
  induction s as [|c s IH]; simpl; [reflexivity|]. unfold no_slash. simpl.
  intros Hs. apply andb_true_iff in Hs. destruct Hs as [Hc Hs].
  apply negb_true_iff in Hc. rewrite Hc. now rewrite (IH Hs).
Qed.

Lemma split_slash_app a b :
  no_slash a = true -> split_slash (a +++ String "/" b) = (a, Some b).
Proof.
  induction a as [|c a IH]; simpl; [reflexivity|]. unfold no_slash. simpl.
  intros Hs. apply andb_true_iff in Hs. destruct Hs as [Hc Hs].
  apply negb_true_iff in Hc. rewrite Hc. now rewrite (IH Hs).
Qed.

Lemma split_slash_fst_no_slash s : no_slash (fst (split_slash s)) = true.
Proof.
  induction s as [|c s IH]; simpl; [reflexivity|].
  destruct (Ascii.eqb c "/") eqn:E; [reflexivity|].
  destruct (split_slash s) as [a r]. unfold no_slash in *. simpl in *.
  now rewrite E, IH.
Qed.

Lemma split_no_slash fuel s : forallb no_slash (split fuel s) = true.
Proof.
  revert s. induction fuel as [|fuel IH]; intros s; simpl; [reflexivity|].
  pose proof (split_slash_fst_no_slash s) as Hfst.
  destruct (split_slash s) as [a [r|]]; simpl in *; rewrite Hfst; simpl; auto.
Qed.

Lemma valid_name_no_slash n : valid_name n = true -> no_slash n = true.
Proof. unfold valid_name. intros Hv. now apply andb_true_iff in Hv. Qed.

Lemma join_cons x y (ps : list string) :
  join "/" (x :: y :: ps) = x +++ String "/" (join "/" (y :: ps)).
Proof. reflexivity. Qed.

Lemma split_join (ps : list string) fuel :
  ps <> [] ->
  forallb no_slash ps = true ->
  (List.length ps <= fuel)%nat ->
  split fuel (join "/" ps) = ps.
Proof.
  revert fuel. induction ps as [|x ps IH]; intros fuel Hne Hall Hfuel;
    [congruence|].
  simpl in Hall. apply andb_true_iff in Hall. destruct Hall as [Hx Hall].
  destruct fuel as [|fuel]; [simpl in Hfuel; lia|].
  destruct ps as [|y ps].
  - simpl. now rewrite (split_slash_no_slash _ Hx).
  - rewrite join_cons. cbn [split]. rewrite (split_slash_app _ _ Hx).
    rewrite IH; [reflexivity|discriminate|exact Hall|simpl in *; lia].
Qed.

Lemma join_length (ps : list string) :
  (List.length ps <= S (String.length (join "/" ps)))%nat.
Proof.
  induction ps as [|x ps IH]; [simpl; lia|].
  destruct ps as [|y ps]; [simpl; lia|].
  rewrite join_cons, DigestFacts.length_append. simpl in *. lia.
Qed.

Lemma filter_valid (ps : list string) :
  forallb valid_name ps = true ->
  filter (fun x => negb (String.eqb x "") && negb (String.eqb x ".")) ps = ps.
Proof.
  induction ps as [|x ps IH]; simpl; [reflexivity|]. intros Hall.
  apply andb_true_iff in Hall. destruct Hall as [Hx Hall].
  unfold valid_name in Hx. apply andb_true_iff in Hx. destruct Hx as [Hx _].
  now rewrite Hx, IH.
Qed.

Lemma forallb_weaken {A} (p q : A -> bool) (l : list A) :
  (forall x, p x = true -> q x = true) -> forallb p l = true -> forallb q l = true.
Proof.
  intros Hpq. induction l as [|x l IH]; simpl; [reflexivity|]. intros Hall.
  apply andb_true_iff in Hall. destruct Hall as [Hx Hall].
  now rewrite (Hpq _ Hx), IH.
Qed.

Lemma parts_of_join (ps : list string) :
  ps <> [] -> forallb valid_name ps = true ->
  filter (fun x => negb (String.eqb x "") && negb (String.eqb x "."))
    (split (S (String.length (join "/" ps))) (join "/" ps)) = ps.
Proof.
  intros Hne Hall. rewrite split_join.
  - now apply filter_valid.
  - exact Hne.
  - exact (forallb_weaken _ _ _ valid_name_no_slash Hall).
  - apply join_length.
Qed.

Lemma join_starts (x : string) (ps : list string) :
  valid_name x = true ->
  exists c rest, join "/" (x :: ps) = String c rest /\ Ascii.eqb c "/" = false.
Proof.
  intros Hx. unfold valid_name in Hx.
  apply andb_true_iff in Hx. destruct Hx as [Hx Hns].
  apply andb_true_iff in Hx. destruct Hx as [Hx _].
  destruct x as [|c x]; [discriminate|].
  simpl in Hns. apply andb_true_iff in Hns. destruct Hns as [Hc _].
  apply negb_true_iff in Hc.
  destruct ps as [|y ps]; [exists c, x; now split|].
  rewrite join_cons. simpl. eauto.
Qed.

Lemma parse_relative (x : string) (ps : list string) :
  forallb valid_name (x :: ps) = true ->
  parse (join "/" (x :: ps)) = {| root := ""; parts := x :: ps |}.
Proof.
  intros Hall. unfold parse.
  assert (Hx : valid_name x = true) by (simpl in Hall; now apply andb_true_iff in Hall).
  destruct (join_starts x ps Hx) as (c & rest & Hj & Hc).
  assert (Hroot : splitroot (join "/" (x :: ps)) = ("", join "/" (x :: ps))).
  { rewrite Hj. unfold splitroot. now rewrite Hc. }
  rewrite Hroot. now rewrite parts_of_join.
Qed.

Lemma lstrip_join (ps : list string) :
  forallb valid_name ps = true -> lstrip_slash (join "/" ps) = join "/" ps.
Proof.
  destruct ps as [|x ps]; [reflexivity|]. intros Hall.
  assert (Hx : valid_name x = true) by (simpl in Hall; now apply andb_true_iff in Hall).
  destruct (join_starts x ps Hx) as (c & rest & -> & Hc). simpl. now rewrite Hc.
Qed.

Lemma parts_of_rest (ps : list string) :
  forallb valid_name ps = true ->
  filter (fun x => negb (String.eqb x "") && negb (String.eqb x "."))
    (split (S (String.length (join "/" ps))) (join "/" ps)) = ps.
Proof.
  destruct ps as [|x ps]; [reflexivity|]. intros Hall.
  now apply parts_of_join.
Qed.

(** [Path(str(p))] is [p] again. *)
Lemma parse_to_str p : normal p = true -> parse (to_str p) = p.
Proof.
  destruct p as [r ps]. unfold normal. cbn [root parts]. intros Hn.
  apply andb_true_iff in Hn. destruct Hn as [Hr Hall].
  apply orb_true_iff in Hr. destruct Hr as [Hr|Hr];
    [apply orb_true_iff in Hr; destruct Hr as [Hr|Hr]|];
    apply String.eqb_eq in Hr; subst r; unfold to_str; cbn [root parts].
  - destruct ps as [|x ps]; [reflexivity|]. now apply parse_relative.
  - unfold parse.
    assert (Hroot : splitroot ("/" +++ join "/" ps) = ("/", join "/" ps)).
    { unfold splitroot. cbn [String.append]. cbn [Ascii.eqb Bool.eqb lstrip_slash].
      rewrite (lstrip_join _ Hall). cbn [String.length].
      replace (S (String.length (join "/" ps)) - String.length (join "/" ps))%nat
        with 1%nat by lia. reflexivity. }
    replace (match ps with [] => "/" +++ join "/" ps | _ => "/" +++ join "/" ps end)
      with ("/" +++ join "/" ps) by now destruct ps.
    rewrite Hroot. now rewrite parts_of_rest.
  - unfold parse.
    assert (Hroot : splitroot ("//" +++ join "/" ps) = ("//", join "/" ps)).
    { unfold splitroot. cbn [String.append]. cbn [Ascii.eqb Bool.eqb lstrip_slash].
      rewrite (lstrip_join _ Hall). cbn [String.length].
      replace (S (S (String.length (join "/" ps))) - String.length (join "/" ps))%nat
        with 2%nat by lia. reflexivity. }
    replace (match ps with [] => "//" +++ join "/" ps | _ => "//" +++ join "/" ps end)
      with ("//" +++ join "/" ps) by now destruct ps.
    rewrite Hroot. now rewrite parts_of_rest.
Qed.

Lemma splitroot_root s :
  let r := fst (splitroot s) in r = "" \/ r = "/" \/ r = "//".
Proof.
  unfold splitroot. destruct s as [|c s]; [now left|].
  destruct (Ascii.eqb c "/"); [|now left].
  destruct (Nat.eqb _ 2); simpl; auto.
Qed.

(** [Path(s)] is in normal form. *)
Lemma parse_normal s : normal (parse s) = true.
Proof.
  unfold parse, normal. pose proof (splitroot_root s) as Hr.
  destruct (splitroot s) as [r rest]. cbn [root parts fst] in *.
  apply andb_true_iff. split.
  - destruct Hr as [-> | [-> | ->]]; reflexivity.
  - pose proof (split_no_slash (S (String.length rest)) rest) as Hns.
    induction (split (S (String.length rest)) rest) as [|x l IH]; [reflexivity|].
    simpl in Hns. apply andb_true_iff in Hns. destruct Hns as [Hx Hns].
    simpl. destruct (negb (String.eqb x "") && negb (String.eqb x ".")) eqn:E;
      [|now apply IH].
    simpl. rewrite (IH Hns), andb_true_r. unfold valid_name.
    now rewrite E.
Qed.

Lemma name_snoc (ps : list string) n : last (ps ++ [n]) "" = n.
Proof. apply last_last. Qed.

Lemma with_name_Some p n q :
  with_name p n = Some q ->
  name p <> "" /\ valid_name n = true /\
  root q = root p /\ parts q = removelast (parts p) ++ [n] /\ name q = n.
Proof.
  unfold with_name. destruct (String.eqb_spec (name p) ""); [discriminate|].
  destruct (valid_name n) eqn:Hv; [|discriminate].
  intros [= <-]. cbn [root parts]. repeat split; try assumption.
  unfold name. cbn [parts]. apply last_last.
Qed.

Lemma forallb_app {A} (p : A -> bool) (l1 l2 : list A) :
  forallb p (l1 ++ l2) = forallb p l1 && forallb p l2.
Proof. induction l1 as [|x l1 IH]; simpl; [reflexivity|]. now rewrite IH, andb_assoc. Qed.

Lemma forallb_removelast {A} (p : A -> bool) (l : list A) :
  forallb p l = true -> forallb p (removelast l) = true.
Proof.
  induction l as [|x l IH]; [reflexivity|]. simpl. intros Hall.
  apply andb_true_iff in Hall. destruct Hall as [Hx Hall].
  destruct l; [reflexivity|]. simpl. rewrite Hx. now apply IH.
Qed.

Lemma with_name_normal p n q :
  normal p = true -> with_name p n = Some q -> normal q = true.
Proof.
  intros Hn Hq. destruct (with_name_Some _ _ _ Hq) as (_ & Hv & Hr & Hp & _).
  unfold normal in *. rewrite Hr, Hp, forallb_app.
  apply andb_true_iff in Hn. destruct Hn as [Hroot Hall].
  rewrite Hroot, (forallb_removelast _ _ Hall). simpl. now rewrite Hv.
Qed.

Lemma child_normal p n :
  normal p = true -> valid_name n = true -> normal (child p n) = true.
Proof.
  unfold normal, child. cbn [root parts]. intros Hn Hv.
  apply andb_true_iff in Hn. destruct Hn as [Hroot Hall].
  rewrite Hroot, forallb_app, Hall. simpl. now rewrite Hv.
Qed.

Lemma name_child p n : name (child p n) = n.
Proof. unfold name, child. cbn [parts]. apply last_last. Qed.

(** The stem is a prefix of the name: it has no slash, and it is empty
    only if the name is. *)
Lemma rsplit_dot_app n a b :
  rsplit_dot n = Some (a, b) -> n = a +++ String "." b.
Proof.
  revert a b. induction n as [|c n IH]; simpl; [discriminate|]. intros a b.
  destruct (rsplit_dot n) as [[a' b']|].
  - intros [= <- <-]. simpl. now rewrite (IH a' b' eq_refl).
  - destruct (Ascii.eqb_spec c "."); [|discriminate].
    intros [= <- <-]. now subst c.
Qed.

Lemma no_slash_app a b : no_slash (a +++ b) = no_slash a && no_slash b.
Proof. apply DigestFacts.all_chars_append. Qed.

Lemma stem_of_name_no_slash n :
  no_slash n = true -> no_slash (stem_of_name n) = true.
Proof.
  intros Hn. unfold stem_of_name.
  destruct (rsplit_dot n) as [[a b]|] eqn:E; [|exact Hn].
  destruct a as [|c a]; [exact Hn|]. destruct b as [|d b]; [exact Hn|].
  apply rsplit_dot_app in E. rewrite E, no_slash_app in Hn.
  now apply andb_true_iff in Hn.
Qed.

Lemma name_no_slash p : normal p = true -> no_slash (name p) = true.
Proof.
  unfold normal, name. intros Hn. apply andb_true_iff in Hn.
  destruct Hn as [_ Hall].
  induction (parts p) as [|x l IH]; [reflexivity|].
  simpl in Hall. apply andb_true_iff in Hall. destruct Hall as [Hx Hall].
  destruct l as [|y l]; [now apply valid_name_no_slash|].
  now apply IH.
Qed.

Lemma stem_no_slash p : normal p = true -> no_slash (stem p) = true.
Proof. intros Hn. apply stem_of_name_no_slash, name_no_slash, Hn. Qed.

(** Decimal numerals have no slash. *)
Lemma uint_no_slash d :
  no_slash (DecimalString.NilEmpty.string_of_uint d) = true.
Proof. induction d; simpl; try reflexivity; exact IHd. Qed.

Lemma str_of_int_no_slash n : no_slash (Py.str_of_int n) = true.
Proof.
  unfold Py.str_of_int, DecimalString.NilZero.string_of_int,
    DecimalString.NilZero.string_of_uint.
  destruct (Z.to_int n) as [d|d]; destruct d; try reflexivity;
    try (exact (uint_no_slash _)); simpl; apply uint_no_slash.
Qed.

(** A name with a non-empty suffix that starts with a dot and has no
    slash is a valid name. *)
Lemma suffixed_name_valid a suffix :
  no_slash a = true -> no_slash suffix = true ->
  (2 <= String.length suffix)%nat ->
  valid_name (a +++ suffix) = true.
Proof.
  intros Ha Hs Hlen. unfold valid_name.
  change (PyStr.all_chars (fun c => negb (Ascii.eqb c "/")) (a +++ suffix))
    with (no_slash (a +++ suffix)).
  rewrite no_slash_app, Ha, Hs.
  assert (Hl : (2 <= String.length (a +++ suffix))%nat)
    by (rewrite DigestFacts.length_append; lia).
  destruct (a +++ suffix) as [|c [|d s]]; simpl in Hl; try lia.
  cbn. now destruct (Ascii.eqb c ".").
Qed.

End PathlibFacts.

(** * Style files, rasterization and the build *)

Section Rasterization.
Import Pathlib PathlibFacts.

Lemma rsplit_dot_none b :
  PyStr.all_chars (fun c => negb (Ascii.eqb c ".")) b = true -> rsplit_dot b = None.
Proof.
  induction b as [|c b IH]; simpl; [reflexivity|]. intros Hb.
  apply andb_true_iff in Hb. destruct Hb as [Hc Hb].
  apply negb_true_iff in Hc. now rewrite (IH Hb), Hc.
Qed.

Lemma rsplit_dot_last a b :
  PyStr.all_chars (fun c => negb (Ascii.eqb c ".")) b = true ->
  rsplit_dot (a +++ String "." b) = Some (a, b).
Proof.
  intros Hb. induction a as [|c a IH]; simpl.
  - now rewrite (rsplit_dot_none _ Hb).
  - now rewrite IH.
Qed.

Lemma stem_of_pdf_name j : j <> "" -> stem_of_name (j +++ ".pdf") = j.
Proof.
  intros Hj. unfold stem_of_name.
  change (j +++ ".pdf") with (j +++ String "." "pdf").
  rewrite rsplit_dot_last by reflexivity.
  destruct j; [congruence|reflexivity].
Qed.

Lemma stem_of_name_nonempty n : n <> "" -> stem_of_name n <> "".
Proof.
  intros Hn. unfold stem_of_name.
  destruct (rsplit_dot n) as [[[|c a] [|d b]]|]; try assumption. discriminate.
Qed.

Lemma raster_suffix_ok dpi :
  no_slash (".r" +++ Py.str_of_int dpi +++ ".pdf") = true /\
  (2 <= String.length (".r" +++ Py.str_of_int dpi +++ ".pdf"))%nat.
Proof.
  split.
  - rewrite !no_slash_app, str_of_int_no_slash. reflexivity.
  - simpl. lia.
Qed.

Lemma raster_name_valid p dpi :
  normal p = true ->
  valid_name (stem p +++ ".r" +++ Py.str_of_int dpi +++ ".pdf") = true.
Proof.
  intros Hn. destruct (raster_suffix_ok dpi) as [Hs Hl].
  apply suffixed_name_valid; [now apply stem_no_slash|exact Hs|exact Hl].
Qed.

Lemma with_name_child d n n' :
  n <> "" -> valid_name n' = true -> with_name (child d n) n' = Some (child d n').
Proof.
  intros Hn Hv. unfold with_name. rewrite name_child.
  destruct (String.eqb_spec n ""); [contradiction|]. rewrite Hv.
  unfold child. cbn [root parts]. now rewrite removelast_last.
Qed.

(** X14.  Whatever Ghostscript does, the string [_rasterize_pdf] returns
    denotes the source file itself or a file beside it: as a path it is
    the path of the input, or it lies in the same directory, is named
    [<stem>.r<dpi>.pdf], and that file exists and is not empty. *)
Theorem rasterize_pdf_source_or_sibling :
  forall env pdf_path dpi,
    let src := parse pdf_path in
    let r := parse (_rasterize_pdf env pdf_path dpi) in
    r = src \/
    (gs_on_path env = true /\
     root r = root src /\
     removelast (parts r) = removelast (parts src) /\
     name r = stem src +++ ".r" +++ Py.str_of_int dpi +++ ".pdf" /\
     run_gs env (gs_command dpi r src) = Some 0 /\
     exists size, size_after_gs env (to_str r) = Some size /\ 0 < size).
Proof.
  intros env pdf_path dpi src r. subst r. unfold _rasterize_pdf. fold src.
  assert (Hsrc : parse (to_str src) = src)
    by (apply parse_to_str, parse_normal).
  destruct (gs_on_path env); cbn [negb]; [|now left].
  destruct (with_name src _) as [out|] eqn:Hout; [|now left].
  destruct (run_gs env _) as [returncode|] eqn:Hrun; [|now left].
  destruct (size_after_gs env _) as [size|] eqn:Hsize; [|now left].
  destruct (returncode =? 0) eqn:Hcode; cbn [andb]; [|now left].
  destruct (0 <? size) eqn:Hpos; [|now left].
  right. apply Z.eqb_eq in Hcode. subst returncode. apply Z.ltb_lt in Hpos.
  assert (Hnorm : parse (to_str out) = out)
    by (apply parse_to_str; exact (with_name_normal _ _ _ (parse_normal _) Hout)).
  rewrite Hnorm.
  destruct (with_name_Some _ _ _ Hout) as (_ & _ & Hroot & Hparts & Hname).
  repeat split; try assumption.
  - rewrite Hparts. now rewrite removelast_last.
  - exists size. now split.
Qed.

End Rasterization.

Section StyleFiles.

Context `{FernetLib} `{Base64Lib} `{JsonLib}.

Lemma style_content_long : 10 <= Z.of_nat (String.length style_content).
Proof. apply Z.leb_le. vm_compute. reflexivity. Qed.

Lemma ensure_style_file_cases files :
  (_ensure_style_file files = files /\
   exists text, spacial_sty files = Some text /\ 10 <= Z.of_nat (String.length text))
  \/
  (_ensure_style_file files = _create_basic_style files /\
   forall text, spacial_sty files = Some text -> Z.of_nat (String.length text) < 10).
Proof.
  unfold _ensure_style_file. destruct (spacial_sty files) as [text|] eqn:Hs.
  - destruct (Z.ltb_spec (Z.of_nat (String.length text)) 10).
    + right. split; [reflexivity|]. now intros ? [= <-].
    + left. split; [reflexivity|]. now exists text.
  - right. split; [reflexivity|]. discriminate.
Qed.

Lemma build_styles w files self env req :
  styles (build w files self env req) = files \/
  styles (build w files self env req) = _ensure_style_file files.
Proof.
  unfold build. destruct (tex_exists env); cbn [negb]; [|now left].
  destruct (build_dir_made env); cbn [negb]; [|now left].
  destruct (_run_latex_build _ _ _ _ _ _ _ _) as [wrapper [[|c p]|]];
    try (now right).
  destruct (req_protect_pdf req); now right.
Qed.

(** X13.  [_ensure_style_file], which every [build] runs, never touches
    [tnc.sty] and leaves a style file of ten bytes or more exactly as it
    is; a missing or shorter one is replaced by the embedded style.
    Afterwards the style file has at least ten bytes, so a second call
    changes nothing.  [_setup_latex_style], run by [init_project],
    always writes the embedded style over the style file, and puts the
    packaged [tnc.sty] in place only where none or an empty one is. *)
Theorem ensure_style_file_keeps_customisation :
  forall files,
    let files' := _ensure_style_file files in
    tnc_sty files' = tnc_sty files /\
    (forall text, spacial_sty files = Some text ->
                  10 <= Z.of_nat (String.length text) -> files' = files) /\
    (forall text, spacial_sty files = Some text ->
                  Z.of_nat (String.length text) < 10 ->
                  spacial_sty files' = Some style_content) /\
    (spacial_sty files = None -> spacial_sty files' = Some style_content) /\
    (exists text, spacial_sty files' = Some text /\
                  10 <= Z.of_nat (String.length text)) /\
    _ensure_style_file files' = files' /\
    (forall w self env req text,
        spacial_sty files = Some text -> 10 <= Z.of_nat (String.length text) ->
        styles (build w files self env req) = files) /\
    (forall packaged,
        spacial_sty (_setup_latex_style packaged files) = Some style_content /\
        (forall text, tnc_sty files = Some text -> text <> "" ->
                      tnc_sty (_setup_latex_style packaged files) = Some text) /\
        (packaged = None ->
         tnc_sty (_setup_latex_style packaged files) = tnc_sty files)).
Proof.
  intros files files'. subst files'.
  assert (Hkeep : forall text, spacial_sty files = Some text ->
                    10 <= Z.of_nat (String.length text) ->
                    _ensure_style_file files = files).
  { intros text Hs Hlen. unfold _ensure_style_file. rewrite Hs.
    destruct (Z.ltb_spec (Z.of_nat (String.length text)) 10); [lia|reflexivity]. }
  assert (Hlong : exists text, spacial_sty (_ensure_style_file files) = Some text /\
                    10 <= Z.of_nat (String.length text)).
  { destruct (ensure_style_file_cases files) as [[-> Hex]|[-> _]]; [exact Hex|].
    exists style_content. split; [reflexivity|apply style_content_long]. }
  split.
  { destruct (ensure_style_file_cases files) as [[-> _]|[-> _]]; reflexivity. }
  split; [exact Hkeep|].
  split.
  { intros text Hs Hlen. unfold _ensure_style_file. rewrite Hs.
    destruct (Z.ltb_spec (Z.of_nat (String.length text)) 10); [reflexivity|lia]. }
  split.
  { intros Hs. unfold _ensure_style_file. now rewrite Hs. }
  split; [exact Hlong|].
  split.
  { destruct Hlong as (text & Hs & Hlen).
    unfold _ensure_style_file at 1. rewrite Hs.
    destruct (Z.ltb_spec (Z.of_nat (String.length text)) 10); [lia|reflexivity]. }
  split.
  { intros w self env req text Hs Hlen.
    destruct (build_styles w files self env req) as [->| ->]; [reflexivity|].
    now apply (Hkeep text). }
  intros packaged. unfold _setup_latex_style, _create_basic_style. cbn [tnc_sty spacial_sty].
  split; [|split].
  - destruct packaged as [sty|]; [|reflexivity].
    destruct (tnc_sty files) as [text|]; [|reflexivity].
    destruct (Z.of_nat (String.length text) =? 0); reflexivity.
  - intros text Ht Hne. destruct packaged as [sty|]; [|exact Ht].
    rewrite Ht. destruct text as [|c text]; [congruence|]. reflexivity.
  - intros ->. reflexivity.
Qed.

End StyleFiles.

Section BuildFacts.
Import Pathlib PathlibFacts.

Context `{FernetLib} `{Base64Lib} `{JsonLib}.

Lemma normal_to_str_nonempty p :
  normal p = true -> exists c s, to_str p = String c s.
Proof.
  destruct p as [r ps]. unfold normal, to_str. cbn [root parts]. intros Hn.
  apply andb_true_iff in Hn. destruct Hn as [Hr Hall].
  apply orb_true_iff in Hr. destruct Hr as [Hr|Hr];
    [apply orb_true_iff in Hr; destruct Hr as [Hr|Hr]|];
    apply String.eqb_eq in Hr; subst r.
  - destruct ps as [|x ps]; [now exists "."%char, ""|].
    assert (Hx : valid_name x = true)
      by (simpl in Hall; now apply andb_true_iff in Hall).
    destruct (join_starts x ps Hx) as (c & rest & Hj & _).
    exists c, rest. exact Hj.
  - exists "/"%char, (join "/" ps). now destruct ps.
  - exists "/"%char, ("/" +++ join "/" ps). now destruct ps.
Qed.

Lemma pdf_name_valid p : normal p = true -> valid_name (stem p +++ ".pdf") = true.
Proof.
  intros Hn. apply suffixed_name_valid;
    [now apply stem_no_slash|reflexivity|simpl; lia].
Qed.

Lemma latex_pdf_normal req : normal (latex_pdf req) = true.
Proof.
  unfold latex_pdf. apply child_normal; [apply parse_normal|].
  apply pdf_name_valid, parse_normal.
Qed.

Lemma raster_pdf_normal req : normal (raster_pdf req) = true.
Proof.
  unfold raster_pdf. apply child_normal; [apply parse_normal|].
  apply raster_name_valid, parse_normal.
Qed.

(** What [_run_latex_build] does with the arguments [build] gives it. *)
Lemma run_latex_build_of_build env req :
  _run_latex_build (latex_env env) (parse (req_tex_file req)) (build_dir_of req)
    (_generate_build_hash (req_tex_file req) (req_classification req) (hash_now env))
    (_encode_generation_info env) (_encode_generation_time env)
    (req_classification req) (latex_options_of env req)
  = if negb (wrapper_written (latex_env env)) then (None, None)
    else match latex_exit env req with
         | None => (Some (build_wrapper env req), None)
         | Some _ =>
             if exists_after_latex (latex_env env) (to_str (latex_pdf req))
             then (Some (build_wrapper env req), Some (to_str (latex_pdf req)))
             else (Some (build_wrapper env req), None)
         end.
Proof. reflexivity. Qed.

Lemma build_unfolded w files self env req :
  build w files self env req
  = if tex_exists env && build_dir_made env
    then
      if wrapper_written (latex_env env)
      then
        match latex_exit env req with
        | Some _ =>
            if exists_after_latex (latex_env env) (to_str (latex_pdf req))
            then
              if req_protect_pdf req
              then {| ledger := w; styles := _ensure_style_file files;
                      wrapper_tex := Some (build_wrapper env req);
                      returned := None |}
              else {| ledger := fst (log_build w self (log_env env)
                                       (build_record env req (final_pdf_path env req)));
                      styles := _ensure_style_file files;
                      wrapper_tex := Some (build_wrapper env req);
                      returned := Some (final_pdf_path env req) |}
            else {| ledger := w; styles := _ensure_style_file files;
                    wrapper_tex := Some (build_wrapper env req);
                    returned := None |}
        | None => {| ledger := w; styles := _ensure_style_file files;
                     wrapper_tex := Some (build_wrapper env req);
                     returned := None |}
        end
      else {| ledger := w; styles := _ensure_style_file files;
              wrapper_tex := None; returned := None |}
    else {| ledger := w; styles := files; wrapper_tex := None; returned := None |}.
Proof.
  unfold build. destruct (tex_exists env); cbn [negb andb]; [|reflexivity].
  destruct (build_dir_made env); cbn [negb]; [|reflexivity].
  rewrite run_latex_build_of_build.
  destruct (wrapper_written (latex_env env)); cbn [negb]; [|reflexivity].
  destruct (latex_exit env req); [|reflexivity].
  destruct (exists_after_latex _ _); [|reflexivity].
  destruct (normal_to_str_nonempty _ (latex_pdf_normal req)) as (c & s & Hs).
  unfold final_pdf_path, _log_build. rewrite Hs. reflexivity.
Qed.

End BuildFacts.

Section BuildOutcome.
Import Pathlib PathlibFacts.

Context `{FernetLib} `{Base64Lib} `{JsonLib}.

Lemma stem_latex_pdf req :
  name (parse (req_tex_file req)) <> "" ->
  stem (latex_pdf req) = stem (parse (req_tex_file req)).
Proof.
  intros Hname. unfold stem at 1, latex_pdf. rewrite name_child.
  apply stem_of_pdf_name. now apply stem_of_name_nonempty.
Qed.

(** Rasterizing the PDF of the build directory. *)
Lemma rasterize_latex_pdf env req :
  name (parse (req_tex_file req)) <> "" ->
  _rasterize_pdf (gs_env env) (to_str (latex_pdf req)) (req_raster_dpi req)
  = to_str (if gs_on_path (gs_env env) && gs_succeeds env req
            then raster_pdf req else latex_pdf req).
Proof.
  intros Hname. unfold _rasterize_pdf.
  destruct (gs_on_path (gs_env env)); cbn [negb andb]; [|reflexivity].
  rewrite (parse_to_str _ (latex_pdf_normal req)), (stem_latex_pdf _ Hname).
  assert (Hwith : with_name (latex_pdf req)
                    (stem (parse (req_tex_file req)) +++ ".r"
                     +++ Py.str_of_int (req_raster_dpi req) +++ ".pdf")
                  = Some (raster_pdf req)).
  { unfold latex_pdf, raster_pdf. apply with_name_child.
    - destruct (stem (parse (req_tex_file req))); discriminate.
    - apply raster_name_valid, parse_normal. }
  rewrite Hwith. unfold gs_succeeds.
  destruct (run_gs (gs_env env) _) as [returncode|]; [|reflexivity].
  destruct (size_after_gs (gs_env env) _) as [size|]; [|reflexivity].
  destruct ((returncode =? 0) && (0 <? size)); reflexivity.
Qed.

(** X15.  Once the source file exists and has a name, the build
    directory can be made, the wrapper is written, the compiler process
    ends (with whatever exit code) and the PDF is in the build directory,
    a [build] without protection returns a path in the build directory:
    that of [<stem>.r<dpi>.pdf] when rasterization was asked for, [gs] is
    on the path, exits with 0 and leaves a file that is not empty, and
    that of [<stem>.pdf] in every other case. *)
Theorem build_returns_pdf_of_build_dir :
  forall w files self env req code,
    tex_exists env = true ->
    build_dir_made env = true ->
    name (parse (req_tex_file req)) <> "" ->
    req_protect_pdf req = false ->
    wrapper_written (latex_env env) = true ->
    latex_exit env req = Some code ->
    exists_after_latex (latex_env env) (to_str (latex_pdf req)) = true ->
    let rasterized :=
      req_rasterize req && (gs_on_path (gs_env env) && gs_succeeds env req) in
    let pdf := if rasterized then raster_pdf req else latex_pdf req in
    returned (build w files self env req) = Some (to_str pdf) /\
    parse (to_str pdf) = pdf /\
    root pdf = root (build_dir_of req) /\
    removelast (parts pdf) = parts (build_dir_of req) /\
    name pdf
    = stem (parse (req_tex_file req))
      +++ (if rasterized
           then ".r" +++ Py.str_of_int (req_raster_dpi req) +++ ".pdf"
           else ".pdf").
Proof.
  intros w files self env req code Htex Hdir Hname Hprot Hwrap Hexit Hpdf
    rasterized pdf.
  split.
  { rewrite build_unfolded, Htex, Hdir, Hwrap, Hexit, Hpdf, Hprot.
    cbn [andb returned]. unfold final_pdf_path. subst pdf rasterized.
    destruct (req_rasterize req); cbn [andb]; [|reflexivity].
    now rewrite rasterize_latex_pdf. }
  subst pdf. destruct rasterized.
  - split; [apply parse_to_str, raster_pdf_normal|].
    unfold raster_pdf, child, name. cbn [root parts].
    rewrite removelast_last, last_last. repeat split; reflexivity.
  - split; [apply parse_to_str, latex_pdf_normal|].
    unfold latex_pdf, child, name. cbn [root parts].
    rewrite removelast_last, last_last. repeat split; reflexivity.
Qed.

Lemma build_protected w files self env req :
  req_protect_pdf req = true ->
  returned (build w files self env req) = None /\
  ledger (build w files self env req) = w.
Proof.
  intros Hprot. rewrite build_unfolded, Hprot.
  destruct (tex_exists env && build_dir_made env); [|now split].
  destruct (wrapper_written (latex_env env)); [|now split].
  destruct (latex_exit env req); [|now split].
  destruct (exists_after_latex _ _); now split.
Qed.

(** X16.  The class defines no method [_protect_pdf]: with [protect_pdf]
    true, which is the default, [build] returns [None] whatever else
    holds, and writes nothing to the ledger, although the compiler has
    run and the wrapper has been written by then. *)
Theorem build_with_protection_returns_nothing :
  forall w files self env req,
    req_protect_pdf req = true ->
    returned (build w files self env req) = None /\
    ledger (build w files self env req) = w /\
    (tex_exists env = true -> build_dir_made env = true ->
     wrapper_written (latex_env env) = true ->
     wrapper_tex (build w files self env req) = Some (build_wrapper env req)).
Proof.
  intros w files self env req Hprot.
  destruct (build_protected w files self env req Hprot) as [Hret Hledger].
  split; [exact Hret|]. split; [exact Hledger|].
  intros Htex Hdir Hwrap. rewrite build_unfolded, Htex, Hdir, Hwrap, Hprot.
  cbn [andb]. destruct (latex_exit env req); [|reflexivity].
  destruct (exists_after_latex _ _); reflexivity.
Qed.

Lemma build_returned_None w files self env req :
  returned (build w files self env req) = None ->
  ledger (build w files self env req) = w.
Proof.
  rewrite build_unfolded.
  destruct (tex_exists env && build_dir_made env); [|reflexivity].
  destruct (wrapper_written (latex_env env)); [|reflexivity].
  destruct (latex_exit env req); [|reflexivity].
  destruct (exists_after_latex _ _); [|reflexivity].
  destruct (req_protect_pdf req); [reflexivity|discriminate].
Qed.

Lemma build_returned_Some w files self env req p :
  returned (build w files self env req) = Some p ->
  p = final_pdf_path env req /\
  req_protect_pdf req = false /\
  build w files self env req
  = {| ledger := fst (log_build w self (log_env env) (build_record env req p));
       styles := _ensure_style_file files;
       wrapper_tex := Some (build_wrapper env req);
       returned := Some p |}.
Proof.
  rewrite build_unfolded.
  destruct (tex_exists env && build_dir_made env); [|discriminate].
  destruct (wrapper_written (latex_env env)); [|discriminate].
  destruct (latex_exit env req); [|discriminate].
  destruct (exists_after_latex _ _); [|discriminate].
  destruct (req_protect_pdf req); [discriminate|].
  cbn [returned]. intros [= <-]. repeat split.
Qed.

Lemma log_build_unusable w self env a :
  self_fernet self = None \/ fingerprint env = None \/ database w = None ->
  fst (log_build w self env a) = w.
Proof.
  intros Hno. apply (proj2 (log_build_None_iff w self env a)) in Hno.
  destruct (log_build w self env a) as [w' r] eqn:Hlog. simpl in *. subst r.
  now apply log_build_failure in Hlog.
Qed.

(** X17.  A [build] that returns [None] leaves the ledger as it was, and
    so does one whose logger cannot log (no [fernet], no fingerprint or
    no table); the key file is never touched.  What [build] returns does
    not depend on the ledger, the logger or the style files: a build
    that cannot be logged still returns its PDF. *)
Theorem build_failure_leaves_ledger :
  forall w files self env req,
    (returned (build w files self env req) = None ->
     ledger (build w files self env req) = w) /\
    (self_fernet self = None \/ fingerprint (log_env env) = None
     \/ database w = None ->
     ledger (build w files self env req) = w) /\
    key_file (ledger (build w files self env req)) = key_file w /\
    (forall w' files' self',
        returned (build w' files' self' env req)
        = returned (build w files self env req)).
Proof.
  intros w files self env req.
  split; [apply build_returned_None|].
  split; [|split].
  - intros Hno.
    destruct (returned (build w files self env req)) as [p|] eqn:Hret;
      [|now apply build_returned_None].
    destruct (build_returned_Some _ _ _ _ _ _ Hret) as (_ & _ & ->).
    cbn [ledger]. now apply log_build_unusable.
  - destruct (returned (build w files self env req)) as [p|] eqn:Hret.
    + destruct (build_returned_Some _ _ _ _ _ _ Hret) as (_ & _ & ->).
      cbn [ledger]. apply log_build_key_file.
    + now rewrite (build_returned_None _ _ _ _ _ Hret).
  - intros w' files' self'. rewrite !build_unfolded.
    destruct (tex_exists env && build_dir_made env); [|reflexivity].
    destruct (wrapper_written (latex_env env)); [|reflexivity].
    destruct (latex_exit env req); [|reflexivity].
    destruct (exists_after_latex _ _); [|reflexivity].
    destruct (req_protect_pdf req); reflexivity.
Qed.

Section WithLaws.

Context `{!LibraryLaws}.



End WithLaws.

End BuildOutcome.

(** * Validating a PDF *)

Module SortedFacts.

Import Py.

Lemma insert_sorted_perm x (l : list string) :
  Permutation (Py.insert_sorted x l) (x :: l).
Proof.
  induction l as [|y l IH]; simpl; [apply Permutation_refl|].
  destruct (String.leb x y); [apply Permutation_refl|].
  eapply Permutation_trans; [apply perm_skip, IH|apply perm_swap].
Qed.

Lemma sorted_perm (l : list string) : Permutation (Py.sorted l) l.
Proof.
  induction l as [|x l IH]; simpl; [apply perm_nil|].
  eapply Permutation_trans; [apply insert_sorted_perm|now apply perm_skip].
Qed.

Lemma insert_sorted_sorted x (l : list string) :
  StronglySorted le l -> StronglySorted le (Py.insert_sorted x l).
Proof.
  induction 1 as [|y l Hs IH Hy]; simpl.
  - constructor; constructor.
  - destruct (String.leb x y) eqn:E.
    + constructor; [now constructor|]. constructor; [exact E|].
      rewrite Forall_forall in *. intros z Hz.
      eapply StrOrder.leb_trans; [exact E|now apply Hy].
    + constructor; [exact IH|].
      rewrite Forall_forall in *. intros z Hz.
      apply (Permutation_in _ (insert_sorted_perm x l)) in Hz.
      destruct Hz as [<-|Hz]; [now apply StrOrder.leb_false_flip|now apply Hy].
Qed.

Lemma sorted_sorted (l : list string) : StronglySorted le (Py.sorted l).
Proof.
  induction l as [|x l IH]; simpl; [constructor|now apply insert_sorted_sorted].
Qed.

End SortedFacts.

Section ValidateFacts.

Context `{FernetLib} `{Base64Lib} `{JsonLib}.
Variable metadata : Type.

Lemma collect_matches_In w self (tokens : list string) m :
  In m (collect_matches w self tokens)
  <-> exists token, In token tokens /\ find_by_recipient_token w self token = Some m.
Proof.
  induction tokens as [|t tokens IH]; simpl.
  - split; [intros []|intros (? & [] & _)].
  - destruct (find_by_recipient_token w self t) as [found|] eqn:E.
    + simpl. rewrite IH. split.
      * intros [<-|(token & Hin & Hf)]; [exists t; auto|exists token; auto].
      * intros (token & [<-|Hin] & Hf); [left; congruence|right; eauto].
    + rewrite IH. split.
      * intros (token & Hin & Hf). exists token; auto.
      * intros (token & [<-|Hin] & Hf); [congruence|eauto].
Qed.

Lemma collect_matches_length w self (tokens : list string) :
  (List.length (collect_matches w self tokens) <= List.length tokens)%nat.
Proof.
  induction tokens as [|t tokens IH]; simpl; [lia|].
  destruct (find_by_recipient_token w self t); simpl; lia.
Qed.

Lemma find_by_recipient_token_row w self token found :
  find_by_recipient_token w self token = Some found ->
  exists r,
    In r (table_rows w) /\ carries_token self token r /\
    m_build_hash found = Sqlite.build_hash r /\
    m_user_fingerprint found = Sqlite.user_fingerprint r.
Proof.
  unfold find_by_recipient_token, table_rows.
  destruct (database w) as [t|]; [|discriminate].
  pose proof (find_in_rows_first self token _
                (SqliteFacts.order_by_sorted (Sqlite.rows t))) as Hfirst.
  intros Hfound. rewrite Hfound in Hfirst.
  destruct Hfirst as (r & Hin & Hentry & _). exists r.
  destruct (token_entry_Some _ _ _ _ Hentry) as (Hc & Hh & Hfp).
  split; [exact (proj1 (SqliteFacts.order_by_In _ _) Hin)|]. auto.
Qed.

(** X19.  Unless extracting the tokens or printing the report raises,
    [validate_pdf] returns a report for the given file: its tokens are
    the extracted ones in ascending order, it has at most one match for
    each token, and every match is the answer of
    [find_by_recipient_token] for one of the extracted tokens, hence
    names a row of the ledger whose decrypted metadata carry that token.
    When extraction raises, [None] is returned. *)
Theorem validate_pdf_report :
  forall w self (tokens : list string) (meta : metadata) pdf_path,
    validate_pdf metadata w self None true pdf_path = None /\
    exists report,
      validate_pdf metadata w self (Some (tokens, meta)) true pdf_path = Some report /\
      report_pdf report = pdf_path /\
      report_metadata report = meta /\
      Permutation (report_tokens report) tokens /\
      StronglySorted Py.le (report_tokens report) /\
      (List.length (report_matches report) <= List.length tokens)%nat /\
      (forall m,
          In m (report_matches report) <->
          exists token,
            In token tokens /\ find_by_recipient_token w self token = Some m) /\
      (forall m,
          In m (report_matches report) ->
          exists token r,
            In token tokens /\ In r (table_rows w) /\
            carries_token self token r /\
            m_build_hash m = Sqlite.build_hash r /\
            m_user_fingerprint m = Sqlite.user_fingerprint r).
Proof.
  intros w self tokens meta pdf_path. split; [reflexivity|].
  eexists. split; [reflexivity|]. cbn [report_pdf report_metadata report_tokens report_matches].
  split; [reflexivity|]. split; [reflexivity|].
  split; [apply SortedFacts.sorted_perm|].
  split; [apply SortedFacts.sorted_sorted|].
  split; [apply collect_matches_length|].
  split; [intros m; apply collect_matches_In|].
  intros m Hm. apply collect_matches_In in Hm. destruct Hm as (token & Hin & Hfound).
  destruct (find_by_recipient_token_row _ _ _ _ Hfound) as (r & Hr & Hc & Hh & Hfp).
  exists token, r. auto.
Qed.

End ValidateFacts.

(** * One build for each recipient *)

Section FanoutFacts.

Context `{FernetLib} `{Base64Lib} `{JsonLib}.

Lemma fanout_loop_result w files self env out_root tex_file classification
    watermark_text footer_fingerprint (rows : list fanout_row) n ok :
  let r := fanout_loop w files self env out_root tex_file classification
             watermark_text footer_fingerprint rows n ok in
  fst (fst r) = w /\
  (snd r = true <-> ok = true /\ Forall (fun row => row_token row = None) rows).
Proof.
  revert w files n ok. induction rows as [|row rows IH]; intros w files n ok.
  - simpl. split; [reflexivity|]. split; [intros ->; now split|now intros [-> _]].
  - cbn [fanout_loop]. destruct (row_token row) as [token|] eqn:Htoken.
    + destruct (subdir_made env _); cbn [negb].
      * set (req := fanout_request tex_file classification watermark_text
                      footer_fingerprint (Pathlib.joinpath out_root token) token).
        destruct (build_protected w files self (build_env env n) req eq_refl)
          as [Hret Hledger].
        rewrite Hret, Hledger. cbn [PyStr.truthy]. rewrite andb_false_r.
        destruct (IH w (styles (build w files self (build_env env n) req)) (S n) false)
          as [Hw Hok].
        split; [exact Hw|]. split.
        -- intros Htrue. apply Hok in Htrue. destruct Htrue; discriminate.
        -- intros [_ Hall]. inversion Hall; congruence.
      * simpl. split; [reflexivity|]. split; [discriminate|].
        intros [_ Hall]. inversion Hall; congruence.
    + destruct (IH w files n ok) as [Hw Hok]. split; [exact Hw|].
      rewrite Hok. split.
      * intros [Hk Hall]. split; [exact Hk|now constructor].
      * intros [Hk Hall]. split; [exact Hk|now inversion Hall].
Qed.

(** X20.  [fanout_builds] asks every build for protection, which [build]
    cannot give: it returns [True] only when the output root can be
    made, the CSV can be read and no row names a recipient (in the
    columns [recipient], [id] or [token]); with one recipient or more it
    returns [False].  It never adds to the ledger. *)
Theorem fanout_builds_only_without_recipients :
  forall w files self env tex_file classification output_root watermark_text
         footer_fingerprint,
    let r := fanout_builds w files self env tex_file classification output_root
               watermark_text footer_fingerprint in
    fst (fst r) = w /\
    (snd r = true
     <-> out_root_made env = true /\
         exists rows,
           csv_rows env = Some rows /\
           Forall (fun row => row_token row = None) rows).
Proof.
  intros w files self env tex_file classification output_root watermark_text
    footer_fingerprint. unfold fanout_builds.
  destruct (out_root_made env); cbn [negb].
  - destruct (csv_rows env) as [rows|].
    + destruct (fanout_loop_result w files self env
                  (Pathlib.parse (Py.or_else output_root "fanout_out"))
                  tex_file classification watermark_text footer_fingerprint
                  rows 0 true) as [Hw Hok].
      cbv zeta in *. split; [exact Hw|]. rewrite Hok. split.
      * intros [_ Hall]. split; [reflexivity|]. now exists rows.
      * intros [_ (rows' & [= <-] & Hall)]. now split.
    + simpl. split; [reflexivity|]. split; [discriminate|].
      intros [_ (rows & Hrows & _)]. discriminate.
  - simpl. split; [reflexivity|]. split; [discriminate|]. intros [Hm _]. discriminate.
Qed.

End FanoutFacts.

(** * The added properties on concrete cases *)

Section MoreWitnesses.
Import Standin Scenario Cases.



Lemma build_ids_increase_witness :
  log_build (fst opened) (snd opened) alice_env B1 = (with_B1, Some 1) /\
  snd (log_build with_B1_B2 (snd opened) later_env B1) = Some 3 /\
  0 < 1 /\
  (forall r, In r (table_rows (fst opened)) -> Sqlite.id r < 1) /\
  1 < 3.
Proof.
  assert (H1 : log_build (fst opened) (snd opened) alice_env B1 = (with_B1, Some 1))
    by (vm_compute; reflexivity).
  assert (H2 : log_build (log_builds with_B1 (snd opened) [(later_env, B2)])
                 (snd opened) later_env B1
               = (fst (log_build with_B1_B2 (snd opened) later_env B1), Some 3))
    by (vm_compute; reflexivity).
  split; [exact H1|]. split; [vm_compute; reflexivity|].
  exact (build_ids_increase _ _ _ _ _ _ _ _ _ _ _ H1 H2).
Defined.

Lemma log_build_leaves_other_hashes_witness :
  stored_row (log_builds with_B1 (snd opened) [(later_env, B2)]) "B1"
  = stored_row with_B1 "B1" /\
  verify_build (log_builds with_B1 (snd opened) [(later_env, B2)]) (snd opened) "B1"
  = verify_build with_B1 (snd opened) "B1".
Proof.
  assert (Hother : Forall (fun call : environment * build_args =>
                             "B1" <> arg_build_hash (snd call))
                     [(later_env, B2)])
    by (constructor; [simpl; discriminate|constructor]).
  destruct (log_build_leaves_other_hashes with_B1 (snd opened) _ "B1" Hother)
    as (Hrow & Hverify & _).
  split; [exact Hrow|exact Hverify].
Defined.

Lemma list_builds_bounded_witness :
  Z.of_nat (List.length (list_builds with_B1_B2 (snd opened) 1))
  <= Z.min 1 (Z.of_nat (List.length (table_rows with_B1_B2))).
Proof.
  apply (list_builds_bounded with_B1_B2 (snd opened) 1). lia.
Defined.


Lemma logged_row_answers_to_its_token_witness :
  exists r,
    stored_row with_B1 "B1" = Some r /\
    (token_entry (snd opened) "alice" r <> None
     <-> arg_recipient_token B1 = Some "alice") /\
    (token_entry (snd opened) "bob" r <> None
     <-> arg_recipient_token B1 = Some "bob").
Proof.
  assert (Hlog : log_build (fst opened) (snd opened) alice_env B1 = (with_B1, Some 1))
    by (vm_compute; reflexivity).
  eexists. split; [vm_compute; reflexivity|]. split.
  - apply (@logged_row_answers_to_its_token _ _ _ StandinFacts.laws
             _ _ _ _ _ _ _ "alice" Hlog).
    vm_compute. reflexivity.
  - apply (@logged_row_answers_to_its_token _ _ _ StandinFacts.laws
             _ _ _ _ _ _ _ "bob" Hlog).
    vm_compute. reflexivity.
Defined.


Lemma stats_after_log_build_witness :
  let before := get_user_builds_stats with_B1 (FingerprintIs (Some "a1b2c3d4e5f60718")) in
  let after :=
    get_user_builds_stats (fst (log_build with_B1 (snd opened) bob_env B1))
      (FingerprintIs (Some "a1b2c3d4e5f60718")) in
  user_builds before = 1 /\ total_builds before = 1 /\
  user_builds after = 0 /\ total_builds after = 1.
Proof.
  assert (Hu : world_unique with_B1)
    by (vm_compute; constructor; [intros []|constructor]).
  assert (Hlog : log_build with_B1 (snd opened) bob_env B1
                 = (fst (log_build with_B1 (snd opened) bob_env B1), Some 2))
    by (vm_compute; reflexivity).
  destruct (stats_after_log_build with_B1 (snd opened) bob_env B1 _ 2
              "0f0e0d0c0b0a0908" "a1b2c3d4e5f60718" Hu Hlog eq_refl)
    as [Htotal Huser].
  assert (Hb : user_builds (get_user_builds_stats with_B1
                              (FingerprintIs (Some "a1b2c3d4e5f60718"))) = 1
               /\ total_builds (get_user_builds_stats with_B1
                                  (FingerprintIs (Some "a1b2c3d4e5f60718"))) = 1)
    by (split; vm_compute; reflexivity).
  destruct Hb as [Hb1 Hb2]. cbv zeta.
  split; [exact Hb1|]. split; [exact Hb2|].
  split; [rewrite Huser|rewrite Htotal]; vm_compute; reflexivity.
Defined.

Lemma export_covers_readable_rows_witness :
  exists b entries kept,
    export_signed with_B1_B2 (snd opened) export_env "evidence" (Some "0xA1") = Some b /\
    builds_json b = json_dump_indent (Json.List entries) /\
    map Some entries = map (export_entry (snd opened)) kept /\
    StronglySorted Sqlite.newer_or_equal kept.
Proof.
  assert (Hexp : { b | export_signed with_B1_B2 (snd opened) export_env "evidence"
                         (Some "0xA1") = Some b })
    by (eexists; vm_compute; reflexivity).
  destruct Hexp as [b Hexp].
  destruct (export_covers_readable_rows _ _ _ _ _ _ Hexp)
    as (entries & kept & Hjson & Hmap & Hsorted & _).
  exists b, entries, kept. auto.
Defined.

Lemma build_returns_pdf_of_build_dir_witness :
  returned (build (fst opened) no_files (snd opened) test_env test_request)
  = Some "build/doc.r110.pdf" /\
  Pathlib.name (Pathlib.parse "build/doc.r110.pdf") = "doc.r110.pdf".
Proof.
  assert (Hname : Pathlib.name (Pathlib.parse (req_tex_file test_request)) <> "")
    by (vm_compute; discriminate).
  destruct (build_returns_pdf_of_build_dir (fst opened) no_files (snd opened)
              test_env test_request 0 eq_refl eq_refl Hname eq_refl eq_refl
              eq_refl eq_refl)
    as (Hret & Hparse & _ & _ & Hpdf).
  split; [exact Hret|]. exact (eq_trans (f_equal Pathlib.name Hparse) Hpdf).
Defined.

Lemma build_with_protection_returns_nothing_witness :
  returned (build (fst opened) no_files (snd opened) test_env protected_request) = None /\
  ledger (build (fst opened) no_files (snd opened) test_env protected_request)
  = fst opened.
Proof.
  destruct (build_with_protection_returns_nothing (fst opened) no_files (snd opened)
              test_env protected_request eq_refl) as (Hret & Hledger & _).
  split; [exact Hret|exact Hledger].
Defined.


End MoreWitnesses.
